(** * MIND platform: chat playground context management, API-key listing,
      and the container/Redis reconciliation script

    Shallow embedding of
    - [frontend/src/components/ChatPlayground.jsx] ([handleStreamingResponse]),
    - [frontend/src/components/ApiKeyManager.jsx] (the key listing),
    - [sync_redis.sh] (container scan, stale-entry cleanup, nginx routes),
    together with the properties the platform specification states about them. *)

From Stdlib Require Import ZArith QArith String Ascii.
From stdpp Require Import gmap strings list fin_maps.
From Equations Require Import Equations.

Local Open Scope string_scope.
Local Open Scope Z_scope.

(** Remembers the value a scrutinee evaluated to, so that the branch of a
    loop knows its guard held. *)
Definition with_eq {A} (a : A) : {b : A | a = b} := exist _ a eq_refl.

(** The last [k] elements of a list. *)
Definition lastn {A} (k : nat) (l : list A) : list A := drop (length l - k) l.

(** ** JavaScript primitives used by the front end *)
Module JS.

(** [Math.ceil(n / d)] on integers, [d > 0]. *)
Definition Math_ceil_div (n d : Z) : Z := - ((- n) / d).

(** [arr.slice(start)]: a negative [start] counts from the end, and both
    directions are clamped to the array. *)
Definition slice_from {A} (start : Z) (arr : list A) : list A :=
  let len := Z.of_nat (length arr) in
  let k := if start <? 0 then Z.max (len + start) 0 else Z.min start len in
  drop (Z.to_nat k) arr.

(** [arr.splice(start, deleteCount)] for non-negative arguments: the array
    that remains. Out-of-range arguments are clamped ([take]/[drop] do it). *)
Definition splice {A} (start deleteCount : nat) (arr : list A) : list A :=
  take start arr ++ drop (start + deleteCount) arr.

End JS.

(** ** ChatPlayground.jsx *)
Module ChatPlayground.

(** A chat message [{ role, content }]; [content.length] is the number of
    code units of the string. *)
Record Message := { role : string; content : string }.

(** The deployed-model records handed to the component as [models]. *)
Record Model := { abbr : string; endpoint : string }.

(** The [useState] cells that [handleStreamingResponse] reads or writes.
    [maxTokens] is the whole number typed into the Max Tokens field; the
    component does not clamp it. *)
Record State := {
  messages : list Message;
  selectedModel : string;
  temperature : Q;
  maxTokens : Z;
  topP : Q;
  systemPrompt : string;
  contextTruncated : bool
}.

(** Initial values of the cells, as given to [useState]. *)
Definition initialState : State := {|
  messages := [];
  selectedModel := "";
  temperature := 7 # 10;
  maxTokens := 512;
  topP := 9 # 10;
  systemPrompt := "You are a helpful assistant.";
  contextTruncated := false
|}.

(** The JSON body of the POST. *)
Module Body.
Record t := {
  messages : list Message;
  stream : bool;
  temperature : Q;
  max_tokens : Z;
  top_p : Q
}.
End Body.

(** The upstream call: [fetch(apiEndpoint, { method: 'POST', body })]. *)
Record Fetch := { url : string; body : Body.t }.

Definition set_contextTruncated (b : bool) (st : State) : State :=
  {| messages := messages st; selectedModel := selectedModel st;
     temperature := temperature st; maxTokens := maxTokens st;
     topP := topP st; systemPrompt := systemPrompt st;
     contextTruncated := b |}.

(** [msgs.reduce((sum, msg) => sum + Math.ceil(msg.content.length / 4), 0)] *)
Definition estimateTokens (msgs : list Message) : Z :=
  fold_left
    (fun sum msg => sum + JS.Math_ceil_div (Z.of_nat (String.length (content msg))) 4)
    msgs 0.

Definition modelMaxContext : Z := 2048.

(** [[{role:'system', content: systemPrompt},
      ...messages.filter(m => m.role !== 'system'), userMessage]] *)
Definition allMessages (st : State) (userMessage : Message) : list Message :=
  {| role := "system"; content := systemPrompt st |}
    :: filter (fun m => role m ≠ "system") (messages st) ++ [userMessage].

(** The test [estimateTokens(msgs) + maxTokens > modelMaxContext - 50]. *)
Definition tooLong (maxTokens : Z) (msgs : list Message) : bool :=
  modelMaxContext - 50 <? estimateTokens msgs + maxTokens.

(** [[allMessages[0], ...allMessages.slice(-(Math.min(10, allMessages.length - 1)))]].
    [allMessages] is never empty: index 0 is the system prompt. *)
Definition keepRecent (allMessages : list Message) : list Message :=
  match allMessages with
  | [] => []
  | m0 :: _ =>
      m0 :: JS.slice_from (- Z.min 10 (Z.of_nat (length allMessages) - 1)) allMessages
  end.

(** Guard of the [while]. *)
Definition loopGuard (maxTokens : Z) (messagesToSend : list Message) : bool :=
  tooLong maxTokens messagesToSend && (2 <? length messagesToSend)%nat.

(** [while (guard) { messagesToSend.splice(1, 1); }]. An iteration runs only
    when more than two elements remain and leaves one element fewer. *)
Equations? truncateLoop (maxTokens : Z) (messagesToSend : list Message)
  : list Message by wf (length messagesToSend) lt :=
  truncateLoop maxTokens messagesToSend with with_eq (loopGuard maxTokens messagesToSend) := {
    | exist _ true Hguard => truncateLoop maxTokens (JS.splice 1 1 messagesToSend);
    | exist _ false _ => messagesToSend }.
Proof.
  unfold loopGuard in Hguard. apply andb_prop in Hguard as [_ Hlen].
  apply Nat.ltb_lt in Hlen.
  destruct messagesToSend as [|x [|y l]]; cbn in *; try lia.
  rewrite drop_0. lia.
Qed.

(** The part of [handleStreamingResponse] between the model lookup and the
    [fetch]: the list to send and the value of the truncation flag. *)
Definition contextManagement (st : State) (userMessage : Message)
  : list Message * bool :=
  let allMessages := allMessages st userMessage in
  if tooLong (maxTokens st) allMessages
  then (truncateLoop (maxTokens st) (keepRecent allMessages), true)
  else (allMessages, false).

(** [handleStreamingResponse] up to the point where the request leaves:
    the new state and the call made, if any. Without a model record for
    [selectedModel] the function returns at once. *)
Definition handleStreamingResponse (models : list Model) (st : State)
    (userMessage : Message) : State * option Fetch :=
  match List.find (fun m => String.eqb (abbr m) (selectedModel st)) models with
  | None => (st, None)
  | Some model =>
      let apiEndpoint := endpoint model ++ "/chat/completions" in
      let '(messagesToSend, truncated) := contextManagement st userMessage in
      let inputTokens := estimateTokens messagesToSend in
      let safeMaxTokens :=
        Z.min (maxTokens st) (modelMaxContext - inputTokens - 50) in
      let requestBody := {|
        Body.messages := messagesToSend;
        Body.stream := true;
        Body.temperature := temperature st;
        Body.max_tokens := safeMaxTokens;
        Body.top_p := topP st |} in
      (set_contextTruncated truncated st,
       Some {| url := apiEndpoint; body := requestBody |})
  end.

End ChatPlayground.


(** ** ApiKeyManager.jsx *)
Module ApiKeyManager.

(** An object of the [apiKeys] array, as parsed from the JSON of
    [GET /api-keys]: property name to value; a property that is absent
    reads as [undefined] ([None]). *)
Abbreviation ApiKey := (gmap string string).

(** [if (!key) return '••••••••'; return key.substring(0, 8) + '••••••••••••••••';]
    [undefined] and the empty string are the falsy keys. *)
Definition maskKey (key : option string) : string :=
  match key with
  | None | Some "" => "••••••••"
  | Some key => String.substring 0 8 key ++ "••••••••••••••••"
  end.

(** [a || b] on possibly-undefined strings. *)
Definition or_else (a b : option string) : option string :=
  match a with
  | None | Some "" => b
  | Some _ => a
  end.

(** [toggleKeyVisibility]: the [Set] may hold [undefined]. *)
Definition toggleKeyVisibility (key : option string)
    (visibleKeys : gset (option string)) : gset (option string) :=
  if decide (key ∈ visibleKeys) then visibleKeys ∖ {[ key ]}
  else visibleKeys ∪ {[ key ]}.

(** Text of the [<code>] element of one row of the listing:
    [visibleKeys.has(apiKey.full_key) ? apiKey.full_key
       : maskKey(apiKey.full_key || apiKey.key)];
    React renders [undefined] as nothing. *)
Definition keyText (visibleKeys : gset (option string)) (apiKey : ApiKey) : string :=
  if decide (apiKey !! "full_key" ∈ visibleKeys)
  then default "" (apiKey !! "full_key")
  else maskKey (or_else (apiKey !! "full_key") (apiKey !! "key")).

(** The key texts of the whole listing, [apiKeys.map(...)]. *)
Definition listing (visibleKeys : gset (option string)) (apiKeys : list ApiKey)
  : list string :=
  keyText visibleKeys <$> apiKeys.

End ApiKeyManager.

(** ** sync_redis.sh *)
Module SyncRedis.

(** *** Shell and Python string helpers *)

(** [s] without the leading [p], when [s] starts with [p]. *)
Fixpoint drop_prefix (p s : string) : option string :=
  match p, s with
  | EmptyString, _ => Some s
  | String a p', String b s' => if Ascii.eqb a b then drop_prefix p' s' else None
  | String _ _, EmptyString => None
  end.

(** [grep "^p"] on one line, Python's [s.startswith(p)]. *)
Definition starts_with (p s : string) : bool :=
  match drop_prefix p s with Some _ => true | None => false end.

(** The shell expansion [${s#p}]. *)
Definition strip (p s : string) : string := default s (drop_prefix p s).

(** The fields of a line for the delimiter [d]. *)
Fixpoint fields_of (d : ascii) (s : string) : list string :=
  match s with
  | EmptyString => [EmptyString]
  | String c s' =>
      if Ascii.eqb c d then EmptyString :: fields_of d s'
      else match fields_of d s' with
           | f :: fs => String c f :: fs
           | [] => [String c EmptyString]
           end
  end.

(** [cut -d d -f n]: a line without the delimiter is printed whole. *)
Definition cut (d : ascii) (n : nat) (line : string) : string :=
  match fields_of d line with
  | [whole] => whole
  | fields => nth (n - 1) fields EmptyString
  end.

(** [echo "$lines" | grep -q "^pattern$"] for one line. The pattern is
    built from a model abbreviation, a slug over [a-z0-9._-]: of these
    characters only the dot is special to grep and stands for any one
    character. *)
Fixpoint grep_anchored (pattern line : string) : bool :=
  match pattern, line with
  | EmptyString, EmptyString => true
  | String p pattern', String c line' =>
      (Ascii.eqb p "." || Ascii.eqb p c) && grep_anchored pattern' line'
  | _, _ => false
  end.

(** *** The container runtime *)

(** The parts of [docker inspect] the script reads. *)
Record Inspect := {
  Env : list string;        (* .Config.Env *)
  Args : list string;       (* .Args *)
  Status : string           (* .State.Status *)
}.

Record Docker := {
  ps : list string;                       (* docker ps --format {{.Names}} *)
  inspect : string -> option Inspect      (* None: docker inspect fails *)
}.

(** [RUNNING_MODELS=$(docker ps --format "{{.Names}}" | grep "^MIND_MODEL_")] *)
Definition RUNNING_MODELS (d : Docker) : list string :=
  List.filter (starts_with "MIND_MODEL_") (ps d).

(** The value of the first [CUDA_VISIBLE_DEVICES=] variable, else ["0"]. *)
Definition GPU_DEVICE (env_vars : list string) : string :=
  match List.find (starts_with "CUDA_VISIBLE_DEVICES=") env_vars with
  | Some var => strip "CUDA_VISIBLE_DEVICES=" var
  | None => "0"
  end.

(** The argument after the first [--model] that has one; nothing is printed
    otherwise. *)
Fixpoint model_arg (args : list string) : string :=
  match args with
  | arg :: ((next :: _) as rest) =>
      if String.eqb arg "--model" then next else model_arg rest
  | _ => EmptyString
  end.

(** *** The catalog models.json *)
Record PredefinedModel := { abbr : string; name : string; type : string }.

(** The line printed by the Python program of the catalog lookup when the
    program is the one written, that is, when the texts pasted into it stand
    for themselves (see [verbatim] and [catalog_lookup] below): the first
    entry with the abbreviation or, for a container that names a model,
    with that model name; else [unknown]. *)
Fixpoint lookup_model (predefined_models : list PredefinedModel)
    (MODEL_ABBR MODEL_NAME : string) : string :=
  match predefined_models with
  | [] => MODEL_NAME ++ "|unknown"
  | model :: rest =>
      if String.eqb (abbr model) MODEL_ABBR then
        (if String.eqb MODEL_NAME "" then name model else MODEL_NAME)
          ++ "|" ++ type model
      else if negb (String.eqb MODEL_NAME "") && String.eqb (name model) MODEL_NAME then
        name model ++ "|" ++ type model
      else lookup_model rest MODEL_ABBR MODEL_NAME
  end.

(** models.json as the script finds it. *)
Inductive ModelsJson :=
| NoFile                    (* [ -f "$MODELS_JSON" ] fails *)
| Models (predefined_models : list PredefinedModel)
                            (* a file that the lookup program opens and reads
                               as JSON, whose predefined_models are objects
                               with strings under abbr, name and type *)
| OtherFile.                (* any other file: not JSON, entries of another
                               shape, a path that the program text does not
                               spell *)

(** Printable ASCII. *)
Definition printable (s : string) : bool :=
  forallb (fun c => (32 <=? nat_of_ascii c)%nat && (nat_of_ascii c <=? 126)%nat)
          (list_ascii_of_string s).

Definition without (c : ascii) (s : string) : bool :=
  forallb (fun c' => negb (Ascii.eqb c' c)) (list_ascii_of_string s).

(** The script pastes [$MODEL_ABBR] and [$MODEL_NAME] between single quotes
    into the text of the Python program. A text stands for itself there when
    it is made of printable ASCII characters other than the quote and the
    backslash; with any other text the program is another program, or none
    (a quote ends the literal, a backslash starts an escape, a line feed
    breaks it). *)
Definition verbatim (s : string) : bool :=
  printable s && without "'" s && without "\" s.

(** A text that [cut -d'|'] reads as one field of one line: printable and
    without the delimiter. *)
Definition one_field (s : string) : bool :=
  printable s && without "|" s.

(** The values of [MODEL_NAME] and [MODEL_TYPE] after the catalog lookup
    ([MODEL_INFO=$(python3 -c "...")] and the two [cut]s). When models.json
    is the catalog the program expects and both pasted texts stand for
    themselves, the program is the one written, [lookup_model]. Otherwise
    the two values are whatever python3 leaves, [python3 MODEL_ABBR
    MODEL_NAME]: both are empty when python3 stops with an error before it
    prints (its messages go to /dev/null), as it does on a syntax error. *)
Definition catalog_lookup (MODELS_JSON : ModelsJson)
    (python3 : string -> string -> string * string)
    (MODEL_ABBR MODEL_NAME : string) : string * string :=
  match MODELS_JSON with
  | Models predefined_models =>
      let MODEL_INFO := lookup_model predefined_models MODEL_ABBR MODEL_NAME in
      if verbatim MODEL_ABBR && verbatim MODEL_NAME && printable MODEL_INFO
      then (cut "|" 1 MODEL_INFO, cut "|" 2 MODEL_INFO)
      else python3 MODEL_ABBR MODEL_NAME
  | NoFile | OtherFile => python3 MODEL_ABBR MODEL_NAME
  end.

(** *** The Redis store *)

(** The keys [model:{abbr}] (hashes) and [gpu_assignment:{abbr}] (strings),
    each indexed by the abbreviation after the colon. *)
Record Redis := {
  models : gmap string (gmap string string);
  gpu_assignment : gmap string string
}.

(** [HSET model:abbr f1 v1 f2 v2 ...]: the named fields are written, the
    other fields of an existing hash stay. *)
Definition HSET (abbr : string) (fvs : list (string * string)) (r : Redis) : Redis :=
  {| models :=
       <[ abbr := foldl (fun h fv => <[ fv.1 := fv.2 ]> h)
                        (default ∅ (models r !! abbr)) fvs ]> (models r);
     gpu_assignment := gpu_assignment r |}.

(** [SET gpu_assignment:abbr v] *)
Definition SET_gpu_assignment (abbr v : string) (r : Redis) : Redis :=
  {| models := models r; gpu_assignment := <[ abbr := v ]> (gpu_assignment r) |}.

(** *** Lines echoed by the script *)
Inductive Echo :=
| Found (container GPU : string)
| NotInCatalog (MODEL_ABBR : string)       (* "not found in models.json, skipping type update" *)
| CatalogMissing (MODEL_ABBR : string)     (* "models.json not found" *)
| NotRunning (container STATUS : string)
| CouldNotInspect (container : string)
| RemovedStale (MODEL_ABBR : string).

(** *** Body of [for container in $RUNNING_MODELS] *)
Definition sync_container (d : Docker) (MODELS_JSON : ModelsJson)
    (python3 : string -> string -> string * string)
    (acc : Redis * list Echo) (container : string) : Redis * list Echo :=
  let '(r, out) := acc in
  let MODEL_ABBR := strip "MIND_MODEL_" container in
  match inspect d container with
  | None => (r, out ++ [CouldNotInspect container])%list
  | Some info =>
      let GPU := GPU_DEVICE (Env info) in
      if String.eqb (Status info) "running" then
        let out := (out ++ [Found container GPU])%list in
        let MODEL_NAME := model_arg (Args info) in
        match MODELS_JSON with
        | NoFile => (r, out ++ [CatalogMissing MODEL_ABBR])%list
        | Models _ | OtherFile =>
            let MODEL_INFO := catalog_lookup MODELS_JSON python3 MODEL_ABBR MODEL_NAME in
            let MODEL_NAME := MODEL_INFO.1 in
            let MODEL_TYPE := MODEL_INFO.2 in
            if String.eqb MODEL_TYPE "unknown" then
              (r, out ++ [NotInCatalog MODEL_ABBR])%list
            else
              let CONTAINER_PORT := "8000" in
              (SET_gpu_assignment MODEL_ABBR GPU
                 (HSET MODEL_ABBR
                    [("abbr", MODEL_ABBR); ("name", MODEL_NAME);
                     ("type", MODEL_TYPE); ("status", "running");
                     ("container_name", container); ("container_id", container);
                     ("gpu_device", GPU); ("port", CONTAINER_PORT);
                     ("endpoint", "/api/v1/" ++ MODEL_ABBR)] r),
               out)
        end
      else (r, out ++ [NotRunning container (Status info)])%list
  end.

(** *** Stale-entry cleanup *)

(** [echo "$RUNNING_MODELS" | grep -q "^MIND_MODEL_$MODEL_ABBR$"] *)
Definition container_listed (running : list string) (MODEL_ABBR : string) : bool :=
  existsb (grep_anchored ("MIND_MODEL_" ++ MODEL_ABBR)) running.

(** Every [model:*] key whose container is not listed is deleted, and the
    [gpu_assignment] key of the same abbreviation with it. *)
Definition clean_stale (running : list string) (r : Redis) : Redis :=
  {| models :=
       filter (fun kv => container_listed running kv.1 = true) (models r);
     gpu_assignment :=
       filter (fun kv => models r !! kv.1 = None
                         ∨ container_listed running kv.1 = true)
              (gpu_assignment r) |}.

(** The abbreviations the cleanup reports as removed. *)
Definition stale (running : list string) (r : Redis) : list string :=
  List.filter (fun a => negb (container_listed running a))
              (map_to_list (models r)).*1.

(** The branch taken when no model container runs: every [model:*] key is
    deleted; the [gpu_assignment:*] keys are not touched. *)
Definition clear_all (r : Redis) : Redis :=
  {| models := ∅; gpu_assignment := gpu_assignment r |}.

(** *** The generated nginx include file *)

(** The text written to [nginx/conf.d/model_routes.conf], by syntax: a
    directive [name args;], a block [if (cond) { ... }] or a comment line. *)
#[warnings="-register-all"] Inductive Directive :=
| Dir (name : string) (args : list string)
| IfBlock (cond : string) (body : list Directive)
| Remark (text : string).

(** [location [modifier] path { ... }] *)
Record Location := {
  modifier : option string;
  path : string;
  directives : list Directive
}.

Inductive Item :=
| Comment (text : string)
| Loc (l : Location).

Definition proxy_headers : list Directive :=
  [ Dir "proxy_set_header" ["Host"; "$host"];
    Dir "proxy_set_header" ["X-Real-IP"; "$remote_addr"];
    Dir "proxy_set_header" ["X-Forwarded-For"; "$proxy_add_x_forwarded_for"] ].

Definition cors : list Directive :=
  [ Remark "CORS headers for browser access";
    Dir "add_header" ["'Access-Control-Allow-Origin'"; "'*'"; "always"];
    Dir "add_header" ["'Access-Control-Allow-Methods'"; "'GET, POST, OPTIONS'"; "always"];
    Dir "add_header" ["'Access-Control-Allow-Headers'";
                      "'Authorization, Content-Type, X-API-Key'"; "always"];
    Remark "Handle preflight requests";
    IfBlock "$request_method = 'OPTIONS'"
      [ Dir "add_header" ["'Access-Control-Allow-Origin'"; "'*'"];
        Dir "add_header" ["'Access-Control-Allow-Methods'"; "'GET, POST, OPTIONS'"];
        Dir "add_header" ["'Access-Control-Allow-Headers'";
                          "'Authorization, Content-Type, X-API-Key'"];
        Dir "add_header" ["'Access-Control-Max-Age'"; "1728000"];
        Dir "add_header" ["'Content-Type'"; "'text/plain; charset=utf-8'"];
        Dir "add_header" ["'Content-Length'"; "0"];
        Dir "return" ["204"] ] ].

Definition sse : list Directive :=
  [ Remark "SSE support for streaming";
    Dir "proxy_set_header" ["Connection"; "''"];
    Dir "proxy_http_version" ["1.1"];
    Dir "chunked_transfer_encoding" ["off"];
    Dir "proxy_buffering" ["off"];
    Dir "proxy_cache" ["off"];
    Dir "proxy_read_timeout" ["300s"];
    Dir "proxy_send_timeout" ["300s"] ].

(** [location = /api/v1/$MODEL_ABBR/chat/completions { ... }] *)
Definition chat_location (MODEL_ABBR : string) : Location :=
  {| modifier := Some "=";
     path := "/api/v1/" ++ MODEL_ABBR ++ "/chat/completions";
     directives :=
       Dir "proxy_pass"
           ["http://orchestrator/api/v1/" ++ MODEL_ABBR ++ "/chat/completions"]
         :: (proxy_headers ++ cors ++ sse)%list |}.

(** [location /api/v1/$MODEL_ABBR/ { ... }] *)
Definition model_location (container MODEL_ABBR : string) : Location :=
  {| modifier := None;
     path := "/api/v1/" ++ MODEL_ABBR ++ "/";
     directives :=
       Dir "proxy_pass" ["http://" ++ container ++ ":8000/v1/"]
         :: (proxy_headers ++ cors ++ sse)%list |}.

(** What one round of [for container in $RUNNING_MODELS] appends. *)
Definition model_routes (container : string) : list Item :=
  let MODEL_ABBR := strip "MIND_MODEL_" container in
  [ Comment ("Model: " ++ MODEL_ABBR ++ " (OpenAI-compatible API)");
    Comment "Route chat/completions through orchestrator for smart context management";
    Loc (chat_location MODEL_ABBR);
    Comment "Route all other endpoints directly to model";
    Loc (model_location container MODEL_ABBR) ].

(** The whole file: the header, then the routes of each container. *)
Definition model_routes_conf (running : list string) : list Item :=
  Comment "Auto-generated model routing configuration"
    :: flat_map model_routes running.

(** The [location] blocks of a file, in order. *)
Definition locations (conf : list Item) : list Location :=
  omap (fun i => match i with Loc l => Some l | Comment _ => None end) conf.

(** The arguments of the directives called [name] at the top of a block. *)
Definition directive_args (name : string) (l : Location) : list (list string) :=
  omap (fun d => match d with
                 | Dir n args => if String.eqb n name then Some args else None
                 | IfBlock _ _ | Remark _ => None
                 end) (directives l).

(** The file routes the model [MODEL_ABBR] served by [container]: exactly
    two of its [location] blocks are for [/api/v1/MODEL_ABBR/...]: the
    exact match [.../chat/completions], passed to the orchestrator, and the
    prefix [/api/v1/MODEL_ABBR/], passed to port 8000 of the container under
    [/v1/]; both set the read and the send timeout to 300 s. *)
Definition routes (file : list Item) (container MODEL_ABBR : string) : Prop :=
  exists chat direct,
    filter (fun l : Location =>
              path l = "/api/v1/" ++ MODEL_ABBR ++ "/chat/completions"
              \/ path l = "/api/v1/" ++ MODEL_ABBR ++ "/")
           (locations file)
    = [chat; direct]
    /\ modifier chat = Some "="
    /\ path chat = "/api/v1/" ++ MODEL_ABBR ++ "/chat/completions"
    /\ directive_args "proxy_pass" chat
       = [["http://orchestrator/api/v1/" ++ MODEL_ABBR ++ "/chat/completions"]]
    /\ modifier direct = None
    /\ path direct = "/api/v1/" ++ MODEL_ABBR ++ "/"
    /\ directive_args "proxy_pass" direct
       = [["http://" ++ container ++ ":8000/v1/"]]
    /\ Forall (fun l => directive_args "proxy_read_timeout" l = [["300s"]]
                        /\ directive_args "proxy_send_timeout" l = [["300s"]])
              [chat; direct].

(** *** The script *)

(** What the script finds on the host. *)
Record Host := {
  docker : Docker;
  MODELS_JSON : ModelsJson;
  python3 : string -> string -> string * string; (* see [catalog_lookup] *)
  orchestrator_healthy : bool                    (* curl .../health succeeds *)
}.

(** What the script changes. *)
Record System := {
  redis : Redis;
  conf : list Item        (* nginx/conf.d/model_routes.conf *)
}.

Definition sync_redis (h : Host) (s : System) : System * list Echo :=
  let running := RUNNING_MODELS (docker h) in
  match running with
  | [] => ({| redis := clear_all (redis s); conf := conf s |}, [])
  | _ =>
      let '(r, out) :=
        foldl (sync_container (docker h) (MODELS_JSON h) (python3 h))
              (redis s, []) running in
      let out := (out ++ (RemovedStale <$> stale running r))%list in
      let r := clean_stale running r in
      ({| redis := r;
          conf := if orchestrator_healthy h then model_routes_conf running
                  else conf s |},
       out)
  end.

End SyncRedis.

(** ** The specification's mediator arithmetic, in its own words *)
Module Spec.

(** The per-message estimate [ceil(len(content) / 4) + 4], summed. *)
Definition input_tokens (msgs : list ChatPlayground.Message) : Z :=
  foldr (fun msg sum =>
           JS.Math_ceil_div (Z.of_nat (String.length (ChatPlayground.content msg))) 4
           + 4 + sum) 0 msgs.

(** [R = min(request.max_tokens or default, floor(W/2))] *)
Definition R (W : Z) (max_tokens : Z) : Z := Z.min max_tokens (W / 2).

(** The safety buffer. *)
Definition B : Z := 50.

(** [max(64, W - input_tokens - B)] *)
Definition shrunk_R (W input_tokens : Z) : Z := Z.max 64 (W - input_tokens - B).

(** What the text prescribes once even the minimal message set exceeds the
    budget: with [W - input_tokens - B] negative the request is rejected
    (413) and nothing goes upstream; otherwise it goes upstream with
    [max_tokens = max(64, W - input_tokens - B)]. [upstream] is the
    [max_tokens] of the upstream call, [None] when no call is made. *)
Definition overflow_rule (W input_tokens : Z) (upstream : option Z) : Prop :=
  if W - input_tokens - B <? 0 then upstream = None
  else upstream = Some (shrunk_R W input_tokens).

End Spec.

(** ** Concrete inputs used in examples *)
Module Examples.
Import ChatPlayground.

Definition chars (n : nat) : string := String.concat "" (replicate n "a").

Definition models : list Model := [ {| abbr := "qwen1.5b"; endpoint := "/api/v1/qwen1.5b" |} ].

Definition withSettings (max : Z) (history : list Message) : State :=
  {| messages := history; selectedModel := "qwen1.5b";
     temperature := 7 # 10; maxTokens := max; topP := 9 # 10;
     systemPrompt := "You are a helpful assistant."; contextTruncated := false |}.

Definition hello : Message := {| role := "user"; content := "Hello" |}.

(** The call made for [hello] on an empty history with [maxTokens = 512]. *)
Definition helloCall : Fetch :=
  {| url := "/api/v1/qwen1.5b/chat/completions";
     body := {| Body.messages :=
                  [ {| role := "system"; content := "You are a helpful assistant." |};
                    hello ];
                Body.stream := true; Body.temperature := 7 # 10;
                Body.max_tokens := 512; Body.top_p := 9 # 10 |} |}.

(** A user message of 8000 characters. *)
Definition huge : Message := {| role := "user"; content := chars (80 * 100) |}.

(** A user message of 7812 characters. *)
Definition large : Message := {| role := "user"; content := chars (78 * 100 + 12) |}.

(** Six exchanges of 400 characters per message. *)
Definition longHistory : list Message :=
  mjoin (replicate 6 [ {| role := "user"; content := chars 400 |};
                       {| role := "assistant"; content := chars 400 |} ]).

End Examples.

Module SyncExamples.
Import SyncRedis.

Definition catalog : list PredefinedModel :=
  [ {| abbr := "qwen1.5b"; name := "Qwen/Qwen2.5-1.5B-Instruct"; type := "llm" |};
    {| abbr := "bge-m3"; name := "BAAI/bge-m3"; type := "embedding" |} ].

Definition engine (model_name gpu : string) : Inspect :=
  {| Env := ["PATH=/usr/local/bin"; "CUDA_VISIBLE_DEVICES=" ++ gpu];
     Args := ["--model"; model_name; "--port"; "8000"];
     Status := "running" |}.

(** A host on which the listed containers run; each model container serves
    [model_name] on GPU 1. Its python3 stops with an error on every program
    that is not the one written. *)
Definition host (names : list string) (model_name : string) : Host :=
  {| docker := {| ps := names;
                  inspect := fun container =>
                    if bool_decide (container ∈ names)
                    then Some (engine model_name "1") else None |};
     MODELS_JSON := Models catalog;
     python3 := fun _ _ => ("", "");
     orchestrator_healthy := true |}.

(** A store that holds one record, of a model that was stopped. *)
Definition stoppedRecord : gmap string string :=
  {[ "abbr" := "llama8b"; "status" := "stopped"; "gpu_device" := "0" ]}.

Definition system : System :=
  {| redis := {| models := {[ "llama8b" := stoppedRecord ]};
                 gpu_assignment := {[ "llama8b" := "0" ]} |};
     conf := [] |}.

End SyncExamples.

(** ** AuthContext.jsx *)
Module AuthContext.

(** The provider's [useState] cells. *)
Record State := {
  isAuthenticated : bool;
  token : option string;          (* null: None *)
  loading : bool
}.

(** The cells, the browser's [localStorage], and the delays of the
    [setTimeout(() => logout(), delay)] calls made so far. *)
Record Session := {
  state : State;
  localStorage : gmap string string;
  timers : list Z
}.

(** Initial values of the cells. *)
Definition initialState : State :=
  {| isAuthenticated := false; token := None; loading := true |}.

(** The session when the page has just loaded: the cells hold their initial
    values, the storage is what earlier visits left, no timer is set. *)
Definition pageLoad (stored : gmap string string) : Session :=
  {| state := initialState; localStorage := stored; timers := [] |}.

(** A value that passes [if (x)]: a string that is there and not empty. *)
Definition truthy (x : option string) : bool :=
  match x with
  | None | Some EmptyString => false
  | Some _ => true
  end.

(** [options] of a [fetch] call: the members that are spread, and [headers]. *)
Record Options := {
  method : option string;
  headers : gmap string string;
  body : option string
}.

(** What [fetchWithAuth] gives its caller: the response (its status), or the
    error thrown. *)
Inductive Result :=
| Response (status : Z)
| Thrown (message : string).

Section Provider.
(** [parseInt(s)]; [None] is [NaN]. *)
Variable parseInt : string -> option Z.

(** [logout]: both items are removed from the storage, the token is
    forgotten. *)
Definition logout (s : Session) : Session :=
  {| state := {| isAuthenticated := false; token := None;
                 loading := loading (state s) |};
     localStorage := delete "token_expires" (delete "auth_token" (localStorage s));
     timers := timers s |}.

(** [setTimeout(() => logout(), timeUntilExpiry)] under
    [if (timeUntilExpiry > 0)], with
    [timeUntilExpiry = parseInt(tokenExpires) - Date.now()]. *)
Definition scheduleLogout (tokenExpires : string) (now : Z) (s : Session) : Session :=
  match parseInt tokenExpires with
  | Some expires =>
      if 0 <? expires - now
      then {| state := state s; localStorage := localStorage s;
              timers := (timers s ++ [expires - now])%list |}
      else s
  | None => s
  end.

(** The effect run on mount. [Date.now()] is read twice, first for the
    test [Date.now() < parseInt(tokenExpires)], then for the delay. *)
Definition onMount (now1 now2 : Z) (s : Session) : Session :=
  let storedToken := localStorage s !! "auth_token" in
  let tokenExpires := localStorage s !! "token_expires" in
  let s :=
    match storedToken, tokenExpires with
    | Some storedToken', Some tokenExpires' =>
        if truthy storedToken && truthy tokenExpires then
          match parseInt tokenExpires' with
          | Some expires =>
              if now1 <? expires then
                scheduleLogout tokenExpires' now2
                  {| state := {| isAuthenticated := true;
                                 token := Some storedToken';
                                 loading := loading (state s) |};
                     localStorage := localStorage s; timers := timers s |}
              else logout s
          | None => logout s
          end
        else s
    | _, _ => s
    end in
  {| state := {| isAuthenticated := isAuthenticated (state s);
                 token := token (state s); loading := false |};
     localStorage := localStorage s; timers := timers s |}.

(** [login(authToken)] *)
Definition login (authToken : string) (now : Z) (s : Session) : Session :=
  let s := {| state := {| isAuthenticated := true; token := Some authToken;
                          loading := loading (state s) |};
              localStorage := localStorage s; timers := timers s |} in
  match localStorage s !! "token_expires" with
  | Some tokenExpires =>
      if truthy (Some tokenExpires) then scheduleLogout tokenExpires now s else s
  | None => s
  end.

(** [getAuthHeaders] *)
Definition getAuthHeaders (s : Session) : gmap string string :=
  match token (state s) with
  | Some t => if truthy (Some t) then {[ "Authorization" := "Bearer " ++ t ]} else ∅
  | None => ∅
  end.

(** The second argument handed to [fetch]:
    [{ ...options, headers: { ...options.headers, ...authHeaders } }]. In an
    object spread a later member wins. *)
Definition authOptions (s : Session) (options : Options) : Options :=
  {| method := method options;
     headers := getAuthHeaders s ∪ headers options;
     body := body options |}.

(** [fetchWithAuth(url, options)] against a server that answers a request
    with a status. *)
Definition fetchWithAuth (fetch : string -> Options -> Z)
    (url : string) (options : Options) (s : Session) : Session * Result :=
  let status := fetch url (authOptions s options) in
  if status =? 401 then (logout s, Thrown "Authentication expired")
  else (s, Response status).

End Provider.
End AuthContext.

(** ** ChatPlayground.jsx: sending a message and reading the stream *)
Module ChatSend.
Import ChatPlayground.

(** The cells [handleSend] reads or writes besides those of
    [ChatPlayground.State]. *)
Record UI := {
  chat : State;
  input : string;
  loading : bool
}.

Section Send.
(** [String.prototype.trim] *)
Variable trim : string -> string.

(** The guard [!input.trim() || !selectedModel || loading]. *)
Definition blocked (ui : UI) : Prop :=
  trim (input ui) = "" \/ selectedModel (chat ui) = "" \/ loading ui = true.

(** [handleSend], to the point where the request leaves or
    [handleStreamingResponse] returns without one. [handleStreamingResponse]
    is the closure of the same render: it reads [messages] as they were
    before [setMessages]. Its early return (no model record) comes before the
    [try ... finally], so [setLoading(false)] is not reached on that path. *)
Definition handleSend (models : list Model) (ui : UI) : UI * option Fetch :=
  if String.eqb (trim (input ui)) "" || String.eqb (selectedModel (chat ui)) ""
     || loading ui
  then (ui, None)
  else
    let userMessage := {| role := "user"; content := trim (input ui) |} in
    let assistantMessage := {| role := "assistant"; content := "" |} in
    let '(chat', call) := handleStreamingResponse models (chat ui) userMessage in
    ({| chat := {| messages := (messages (chat ui)
                                ++ [userMessage; assistantMessage])%list;
                   selectedModel := selectedModel chat';
                   temperature := temperature chat';
                   maxTokens := maxTokens chat';
                   topP := topP chat';
                   systemPrompt := systemPrompt chat';
                   contextTruncated := contextTruncated chat' |};
        input := "";
        loading := true |},
     call).

End Send.
End ChatSend.

Module ChatStream.
Import ChatPlayground.

Section Reader.
(** What one [data:] payload adds to the text:
    [JSON.parse(data).choices?.[0]?.delta?.content || ''], and [''] when
    [JSON.parse] throws. *)
Variable deltaContent : string -> string.

(** Body of [for (const line of lines)]. *)
Definition onLine (fullContent line : string) : string :=
  if SyncRedis.starts_with "data: " line then
    let data := SyncRedis.strip "data: " line in        (* line.slice(6) *)
    if String.eqb data "[DONE]" then fullContent
    else fullContent ++ deltaContent data
  else fullContent.

(** One [reader.read()]: [chunk.split('\n')] and the loop over the lines. *)
Definition onChunk (fullContent chunk : string) : string :=
  fold_left onLine (SyncRedis.fields_of "010" chunk) fullContent.

(** The whole [while (true)] loop, from [fullContent = '']. *)
Definition readStream (chunks : list string) : string :=
  fold_left onChunk chunks "".

(** The [setMessages] updater with the text read so far: the last message,
    if it is the assistant's, gets the text. *)
Definition showContent (fullContent : string) (msgs : list Message) : list Message :=
  match reverse msgs with
  | lastMsg :: before =>
      if String.eqb (role lastMsg) "assistant"
      then reverse ({| role := role lastMsg; content := fullContent |} :: before)
      else msgs
  | [] => msgs
  end.

End Reader.
End ChatStream.

(** ** ModelManager: the list of deployed models *)
Module ModelManager.

(** The members of a deployed-model object that the list reads. *)
Record Model := { name : string; abbr : string; status : string; type : string }.

(** The filtering and pagination cells. [itemsPerPage] is set from a select
    that offers 3, 6, 9 and 12. *)
Record State := {
  searchQuery : string;
  statusFilter : string;
  typeFilter : string;
  currentPage : Z;
  itemsPerPage : Z
}.

Definition initialState : State :=
  {| searchQuery := ""; statusFilter := "all"; typeFilter := "all";
     currentPage := 1; itemsPerPage := 6 |}.

(** [s.includes(sub)] *)
Fixpoint includes (sub s : string) : bool :=
  SyncRedis.starts_with sub s
  || match s with
     | EmptyString => false
     | String _ s' => includes sub s'
     end.

(** [arr.slice(start, end)]: a negative index counts from the end, both are
    clamped to the array, and nothing is returned when [end] comes first. *)
Definition slice {A} (start end_ : Z) (arr : list A) : list A :=
  let len := Z.of_nat (length arr) in
  let relative i := if i <? 0 then Z.max (len + i) 0 else Z.min i len in
  let k := relative start in
  let final := relative end_ in
  take (Z.to_nat (final - k)) (drop (Z.to_nat k) arr).

Section Filters.
(** [String.prototype.toLowerCase] *)
Variable toLowerCase : string -> string.

(** The three filters, each applied only when it is set. *)
Definition filteredModels (models : list Model) (st : State) : list Model :=
  let filteredModels := models in
  let filteredModels :=
    if negb (String.eqb (searchQuery st) "") then
      List.filter (fun m => includes (toLowerCase (searchQuery st)) (toLowerCase (name m))
                            || includes (toLowerCase (searchQuery st)) (toLowerCase (abbr m)))
                  filteredModels
    else filteredModels in
  let filteredModels :=
    if negb (String.eqb (statusFilter st) "all") then
      List.filter (fun m => String.eqb (status m) (statusFilter st)) filteredModels
    else filteredModels in
  if negb (String.eqb (typeFilter st) "all") then
    List.filter (fun m => String.eqb (type m) (typeFilter st)) filteredModels
  else filteredModels.

(** [Math.ceil(filteredModels.length / itemsPerPage)] *)
Definition totalPages (models : list Model) (st : State) : Z :=
  JS.Math_ceil_div (Z.of_nat (length (filteredModels models st))) (itemsPerPage st).

Definition startIndex (st : State) : Z := (currentPage st - 1) * itemsPerPage st.
Definition endIndex (st : State) : Z := startIndex st + itemsPerPage st.

Definition paginatedModels (models : list Model) (st : State) : list Model :=
  slice (startIndex st) (endIndex st) (filteredModels models st).

Definition setCurrentPage (page : Z) (st : State) : State :=
  {| searchQuery := searchQuery st; statusFilter := statusFilter st;
     typeFilter := typeFilter st; currentPage := page;
     itemsPerPage := itemsPerPage st |}.

(** The Previous button, the Next button and the button of page [i + 1]. *)
Definition previous (st : State) : State :=
  setCurrentPage (Z.max 1 (currentPage st - 1)) st.
Definition next (models : list Model) (st : State) : State :=
  setCurrentPage (Z.min (totalPages models st) (currentPage st + 1)) st.
Definition page (i : nat) (st : State) : State :=
  setCurrentPage (Z.of_nat i + 1) st.

End Filters.
End ModelManager.

(** ** Dashboard.jsx: the counters *)
Module Dashboard.

Record Model := {
  status : string;
  type : string;
  quantization : option string
}.

Record Stats := {
  total : nat; running : nat; stopped : nat; deploying : nat; error : nat;
  llm : nat; embedding : nat; quantized : nat
}.

Definition count (p : Model -> bool) (models : list Model) : nat :=
  length (List.filter p models).

Definition stats (models : list Model) : Stats :=
  {| total := length models;
     running := count (fun m => String.eqb (status m) "running") models;
     stopped := count (fun m => String.eqb (status m) "stopped") models;
     deploying := count (fun m => String.eqb (status m) "deploying") models;
     error := count (fun m => String.eqb (status m) "error") models;
     llm := count (fun m => String.eqb (type m) "llm") models;
     embedding := count (fun m => String.eqb (type m) "embedding") models;
     quantized :=
       count (fun m => match quantization m with
                       | Some q => String.eqb q "awq" || String.eqb q "gptq"
                       | None => false
                       end) models |}.

End Dashboard.

(** ** restart.sh *)
Module Restart.

Record Options := { SERVICE : string; QUICK : bool }.

(** How the argument loop ends: the script goes on, or [exit code]. *)
Inductive Parsed :=
| Proceed (o : Options)
| Exit (code : Z).

Definition one_of (arg : string) (patterns : list string) : bool :=
  existsb (String.eqb arg) patterns.

(** [while [[ $# -gt 0 ]]; do case $1 in ... esac; done] *)
Fixpoint parse (o : Options) (args : list string) : Parsed :=
  match args with
  | [] => Proceed o
  | arg :: rest =>
      if one_of arg ["--orchestrator"; "-o"] then
        parse {| SERVICE := "orchestrator"; QUICK := QUICK o |} rest
      else if one_of arg ["--frontend"; "-f"] then
        parse {| SERVICE := "frontend"; QUICK := QUICK o |} rest
      else if one_of arg ["--nginx"; "-n"] then
        parse {| SERVICE := "nginx"; QUICK := QUICK o |} rest
      else if one_of arg ["--redis"; "-r"] then
        parse {| SERVICE := "redis"; QUICK := QUICK o |} rest
      else if one_of arg ["--quick"; "-q"] then
        parse {| SERVICE := SERVICE o; QUICK := true |} rest
      else if one_of arg ["--help"; "-h"] then Exit 0
      else Exit 1
  end.

Definition defaults : Options := {| SERVICE := ""; QUICK := false |}.

(** What the script finds. *)
Record Env := {
  platform_running : bool;              (* docker compose ps --quiet prints something *)
  RUNNING_MODELS : list string;         (* the model containers before the restart *)
  sync_redis_executable : bool;         (* [ -x ./sync_redis.sh ] *)
  still_listed : string -> bool         (* docker ps | grep -q "$model", afterwards *)
}.

(** The docker commands and scripts that the script runs, and the lines it
    prints about the model containers. [ComposeRestart ""] restarts every
    service. *)
Inductive Step :=
| StartPlatform                          (* ./start.sh *)
| ComposeRestart (service : string)
| ComposePs
| SyncRedis                              (* ./sync_redis.sh *)
| SyncRedisMissing
| ModelRunning (model : string)
| ModelNeedsRedeploy (model : string).

Definition run (args : list string) (e : Env) : list Step * Z :=
  match parse defaults args with
  | Exit code => ([], code)
  | Proceed o =>
      if negb (platform_running e) then ([StartPlatform], 0)
      else if negb (String.eqb (SERVICE o) "") then
        ([ComposeRestart (SERVICE o)], 0)
      else
        (ComposeRestart ""
           :: (if QUICK o then []
               else ComposePs
                      :: (if sync_redis_executable e then SyncRedis
                          else SyncRedisMissing)
                      :: ((fun model => if still_listed e model
                                        then ModelRunning model
                                        else ModelNeedsRedeploy model)
                            <$> RUNNING_MODELS e)),
         0)
  end.

End Restart.

(** ** restart-rebuild.sh *)
Module Rebuild.

Record Options := {
  NO_CACHE : bool;
  SERVICE : string;
  KEEP_MODELS : bool;
  CLEAR_DATASTORE : bool;
  ALL : bool
}.

Inductive Parsed :=
| Proceed (o : Options)
| Exit (code : Z).

Fixpoint parse (o : Options) (args : list string) : Parsed :=
  match args with
  | [] => Proceed o
  | arg :: rest =>
      if Restart.one_of arg ["--no-cache"; "-n"] then
        parse {| NO_CACHE := true; SERVICE := SERVICE o;
                 KEEP_MODELS := KEEP_MODELS o;
                 CLEAR_DATASTORE := CLEAR_DATASTORE o; ALL := ALL o |} rest
      else if Restart.one_of arg ["--orchestrator"; "-o"] then
        parse {| NO_CACHE := NO_CACHE o; SERVICE := "orchestrator";
                 KEEP_MODELS := KEEP_MODELS o;
                 CLEAR_DATASTORE := CLEAR_DATASTORE o; ALL := ALL o |} rest
      else if Restart.one_of arg ["--frontend"; "-f"] then
        parse {| NO_CACHE := NO_CACHE o; SERVICE := "frontend";
                 KEEP_MODELS := KEEP_MODELS o;
                 CLEAR_DATASTORE := CLEAR_DATASTORE o; ALL := ALL o |} rest
      else if Restart.one_of arg ["--keep-models"; "-k"] then
        parse {| NO_CACHE := NO_CACHE o; SERVICE := SERVICE o;
                 KEEP_MODELS := true;
                 CLEAR_DATASTORE := CLEAR_DATASTORE o; ALL := ALL o |} rest
      else if Restart.one_of arg ["--clear-datastore"; "-c"] then
        parse {| NO_CACHE := NO_CACHE o; SERVICE := SERVICE o;
                 KEEP_MODELS := KEEP_MODELS o;
                 CLEAR_DATASTORE := true; ALL := ALL o |} rest
      else if Restart.one_of arg ["--all"; "-a"] then
        parse {| NO_CACHE := true; SERVICE := SERVICE o;
                 KEEP_MODELS := KEEP_MODELS o;
                 CLEAR_DATASTORE := CLEAR_DATASTORE o; ALL := true |} rest
      else if Restart.one_of arg ["--help"; "-h"] then Exit 0
      else Exit 1
  end.

Definition defaults : Options :=
  {| NO_CACHE := false; SERVICE := ""; KEEP_MODELS := false;
     CLEAR_DATASTORE := false; ALL := false |}.

(** What the script finds; the model containers are listed anew each time
    the script asks. *)
Record Env := {
  compose_installed : bool;             (* command -v docker compose *)
  models_at_start : list string;        (* docker ps ... | grep "^MIND_MODEL_", first *)
  redis_running : bool;                 (* docker ps | grep -q MIND_REDIS_STORE *)
  package_json : bool;                  (* [ -f frontend/package.json ] *)
  models_at_cleanup : list string;      (* the same listing, after the build *)
  routes_file : bool;                   (* [ -f ./nginx/conf.d/model_routes.conf ] *)
  sync_redis_executable : bool;         (* [ -x ./sync_redis.sh ] *)
  models_json : bool;                   (* [ -f frontend/src/models.json ] *)
  dist : bool;                          (* [ -d frontend/dist ] *)
  still_listed : string -> bool         (* docker ps | grep -q "$model", at the end *)
}.

(** The docker, npm and script commands that the script runs, and the
    lines it prints about the kept model containers. A [service] of [""]
    stands for every service. *)
Inductive Step :=
| FlushRedis                             (* redis-cli FLUSHALL *)
| StopModels                             (* docker stop of every MIND_MODEL_ container *)
| RemoveModels                           (* docker rm of every MIND_MODEL_ container *)
| WriteEmptyRoutes                       (* model_routes.conf with its two comment lines *)
| ComposeStop (service : string)
| ComposeBuild (no_cache : bool) (service : string)
| NpmBuild                               (* npm install; npm run build, in frontend *)
| ComposeUp (service : string)
| ComposePs (service : string)
| SyncRedis
| SyncRedisMissing
| RestartOrchestrator                    (* docker compose restart orchestrator *)
| CopyDist                               (* docker cp frontend/dist/. MIND_ADMIN_UI:... *)
| ModelStillRunning (model : string)
| ModelMayNeedRestart (model : string).

Definition nonempty {A} (l : list A) : bool :=
  match l with [] => false | _ => true end.

Section Phases.
Variables (o : Options) (e : Env).

(** [[ -n "$SERVICE" ]] *)
Definition chosen : bool := negb (String.eqb (SERVICE o) "").

(** "Clear datastore if requested" *)
Definition clear : list Step :=
  if CLEAR_DATASTORE o then
    ((if redis_running e then [FlushRedis] else [])
       ++ [StopModels; RemoveModels; WriteEmptyRoutes])%list
  else [].

(** "Stop services before rebuilding" *)
Definition stop : list Step :=
  if chosen then [ComposeStop (SERVICE o)]
  else if KEEP_MODELS o && negb (CLEAR_DATASTORE o) then [ComposeStop ""]
  else [StopModels; ComposeStop ""].

(** "Build services" *)
Definition build : list Step :=
  if chosen then
    ComposeBuild (NO_CACHE o) (SERVICE o)
      :: (if String.eqb (SERVICE o) "frontend" && package_json e
          then [NpmBuild] else [])
  else
    ComposeBuild (NO_CACHE o) ""
      :: (if package_json e then [NpmBuild] else []).

(** The test that guards "Clean model routes if needed". *)
Definition routes_checked : bool := String.eqb (SERVICE o) "nginx" || negb chosen.

(** [$RUNNING_MODELS]: set at the start when the models are kept, and set
    again where the routes are checked. *)
Definition RUNNING_MODELS : list string :=
  if routes_checked then models_at_cleanup e
  else if KEEP_MODELS o then models_at_start e else [].

Definition cleanup : list Step :=
  if routes_checked && negb (nonempty RUNNING_MODELS) && routes_file e
  then [WriteEmptyRoutes] else [].

(** "Start services", the status listing and the sync *)
Definition start : list Step :=
  [ ComposeUp (SERVICE o); ComposePs (SERVICE o);
    if sync_redis_executable e then SyncRedis else SyncRedisMissing ].

(** "Ensuring all configuration changes are applied" *)
Definition apply_changes : list Step :=
  ((if String.eqb (SERVICE o) "orchestrator" || negb chosen
    then [RestartOrchestrator] else [])
   ++ (if negb (String.eqb (SERVICE o) "frontend") && models_json e && dist e
       then [CopyDist] else []))%list.

(** "Check if models need attention" *)
Definition check : list Step :=
  if KEEP_MODELS o && nonempty RUNNING_MODELS then
    (fun model => if still_listed e model then ModelStillRunning model
                  else ModelMayNeedRestart model) <$> RUNNING_MODELS
  else [].

End Phases.

Definition run (args : list string) (e : Env) : list Step * Z :=
  match parse defaults args with
  | Exit code => ([], code)
  | Proceed o =>
      if negb (compose_installed e) then ([], 1)
      else
        ((clear o e ++ stop o ++ build o e ++ cleanup o e ++ start o e
            ++ apply_changes o e ++ check o e)%list, 0)
  end.

End Rebuild.

(** ** Concrete inputs for the send and stream examples *)
Module MoreExamples.
Import ChatPlayground ChatSend.

(** "Hello" typed into an empty conversation. *)
Definition typedHello : UI :=
  {| chat := Examples.withSettings 512 []; input := "Hello"; loading := false |}.

(** A [trim] for texts without surrounding white space. *)
Definition trimmed (s : string) : string := s.

(** A [parseInt] that reads the one expiry of the examples. *)
Definition parseInt (x : string) : option Z :=
  if String.eqb x "1700000000000" then Some 1700000000000 else None.

(** A storage with a token that expires at 1700000000000. *)
Definition stored : gmap string string :=
  {[ "auth_token" := "t0k3n"; "token_expires" := "1700000000000";
     "theme" := "dark" ]}.

(** A host on which one model container runs before a rebuild. *)
Definition rebuildHost : Rebuild.Env :=
  {| Rebuild.compose_installed := true;
     Rebuild.models_at_start := ["MIND_MODEL_qwen1.5b"];
     Rebuild.redis_running := true; Rebuild.package_json := true;
     Rebuild.models_at_cleanup := []; Rebuild.routes_file := true;
     Rebuild.sync_redis_executable := true; Rebuild.models_json := true;
     Rebuild.dist := true; Rebuild.still_listed := fun _ => false |}.

(** Deployed models, for the list and the counters. *)
Definition deployed : list ModelManager.Model :=
  (fun a => {| ModelManager.name := "model-" ++ a; ModelManager.abbr := a;
               ModelManager.status := "running"; ModelManager.type := "llm" |})
    <$> ["a"; "b"; "c"; "d"; "e"; "f"; "g"].

End MoreExamples.

(** * Properties *)

(** ** Context management of the chat playground *)
Section ChatPlaygroundFacts.
Import ChatPlayground.

Lemma Math_ceil_div_4 (n : Z) :
  4 * (JS.Math_ceil_div n 4 - 1) < n <= 4 * JS.Math_ceil_div n 4.
Proof.
  unfold JS.Math_ceil_div.
  pose proof (Z.div_mod (- n) 4 ltac:(lia)).
  pose proof (Z.mod_pos_bound (- n) 4 ltac:(lia)).
  lia.
Qed.

Lemma fold_left_add_shift {A} (f : A -> Z) (l : list A) (a : Z) :
  fold_left (fun sum x => sum + f x) l a
  = a + fold_left (fun sum x => sum + f x) l 0.
Proof.
  revert a. induction l as [|x l IH]; intros a; cbn; [lia|].
  rewrite (IH (a + f x)), (IH (0 + f x)). lia.
Qed.

Lemma estimateTokens_cons m msgs :
  estimateTokens (m :: msgs)
  = JS.Math_ceil_div (Z.of_nat (String.length (content m))) 4 + estimateTokens msgs.
Proof. unfold estimateTokens. cbn. now rewrite fold_left_add_shift. Qed.

Lemma truncateLoop_unfold R mts :
  truncateLoop R mts =
  if loopGuard R mts then truncateLoop R (JS.splice 1 1 mts) else mts.
Proof.
  rewrite truncateLoop_equation_1.
  destruct (with_eq (loopGuard R mts)) as [[] Hg]; cbn; rewrite Hg; reflexivity.
Qed.

Lemma splice_1_1_cons {A} (x y : A) l : JS.splice 1 1 (x :: y :: l) = x :: l.
Proof. reflexivity. Qed.

Lemma loopGuard_length R mts : loopGuard R mts = true -> (2 < length mts)%nat.
Proof.
  unfold loopGuard. intros [_ H]%andb_prop. now apply Nat.ltb_lt in H.
Qed.

(** The loop keeps the head and drops a prefix of what follows it: the
    guard holds before each of the [j] iterations and fails after them. *)
Lemma truncateLoop_drop R m0 rest :
  exists j : nat,
    (j <= length rest - 1)%nat
    /\ truncateLoop R (m0 :: rest) = m0 :: drop j rest
    /\ (forall i, (i < j)%nat -> loopGuard R (m0 :: drop i rest) = true)
    /\ loopGuard R (m0 :: drop j rest) = false.
Proof.
  induction rest as [|x rest IH].
  - exists 0%nat. rewrite truncateLoop_unfold.
    assert (Hg : loopGuard R [m0] = false).
    { unfold loopGuard. cbn. apply andb_false_r. }
    rewrite drop_0, Hg. repeat split; [lia | intros; lia].
  - rewrite truncateLoop_unfold.
    destruct (loopGuard R (m0 :: x :: rest)) eqn:Hg.
    + destruct IH as (j & Hj & Hloop & Hbefore & Hafter).
      pose proof (loopGuard_length _ _ Hg) as Hlen. cbn in Hlen.
      exists (S j). rewrite splice_1_1_cons. cbn [drop].
      repeat split; [cbn; lia | exact Hloop | | exact Hafter].
      intros [|i] Hi; cbn [drop]; [exact Hg | apply Hbefore; lia].
    + exists 0%nat. rewrite drop_0.
      repeat split; [lia | intros; lia | exact Hg].
Qed.

Lemma allMessages_shape st userMessage :
  exists rest,
    allMessages st userMessage
      = {| role := "system"; content := systemPrompt st |} :: rest
    /\ rest = (filter (fun m => role m ≠ "system") (messages st)
               ++ [userMessage])%list
    /\ (1 <= length rest)%nat.
Proof.
  eexists. split; [reflexivity|]. split; [reflexivity|].
  rewrite length_app. cbn. lia.
Qed.

Lemma nonsystem_allMessages st userMessage rest :
  role userMessage ≠ "system" ->
  rest = (filter (fun m => role m ≠ "system") (messages st)
            ++ [userMessage])%list ->
  filter (fun m => role m ≠ "system") (allMessages st userMessage) = rest.
Proof.
  intros Hum ->. unfold allMessages.
  rewrite filter_cons_False by (cbn; tauto).
  rewrite filter_app, (filter_cons_True _ userMessage []) by exact Hum.
  rewrite filter_nil. f_equal. apply list_filter_filter_l. tauto.
Qed.

Lemma slice_recent {A} (m0 : A) rest :
  (1 <= length rest)%nat ->
  JS.slice_from (- Z.min 10 (Z.of_nat (length (m0 :: rest)) - 1)) (m0 :: rest)
  = lastn (Z.to_nat (Z.min 10 (Z.of_nat (length (m0 :: rest)) - 1))) rest.
Proof.
  intros Hlen. unfold JS.slice_from, lastn. cbn [length].
  destruct (Z.ltb_spec (- Z.min 10 (Z.of_nat (S (length rest)) - 1)) 0) as [_|Hge];
    [|lia].
  replace (Z.to_nat (Z.max (Z.of_nat (S (length rest))
             + - Z.min 10 (Z.of_nat (S (length rest)) - 1)) 0))
    with (S (length rest - Z.to_nat (Z.min 10 (Z.of_nat (S (length rest)) - 1))))
    by lia.
  reflexivity.
Qed.

Lemma handleStreamingResponse_sent models st userMessage st' call :
  handleStreamingResponse models st userMessage = (st', Some call) ->
  let sent := (contextManagement st userMessage).1 in
  st' = set_contextTruncated (contextManagement st userMessage).2 st
  /\ Body.messages (body call) = sent
  /\ Body.max_tokens (body call)
     = Z.min (maxTokens st) (modelMaxContext - estimateTokens sent - 50).
Proof.
  unfold handleStreamingResponse.
  destruct (List.find _ models) as [model|]; [|discriminate].
  destruct (contextManagement st userMessage) as [sent truncated].
  intros [= <- <-]. cbn. auto.
Qed.

Lemma handleStreamingResponse_calls models st userMessage model :
  List.find (fun m => String.eqb (abbr m) (selectedModel st)) models = Some model ->
  exists st' call, handleStreamingResponse models st userMessage = (st', Some call).
Proof.
  intros Hfind. unfold handleStreamingResponse. rewrite Hfind.
  destruct (contextManagement st userMessage). eauto.
Qed.

Lemma tooLong_spec R msgs :
  tooLong R msgs = true <-> estimateTokens msgs + R + 50 > modelMaxContext.
Proof. unfold tooLong. rewrite Z.ltb_lt. lia. Qed.

(** C1: every request the playground sends satisfies
    [estimateTokens(messagesToSend) + max_tokens + 50 <= 2048], and the
    [contextTruncated] flag is set to true exactly when the full message list
    did not fit (and to false otherwise). *)
Theorem C1_budget_and_flag models st userMessage st' call :
  handleStreamingResponse models st userMessage = (st', Some call) ->
  modelMaxContext = 2048
  /\ estimateTokens (Body.messages (body call)) + Body.max_tokens (body call) + 50
     <= modelMaxContext
  /\ (contextTruncated st' = true
      <-> estimateTokens (allMessages st userMessage) + maxTokens st + 50
          > modelMaxContext)
  /\ (contextTruncated st' = false
      <-> estimateTokens (allMessages st userMessage) + maxTokens st + 50
          <= modelMaxContext).
Proof.
  intros (-> & -> & ->)%handleStreamingResponse_sent.
  split; [reflexivity|]. split; [lia|].
  unfold contextManagement.
  destruct (tooLong (maxTokens st) (allMessages st userMessage)) eqn:Hlong;
    cbn [snd set_contextTruncated contextTruncated].
  - apply tooLong_spec in Hlong. split; [tauto|]. split; [discriminate|lia].
  - assert (~ estimateTokens (allMessages st userMessage) + maxTokens st + 50
              > modelMaxContext) as Hfit
      by (rewrite <- tooLong_spec; congruence).
    split; [|split; [lia|reflexivity]]. split; [discriminate|tauto].
Qed.

Lemma C1_witness :
  handleStreamingResponse Examples.models (Examples.withSettings 512 []) Examples.hello
  = (Examples.withSettings 512 [], Some Examples.helloCall)
  /\ estimateTokens (Body.messages (body Examples.helloCall))
       + Body.max_tokens (body Examples.helloCall) + 50 <= modelMaxContext.
Proof.
  split; [reflexivity|].
  exact (proj1 (proj2 (C1_budget_and_flag Examples.models
           (Examples.withSettings 512 []) Examples.hello
           (Examples.withSettings 512 []) Examples.helloCall eq_refl))).
Defined.

(** C2 as stated (per-message estimate [ceil(len/4) + 4]) fails on the
    code: a single four-character message is estimated at 1 token, not 5. *)
Lemma C2_counterexample :
  estimateTokens [ {| role := "user"; content := "abcd" |} ]
  <> Spec.input_tokens [ {| role := "user"; content := "abcd" |} ].
Proof. vm_compute. discriminate. Qed.

(** C2, amended: the estimate of a message is [ceil(len(content) / 4)],
    the least integer [c] with [len <= 4 * c], with no role overhead, and the
    per-message estimates are summed. *)
Theorem C2_estimate_is_sum_of_ceilings msgs :
  let per_message m := JS.Math_ceil_div (Z.of_nat (String.length (content m))) 4 in
  estimateTokens msgs = foldr Z.add 0 (per_message <$> msgs)
  /\ forall m, 4 * (per_message m - 1) < Z.of_nat (String.length (content m))
                 <= 4 * per_message m.
Proof.
  cbn zeta. split; [|intros m; apply Math_ceil_div_4].
  induction msgs as [|m msgs IH]; [reflexivity|].
  rewrite estimateTokens_cons, IH. reflexivity.
Qed.

Lemma loopGuard_spec R mts :
  loopGuard R mts = true
  <-> estimateTokens mts + R + 50 > modelMaxContext /\ (2 < length mts)%nat.
Proof.
  unfold loopGuard. rewrite andb_true_iff, tooLong_spec, Nat.ltb_lt. tauto.
Qed.

(** C3 as stated fails on the code: with [max_tokens = 1500] and a history
    of twelve 100-token messages the truncation path is taken and the kept
    set (the system prompt and the last ten other messages, 909 tokens by
    the code's estimate, 953 by the text's) fits under
    [R = min(1500, floor(2048/2)) = 1024] with the buffer, so the loop of the
    text drops nothing; the code drops five more messages and sends six. *)
Lemma C3_counterexample :
  let st := Examples.withSettings 1500 Examples.longHistory in
  let all := allMessages st Examples.hello in
  let R := Spec.R modelMaxContext (maxTokens st) in
  let kept := keepRecent all in
  let sent := (contextManagement st Examples.hello).1 in
  (contextManagement st Examples.hello).2 = true
  /\ estimateTokens all + R + Spec.B > modelMaxContext
  /\ R = 1024
  /\ length kept = 11%nat
  /\ estimateTokens kept + R + Spec.B <= modelMaxContext
  /\ Spec.input_tokens kept + R + Spec.B <= modelMaxContext
  /\ truncateLoop R kept = kept
  /\ length sent = 6%nat
  /\ sent <> kept.
Proof.
  cbn zeta. split_and!; try (vm_compute; reflexivity); vm_compute; discriminate.
Qed.

(** C3, amended: on the truncation path the first message of the list is
    always the system prompt of the settings, the only message of the list
    with role "system", and it is always kept; the list kept first is that
    message followed by the last [k] non-system messages,
    [k = min(10, len - 1)]; the loop then drops the oldest non-system
    message, one per iteration, as long as the estimate plus the requested
    [max_tokens] itself (with no cap at [floor(W/2)]) plus 50 exceeds 2048
    and more than two messages remain. *)
Theorem C3_truncation_path st userMessage :
  let all := allMessages st userMessage in
  let R := maxTokens st in
  let k := Z.to_nat (Z.min 10 (Z.of_nat (length all) - 1)) in
  let m0 := {| role := "system"; content := systemPrompt st |} in
  let nonsystem := filter (fun m => role m ≠ "system") all in
  let sent := (contextManagement st userMessage).1 in
  let exceeds msgs :=
    estimateTokens msgs + R + 50 > modelMaxContext /\ (2 < length msgs)%nat in
  role userMessage ≠ "system" ->
  estimateTokens all + R + 50 > modelMaxContext ->
  exists j,
    all = m0 :: nonsystem
    /\ sent !! 0%nat = Some m0
    /\ k = Nat.min 10 (length all - 1)
    /\ keepRecent all = m0 :: lastn k nonsystem
    /\ sent = m0 :: drop j (lastn k nonsystem)
    /\ (forall i, (i < j)%nat -> exceeds (m0 :: drop i (lastn k nonsystem)))
    /\ ~ exceeds (m0 :: drop j (lastn k nonsystem)).
Proof.
  intros all R k m0 nonsystem sent exceeds Hum Hlong.
  destruct (allMessages_shape st userMessage) as (rest & Hall & Hrest & Hlen).
  fold m0 in Hall.
  assert (Hns : nonsystem = rest)
    by (apply (nonsystem_allMessages st userMessage rest Hum Hrest)).
  assert (Hkeep : keepRecent all = m0 :: lastn k rest).
  { subst all k. rewrite Hall. unfold keepRecent. f_equal.
    apply slice_recent, Hlen. }
  destruct (truncateLoop_drop R m0 (lastn k rest))
    as (j & _ & Hloop & Hbefore & Hafter).
  assert (Hsent : sent = m0 :: drop j (lastn k rest)).
  { subst sent. unfold contextManagement. fold all R.
    apply tooLong_spec in Hlong. rewrite Hlong. cbn [fst].
    rewrite Hkeep. exact Hloop. }
  exists j. rewrite Hns, Hsent.
  split_and!; try reflexivity.
  - exact Hall.
  - subst k all. rewrite Hall. cbn [length]. lia.
  - exact Hkeep.
  - intros i Hi. apply loopGuard_spec, Hbefore, Hi.
  - intros Hex%loopGuard_spec. congruence.
Qed.

Lemma C3_witness :
  let st := Examples.withSettings 1500 Examples.longHistory in
  (contextManagement st Examples.hello).1 !! 0%nat
  = Some {| role := "system"; content := systemPrompt st |}.
Proof.
  intros st.
  destruct (C3_truncation_path st Examples.hello) as (j & _ & Hfirst & _).
  - discriminate.
  - vm_compute. reflexivity.
  - exact Hfirst.
Defined.

(** On a history of twelve 100-token messages with [maxTokens = 1500] the
    playground sends the system prompt, the four newest messages of the
    history and the new user message. *)
Example truncation_run :
  let st := Examples.withSettings 1500 Examples.longHistory in
  contextManagement st Examples.hello
  = ({| role := "system"; content := systemPrompt st |}
       :: drop 8 (Examples.longHistory ++ [Examples.hello])%list, true).
Proof. vm_compute. reflexivity. Qed.

(** C4 as stated fails on the code: with [max_tokens = 1500] and a short
    prompt the request fits under [R = min(1500, floor(2048/2)) = 1024], yet
    the playground sends [max_tokens = 1500], not 1024. *)
Lemma C4_counterexample :
  let st := Examples.withSettings 1500 [] in
  let all := allMessages st Examples.hello in
  let R := Spec.R modelMaxContext (maxTokens st) in
  ~ (estimateTokens all + R + Spec.B <= modelMaxContext ->
     exists st' call,
       handleStreamingResponse Examples.models st Examples.hello = (st', Some call)
       /\ Body.messages (body call) = all
       /\ Body.max_tokens (body call) = R).
Proof.
  intros st all R Hclaim.
  destruct Hclaim as (st' & call & Hcall & _ & Hmax); [vm_compute; discriminate|].
  apply handleStreamingResponse_sent in Hcall as (_ & _ & Hsent).
  rewrite Hsent in Hmax. vm_compute in Hmax. discriminate.
Qed.

(** C4, amended: the budget is the requested [max_tokens] itself (default
    512), with no cap at [floor(W/2)], and the buffer is 50; whenever the
    estimate of the full list plus that budget plus 50 is at most 2048, the
    list is sent unchanged with [max_tokens] exactly the requested value. *)
Theorem C4_fits_unchanged models st userMessage st' call :
  handleStreamingResponse models st userMessage = (st', Some call) ->
  estimateTokens (allMessages st userMessage) + maxTokens st + 50 <= modelMaxContext ->
  Body.messages (body call) = allMessages st userMessage
  /\ Body.max_tokens (body call) = maxTokens st
  /\ maxTokens initialState = 512.
Proof.
  intros (_ & -> & ->)%handleStreamingResponse_sent Hfit.
  unfold contextManagement.
  assert (tooLong (maxTokens st) (allMessages st userMessage) = false) as ->.
  { destruct (tooLong _ _) eqn:Hlong; [|reflexivity].
    apply tooLong_spec in Hlong. lia. }
  cbn [fst]. split_and!; [reflexivity | lia | reflexivity].
Qed.

Lemma C4_witness :
  Body.messages (body Examples.helloCall)
  = allMessages (Examples.withSettings 512 []) Examples.hello
  /\ Body.max_tokens (body Examples.helloCall) = 512.
Proof.
  destruct (C4_fits_unchanged Examples.models (Examples.withSettings 512 [])
              Examples.hello (Examples.withSettings 512 []) Examples.helloCall)
    as (Hm & Hr & _).
  - reflexivity.
  - vm_compute. discriminate.
  - split; [exact Hm | exact Hr].
Defined.

(** Once the estimate of the list sent still exceeds the budget, no more
    than two messages are left. *)
Lemma contextManagement_minimal st userMessage :
  estimateTokens (contextManagement st userMessage).1 + maxTokens st + 50
    > modelMaxContext ->
  (length (contextManagement st userMessage).1 <= 2)%nat.
Proof.
  unfold contextManagement.
  destruct (tooLong (maxTokens st) (allMessages st userMessage)) eqn:Hlong;
    cbn [fst]; intros Hex.
  - destruct (allMessages_shape st userMessage) as (rest & Hall & _ & _).
    rewrite Hall. unfold keepRecent.
    destruct (truncateLoop_drop (maxTokens st)
                {| role := "system"; content := systemPrompt st |}
                (JS.slice_from
                   (- Z.min 10 (Z.of_nat (length ({| role := "system";
                                                     content := systemPrompt st |}
                                                   :: rest)) - 1))
                   ({| role := "system"; content := systemPrompt st |} :: rest)))
      as (j & _ & Hloop & _ & Hafter).
    rewrite Hall in Hex. unfold keepRecent in Hex. rewrite Hloop in Hex |- *.
    unfold loopGuard in Hafter. apply andb_false_iff in Hafter as [Hfit|Hlen].
    + apply tooLong_spec in Hex. congruence.
    + apply Nat.ltb_ge in Hlen. exact Hlen.
  - apply tooLong_spec in Hex. congruence.
Qed.

(** C5 as stated fails on the code: for one user message of 7812
    characters the minimal set (system prompt and that message) is estimated
    at 1960 tokens (1968 with the text's estimate), so
    [W - input_tokens - B] is 38 (30), which is not negative; the request
    goes upstream with [max_tokens = 38], not with [max(64, 38) = 64]. *)
Lemma C5_counterexample :
  let st := Examples.withSettings 512 [] in
  let sent := (contextManagement st Examples.large).1 in
  let upstream :=
    (fun call => Body.max_tokens (body call))
      <$> (handleStreamingResponse Examples.models st Examples.large).2 in
  sent = [ {| role := "system"; content := systemPrompt st |}; Examples.large ]
  /\ estimateTokens sent + maxTokens st + Spec.B > modelMaxContext
  /\ modelMaxContext - estimateTokens sent - Spec.B = 38
  /\ modelMaxContext - Spec.input_tokens sent - Spec.B = 30
  /\ upstream = Some 38
  /\ Spec.shrunk_R modelMaxContext (estimateTokens sent) = 64
  /\ Spec.shrunk_R modelMaxContext (Spec.input_tokens sent) = 64
  /\ ~ Spec.overflow_rule modelMaxContext (estimateTokens sent) upstream
  /\ ~ Spec.overflow_rule modelMaxContext (Spec.input_tokens sent) upstream.
Proof.
  vm_compute. split_and!; try reflexivity; discriminate.
Qed.

(** C5, amended: when even the minimal message set exceeds the budget and
    [W - input_tokens - B] is positive, the [max_tokens] sent is
    [W - input_tokens - B] itself (below the requested value, with no floor
    of 64), and the request is not rejected: with the selected model among
    the models that the playground was given, it goes upstream with the
    messages kept, at most two. *)
Theorem C5_shrinks_without_floor_or_rejection models st userMessage model :
  let sent := (contextManagement st userMessage).1 in
  List.find (fun m => String.eqb (abbr m) (selectedModel st)) models = Some model ->
  estimateTokens sent + maxTokens st + 50 > modelMaxContext ->
  0 < modelMaxContext - estimateTokens sent - 50 ->
  exists st' call,
    handleStreamingResponse models st userMessage = (st', Some call)
    /\ Body.messages (body call) = sent
    /\ (length sent <= 2)%nat
    /\ Body.max_tokens (body call) = modelMaxContext - estimateTokens sent - 50
    /\ 0 < Body.max_tokens (body call) < maxTokens st.
Proof.
  intros sent Hfind Hex Hpos.
  destruct (handleStreamingResponse_calls models st userMessage model Hfind)
    as (st' & call & Hcall).
  exists st', call. split; [exact Hcall|].
  apply handleStreamingResponse_sent in Hcall as (_ & Hsent & Hmax).
  fold sent in Hsent, Hmax. rewrite Hsent, Hmax.
  split_and!; [reflexivity | now apply contextManagement_minimal | lia | lia | lia].
Qed.

Lemma C5_witness :
  exists st' call,
    handleStreamingResponse Examples.models (Examples.withSettings 512 [])
      Examples.large = (st', Some call)
    /\ Body.max_tokens (body call) = 38.
Proof.
  destruct (C5_shrinks_without_floor_or_rejection Examples.models
              (Examples.withSettings 512 []) Examples.large
              {| abbr := "qwen1.5b"; endpoint := "/api/v1/qwen1.5b" |} eq_refl)
    as (st' & call & Hcall & _ & _ & Hmax & _).
  - vm_compute. reflexivity.
  - vm_compute. reflexivity.
  - exists st', call. split; [exact Hcall|].
    rewrite Hmax. vm_compute. reflexivity.
Defined.

(** A user message of 8000 characters: the minimal set is estimated at 2007
    tokens, and the call goes out with [max_tokens = -9]. *)
Example overflow_run :
  (fun call => Body.max_tokens (body call))
    <$> (handleStreamingResponse Examples.models (Examples.withSettings 512 [])
           Examples.huge).2
  = Some (-9).
Proof. vm_compute. reflexivity. Qed.

Lemma splice_1_1_iter {A} (m0 : A) rest i :
  Nat.iter i (JS.splice 1 1) (m0 :: rest) = m0 :: drop i rest.
Proof.
  induction i as [|i IH]; [now rewrite drop_0|].
  rewrite Nat.iter_succ, IH. unfold JS.splice. cbn.
  rewrite take_0, drop_drop. cbn. do 2 f_equal. lia.
Qed.

(** C10: the truncation loop terminates on every list. It stops after some
    [n <= len - 2] iterations; every iteration finds more than two messages
    and leaves exactly one fewer; after the last one the guard is false. *)
Theorem C10_truncateLoop_terminates R mts :
  exists n : nat,
    (n <= length mts - 2)%nat
    /\ truncateLoop R mts = Nat.iter n (JS.splice 1 1) mts
    /\ loopGuard R (truncateLoop R mts) = false
    /\ forall i, (i < n)%nat ->
         let before := Nat.iter i (JS.splice 1 1) mts in
         loopGuard R before = true
         /\ (2 < length before)%nat
         /\ (length (JS.splice 1 1 before) + 1 = length before)%nat.
Proof.
  destruct mts as [|m0 rest].
  - assert (Hg : loopGuard R [] = false)
      by (unfold loopGuard; cbn; apply andb_false_r).
    exists 0%nat. rewrite truncateLoop_unfold, Hg. cbn.
    split_and!; [lia | reflexivity | exact Hg | intros; lia].
  - destruct (truncateLoop_drop R m0 rest) as (j & Hj & Hloop & Hbefore & Hafter).
    exists j. rewrite Hloop, splice_1_1_iter.
    split_and!; [cbn; lia | reflexivity | exact Hafter |].
    intros i Hi before. subst before. rewrite splice_1_1_iter.
    pose proof (Hbefore i Hi) as Hg. pose proof (loopGuard_length _ _ Hg) as Hlen.
    split_and!; [exact Hg | exact Hlen |].
    change (JS.splice 1 1 (m0 :: drop i rest))
      with (Nat.iter 1 (JS.splice 1 1) (m0 :: drop i rest)).
    rewrite splice_1_1_iter, drop_drop. cbn [length] in *.
    rewrite !length_drop in *. lia.
Qed.

End ChatPlaygroundFacts.

(** ** The API-key listing *)
Section ApiKeyFacts.
Import ApiKeyManager.

(** The masked text shows the key's first 8 characters and nothing else. *)
Lemma maskKey_shows_prefix (key : option string) :
  maskKey key = "••••••••"
  \/ exists k, key = Some k
               /\ maskKey key = String.substring 0 8 k ++ "••••••••••••••••".
Proof.
  destruct key as [[|c k]|]; cbn [maskKey]; eauto.
Qed.

Lemma or_else_source (a b : option string) k :
  or_else a b = Some k -> a = Some k \/ b = Some k.
Proof. destruct a as [[|c a]|]; cbn; intros; auto. Qed.

(** A row whose visibility toggle is off shows at most the first 8
    characters of the key the listing carries. *)
Lemma keyText_masked visibleKeys (apiKey : ApiKey) :
  apiKey !! "full_key" ∉ visibleKeys ->
  keyText visibleKeys apiKey = "••••••••"
  \/ exists k, (apiKey !! "full_key" = Some k \/ apiKey !! "key" = Some k)
               /\ keyText visibleKeys apiKey
                  = String.substring 0 8 k ++ "••••••••••••••••".
Proof.
  intros Hoff. unfold keyText. rewrite decide_False by exact Hoff.
  destruct (maskKey_shows_prefix (or_else (apiKey !! "full_key") (apiKey !! "key")))
    as [Hm | (k & Hk & Hm)]; [left; exact Hm | right].
  exists k. split; [apply or_else_source, Hk | exact Hm].
Qed.

(** A row that carries neither [full_key] nor [key] shows no character of
    any key, whatever the toggles. *)
Lemma keyText_without_key visibleKeys (apiKey : ApiKey) :
  apiKey !! "full_key" = None -> apiKey !! "key" = None ->
  keyText visibleKeys apiKey = "" \/ keyText visibleKeys apiKey = "••••••••".
Proof.
  intros Hfull Hkey. unfold keyText. rewrite Hfull, Hkey.
  case_decide; cbn; auto.
Qed.

(** With the toggle on, a row that does carry [full_key] shows it whole:
    the mask protects a key only if the listing does not carry it. *)
Example keyText_toggled :
  let apiKey : ApiKey := {[ "name" := "k1"; "full_key" := "sk_0123456789abcdef" ]} in
  keyText (toggleKeyVisibility (apiKey !! "full_key") ∅) apiKey
  = "sk_0123456789abcdef".
Proof. vm_compute. reflexivity. Qed.

End ApiKeyFacts.

(** ** The reconciliation script *)
Section SyncRedisFacts.
Import SyncRedis.

Lemma drop_prefix_app p s : drop_prefix p (p ++ s) = Some s.
Proof.
  induction p as [|a p IH]; [reflexivity|].
  simpl. now rewrite Ascii.eqb_refl.
Qed.

Lemma drop_prefix_Some p s t : drop_prefix p s = Some t -> s = p ++ t.
Proof.
  revert s. induction p as [|a p IH]; intros s; simpl.
  - now intros [= ->].
  - destruct s as [|b s]; [discriminate|].
    destruct (Ascii.eqb_spec a b) as [->|]; [|discriminate].
    intros ->%IH. reflexivity.
Qed.

Lemma starts_with_strip p s : starts_with p s = true -> s = p ++ strip p s.
Proof.
  unfold starts_with, strip.
  destruct (drop_prefix p s) as [t|] eqn:Hd; [|discriminate].
  intros _. now apply drop_prefix_Some.
Qed.

Lemma strip_app p s : strip p (p ++ s) = s.
Proof. unfold strip. now rewrite drop_prefix_app. Qed.

(** A name matches itself as a pattern. *)
Lemma grep_anchored_refl s : grep_anchored s s = true.
Proof.
  induction s as [|c s IH]; [reflexivity|].
  simpl. rewrite Ascii.eqb_refl, orb_true_r. exact IH.
Qed.

(** Without a dot the pattern matches its own text only. *)
Lemma grep_anchored_literal pattern line :
  "."%char ∉ list_ascii_of_string pattern ->
  grep_anchored pattern line = true -> pattern = line.
Proof.
  revert line. induction pattern as [|p pattern IH]; intros [|c line]; simpl;
    try discriminate; [reflexivity|].
  intros [Hp Hrest]%not_elem_of_cons [Hc Hm]%andb_prop.
  destruct (Ascii.eqb_spec p ".") as [->|_]; [congruence|].
  destruct (Ascii.eqb_spec p c) as [->|]; [|discriminate].
  f_equal. now apply IH.
Qed.

Lemma container_listed_running running MODEL_ABBR :
  "MIND_MODEL_" ++ MODEL_ABBR ∈ running ->
  container_listed running MODEL_ABBR = true.
Proof.
  intros Hin%list_elem_of_In. unfold container_listed.
  apply existsb_exists. eexists. split; [exact Hin|apply grep_anchored_refl].
Qed.

Lemma models_HSET a fvs r x :
  is_Some (models r !! x) -> is_Some (models (HSET a fvs r) !! x).
Proof.
  intros Hx. cbn. destruct (decide (a = x)) as [->|Hne].
  - rewrite lookup_insert_eq. eauto.
  - now rewrite lookup_insert_ne.
Qed.

(** The container scan never removes a record. *)
Lemma sync_container_keeps d catalog python3 acc container x :
  is_Some (models acc.1 !! x) ->
  is_Some (models (sync_container d catalog python3 acc container).1 !! x).
Proof.
  destruct acc as [r out]. cbn [fst]. intros Hx. unfold sync_container.
  repeat case_match; cbn [fst]; try exact Hx;
    cbn [SET_gpu_assignment models]; now apply models_HSET.
Qed.

Lemma foldl_sync_container_keeps d catalog python3 running acc x :
  is_Some (models acc.1 !! x) ->
  is_Some (models (foldl (sync_container d catalog python3) acc running).1 !! x).
Proof.
  revert acc. induction running as [|c running IH]; intros acc Hx; cbn [foldl].
  - exact Hx.
  - apply IH, sync_container_keeps, Hx.
Qed.

(** One engine runs, the store remembers a stopped model: the engine is
    recorded as running on its GPU, the stopped record is removed, and the
    routes of the engine are written. *)
Example sync_one_engine :
  let r := sync_redis (SyncExamples.host ["MIND_REDIS_STORE"; "MIND_MODEL_qwen1.5b"]
                         "Qwen/Qwen2.5-1.5B-Instruct") SyncExamples.system in
  models (redis r.1)
  = {[ "qwen1.5b" :=
         {[ "abbr" := "qwen1.5b"; "name" := "Qwen/Qwen2.5-1.5B-Instruct";
            "type" := "llm"; "status" := "running";
            "container_name" := "MIND_MODEL_qwen1.5b";
            "container_id" := "MIND_MODEL_qwen1.5b";
            "gpu_device" := "1"; "port" := "8000";
            "endpoint" := "/api/v1/qwen1.5b" ]} ]}
  /\ gpu_assignment (redis r.1) = {[ "qwen1.5b" := "1" ]}
  /\ r.2 = [ Found "MIND_MODEL_qwen1.5b" "1"; RemovedStale "llama8b" ]
  /\ locations (conf r.1)
     = [ chat_location "qwen1.5b";
         model_location "MIND_MODEL_qwen1.5b" "qwen1.5b" ].
Proof. vm_compute. split_and!; reflexivity. Qed.

(** A container under another abbreviation that serves a catalogued model
    is recorded with the type of that model: the lookup also goes by name. *)
Example sync_by_model_name :
  let r := sync_redis (SyncExamples.host ["MIND_MODEL_myqwen"]
                         "Qwen/Qwen2.5-1.5B-Instruct") SyncExamples.system in
  (models (redis r.1) !! "myqwen") ≫= (.!! "type") = Some "llm".
Proof. vm_compute. reflexivity. Qed.

(** A model name with a quote in it: the lookup program is not the one
    written, python3 stops on it, name and type come out empty, the test for
    [unknown] does not hold and the record is written with both empty,
    without a warning. *)
Example sync_quoted_model_name :
  let r := sync_redis (SyncExamples.host ["MIND_MODEL_bob"] "/models/bob's-llm")
             SyncExamples.system in
  verbatim "/models/bob's-llm" = false
  /\ (models (redis r.1) !! "bob") ≫= (.!! "name") = Some ""
  /\ (models (redis r.1) !! "bob") ≫= (.!! "type") = Some ""
  /\ r.2 = [ Found "MIND_MODEL_bob" "1"; RemovedStale "llama8b" ].
Proof. vm_compute. split_and!; reflexivity. Qed.

(** C7 as stated fails on the code: a record with status [stopped] does not
    survive reconciliation, neither when no model container runs (every
    [model:*] key is deleted) nor when some other container does (the record
    has no running container and is removed as stale). *)
Lemma C7_counterexample :
  let idle := SyncExamples.host ["MIND_REDIS_STORE"] "" in
  let busy := SyncExamples.host ["MIND_REDIS_STORE"; "MIND_MODEL_qwen1.5b"]
                                "Qwen/Qwen2.5-1.5B-Instruct" in
  let before := models (redis SyncExamples.system) in
  (before !! "llama8b") ≫= (.!! "status") = Some "stopped"
  /\ models (redis (sync_redis idle SyncExamples.system).1) !! "llama8b" = None
  /\ models (redis (sync_redis busy SyncExamples.system).1) !! "llama8b" = None.
Proof. vm_compute. split_and!; reflexivity. Qed.

(** C7, amended: reconciliation deletes a model record exactly when no
    running container is listed for its abbreviation, whatever the status of
    the record and without regard to any lock; a record whose container
    [MIND_MODEL_{abbr}] runs is kept, and for an abbreviation without a dot
    being listed means exactly that this container runs. *)
Theorem C7_deleted_iff_container_not_listed h s MODEL_ABBR :
  let running := RUNNING_MODELS (docker h) in
  let after := models (redis (sync_redis h s).1) in
  is_Some (models (redis s) !! MODEL_ABBR) ->
  (after !! MODEL_ABBR = None <-> container_listed running MODEL_ABBR = false)
  /\ ("MIND_MODEL_" ++ MODEL_ABBR ∈ running -> is_Some (after !! MODEL_ABBR))
  /\ ("."%char ∉ list_ascii_of_string MODEL_ABBR ->
      (container_listed running MODEL_ABBR = true
       <-> "MIND_MODEL_" ++ MODEL_ABBR ∈ running)).
Proof.
  intros running after Hrec.
  assert (Hiff : after !! MODEL_ABBR = None
                 <-> container_listed running MODEL_ABBR = false).
  { subst after. unfold sync_redis. fold running.
    destruct running as [|c running'] eqn:Hrun.
    - cbn. rewrite lookup_empty. tauto.
    - rewrite <- Hrun.
      pose proof (foldl_sync_container_keeps (docker h) (MODELS_JSON h) (python3 h)
                    running (redis s, []) MODEL_ABBR Hrec) as Hkept.
      destruct (foldl _ _ running) as [r out]. cbn [fst] in Hkept.
      cbn [fst redis clean_stale models].
      rewrite map_lookup_filter_None. cbn [fst].
      destruct Hkept as [record Hrecord]. rewrite Hrecord. split.
      + intros [Hnone | Hnot]; [discriminate|].
        specialize (Hnot record eq_refl).
        now destruct (container_listed running MODEL_ABBR).
      + intros Hfalse. right. intros ? _. congruence. }
  split_and!.
  - exact Hiff.
  - intros Hin%container_listed_running.
    destruct (after !! MODEL_ABBR) eqn:Hafter; [eauto|].
    apply proj1 in Hiff. specialize (Hiff eq_refl).
    unfold running in *. congruence.
  - intros Hdot. split; [|apply container_listed_running].
    unfold container_listed. intros (line & Hin & Hm)%existsb_exists.
    apply grep_anchored_literal in Hm as <-; [now apply list_elem_of_In|].
    simpl. rewrite !elem_of_cons. intros Hin'.
    repeat (destruct Hin' as [Hin'|Hin']; [discriminate Hin'|]).
    contradiction.
Qed.

Lemma C7_witness :
  models (redis (sync_redis
                   (SyncExamples.host ["MIND_REDIS_STORE"; "MIND_MODEL_qwen1.5b"]
                      "Qwen/Qwen2.5-1.5B-Instruct")
                   SyncExamples.system).1) !! "llama8b" = None.
Proof.
  destruct (C7_deleted_iff_container_not_listed
              (SyncExamples.host ["MIND_REDIS_STORE"; "MIND_MODEL_qwen1.5b"]
                 "Qwen/Qwen2.5-1.5B-Instruct")
              SyncExamples.system "llama8b") as (Hiff & _).
  - vm_compute. eauto.
  - apply Hiff. vm_compute. reflexivity.
Defined.

Lemma fields_of_no_delimiter d s :
  d ∉ list_ascii_of_string s -> fields_of d s = [s].
Proof.
  induction s as [|c s IH]; simpl; [reflexivity|].
  intros [Hc Hs]%not_elem_of_cons.
  destruct (Ascii.eqb_spec c d) as [->|_]; [congruence|].
  now rewrite IH.
Qed.

Lemma fields_of_app d s t :
  d ∉ list_ascii_of_string s ->
  fields_of d (s ++ String d t) = s :: fields_of d t.
Proof.
  induction s as [|c s IH]; simpl.
  - intros _. now rewrite Ascii.eqb_refl.
  - intros [Hc Hs]%not_elem_of_cons.
    destruct (Ascii.eqb_spec c d) as [->|_]; [congruence|].
    now rewrite IH.
Qed.

Lemma list_ascii_of_string_app s t :
  list_ascii_of_string (s ++ t)
  = (list_ascii_of_string s ++ list_ascii_of_string t)%list.
Proof. induction s as [|c s IH]; simpl; [reflexivity|now rewrite IH]. Qed.

(** The line printed when neither the abbreviation nor the model name is in
    the catalog. *)
Lemma lookup_model_absent predefined_models MODEL_ABBR MODEL_NAME :
  MODEL_ABBR ∉ abbr <$> predefined_models ->
  MODEL_NAME = "" \/ MODEL_NAME ∉ name <$> predefined_models ->
  lookup_model predefined_models MODEL_ABBR MODEL_NAME = MODEL_NAME ++ "|unknown".
Proof.
  induction predefined_models as [|model rest IH]; [reflexivity|].
  rewrite !fmap_cons, not_elem_of_cons. intros [Habbr Hrest] Hname. simpl.
  destruct (String.eqb_spec (abbr model) MODEL_ABBR) as [Heq|_]; [congruence|].
  destruct Hname as [-> | [Hn Hnrest]%not_elem_of_cons].
  - simpl. apply IH; auto.
  - destruct (String.eqb_spec (name model) MODEL_NAME) as [Heq|_]; [congruence|].
    rewrite andb_false_r. apply IH; auto.
Qed.

(** The test of the loop of the lookup on one catalog entry. *)
Local Abbreviation hit MODEL_ABBR MODEL_NAME :=
  (fun model : PredefinedModel =>
     String.eqb (abbr model) MODEL_ABBR
     || (negb (String.eqb MODEL_NAME "") && String.eqb (name model) MODEL_NAME)).

(** The loop of the lookup stops at the first entry that passes its test. *)
Lemma lookup_model_find predefined_models MODEL_ABBR MODEL_NAME :
  lookup_model predefined_models MODEL_ABBR MODEL_NAME
  = match List.find (hit MODEL_ABBR MODEL_NAME) predefined_models with
    | Some model =>
        (if String.eqb MODEL_NAME "" then name model else MODEL_NAME)
          ++ "|" ++ type model
    | None => MODEL_NAME ++ "|unknown"
    end.
Proof.
  induction predefined_models as [|model rest IH]; cbn [lookup_model List.find];
    [reflexivity|].
  destruct (String.eqb (abbr model) MODEL_ABBR); cbn [orb]; [reflexivity|].
  destruct (String.eqb MODEL_NAME ""); cbn [negb andb]; [exact IH|].
  destruct (String.eqb_spec (name model) MODEL_NAME) as [Heq|_]; [|exact IH].
  now rewrite Heq.
Qed.

Lemma find_hit_None predefined_models MODEL_ABBR MODEL_NAME :
  List.find (hit MODEL_ABBR MODEL_NAME) predefined_models = None
  <-> (MODEL_ABBR ∉ abbr <$> predefined_models)
      /\ (MODEL_NAME = "" \/ MODEL_NAME ∉ name <$> predefined_models).
Proof.
  induction predefined_models as [|model rest IH]; cbn [List.find].
  - split; [|reflexivity]. intros _. split; [apply not_elem_of_nil|].
    right. apply not_elem_of_nil.
  - rewrite !fmap_cons, !not_elem_of_cons.
    destruct (String.eqb_spec (abbr model) MODEL_ABBR) as [Ha|Ha]; cbn [orb].
    { split; [discriminate|]. intros [[? _] _]. congruence. }
    destruct (String.eqb_spec MODEL_NAME "") as [Hn|Hn]; cbn [negb andb].
    { rewrite IH. split; intros [? _]; (split; [auto|now left]); tauto. }
    destruct (String.eqb_spec (name model) MODEL_NAME) as [Hm|Hm].
    { split; [discriminate|]. intros [_ [?|[? _]]]; congruence. }
    rewrite IH. split.
    + intros [? [?|?]]; [congruence|]. split; [auto|]. right. split; congruence.
    + intros [[_ ?] [?|[_ ?]]]; [congruence|]. auto.
Qed.

Lemma forallb_chars (p : ascii -> bool) s :
  forallb p (list_ascii_of_string s) = true
  <-> forall c, c ∈ list_ascii_of_string s -> p c = true.
Proof.
  rewrite forallb_forall. split; intros H c Hc; apply H;
    now apply list_elem_of_In.
Qed.

Lemma without_chars c s :
  without c s = true <-> c ∉ list_ascii_of_string s.
Proof.
  unfold without. rewrite forallb_chars. split.
  - intros H Hin%H. now rewrite Ascii.eqb_refl in Hin.
  - intros Hc c' Hin. destruct (Ascii.eqb_spec c' c) as [->|_];
      [contradiction|reflexivity].
Qed.

Lemma printable_app s t : printable (s ++ t) = printable s && printable t.
Proof. unfold printable. now rewrite list_ascii_of_string_app, forallb_app. Qed.

Lemma one_field_chars s :
  one_field s = true ->
  printable s = true /\ "|"%char ∉ list_ascii_of_string s.
Proof. unfold one_field. now intros [? ?%without_chars]%andb_prop. Qed.

Lemma cut_pair n t :
  "|"%char ∉ list_ascii_of_string n -> "|"%char ∉ list_ascii_of_string t ->
  cut "|" 1 (n ++ "|" ++ t) = n /\ cut "|" 2 (n ++ "|" ++ t) = t.
Proof.
  intros Hn Ht. unfold cut.
  change (n ++ "|" ++ t) with (n ++ String "|" t).
  rewrite fields_of_app by exact Hn.
  rewrite fields_of_no_delimiter by exact Ht. split; reflexivity.
Qed.

(** The two values after the lookup, for texts that the program reads as
    they are written and a catalog whose names and types are single fields:
    they come from the first entry that passes the test, and the type is
    [unknown] when there is none. *)
Lemma catalog_lookup_written predefined_models python3 MODEL_ABBR MODEL_NAME :
  verbatim MODEL_ABBR = true -> verbatim MODEL_NAME = true ->
  one_field MODEL_NAME = true ->
  Forall (fun model => one_field (name model) = true
                       /\ one_field (type model) = true) predefined_models ->
  catalog_lookup (Models predefined_models) python3 MODEL_ABBR MODEL_NAME
  = match List.find (hit MODEL_ABBR MODEL_NAME) predefined_models with
    | Some model =>
        (if String.eqb MODEL_NAME "" then name model else MODEL_NAME, type model)
    | None => (MODEL_NAME, "unknown")
    end.
Proof.
  intros Ha Hn Hfield Hall. unfold catalog_lookup.
  rewrite Ha, Hn, lookup_model_find. cbn [andb].
  assert (Hpair : forall n t,
            one_field n = true -> one_field t = true ->
            (if printable (n ++ "|" ++ t)
             then (cut "|" 1 (n ++ "|" ++ t), cut "|" 2 (n ++ "|" ++ t))
             else python3 MODEL_ABBR MODEL_NAME) = (n, t)).
  { intros n t Hn' Ht'.
    apply one_field_chars in Hn' as [Hpn Hn'].
    apply one_field_chars in Ht' as [Hpt Ht'].
    rewrite !printable_app, Hpn, Hpt.
    change (printable "|") with true. cbn [andb].
    now destruct (cut_pair n t Hn' Ht') as [-> ->]. }
  destruct (List.find _ predefined_models) as [model|] eqn:Hfind.
  - apply find_some in Hfind as [Hin _].
    apply list_elem_of_In in Hin.
    destruct (proj1 (Forall_forall _ _) Hall model Hin) as [Hname Htype].
    apply Hpair; [|exact Htype]. now destruct (String.eqb MODEL_NAME "").
  - apply Hpair; [exact Hfield|reflexivity].
Qed.

(** The same values when the catalog holds neither the abbreviation nor the
    model name. *)
Lemma catalog_lookup_absent predefined_models python3 MODEL_ABBR MODEL_NAME :
  verbatim MODEL_ABBR = true -> verbatim MODEL_NAME = true ->
  one_field MODEL_NAME = true ->
  MODEL_ABBR ∉ abbr <$> predefined_models ->
  MODEL_NAME = "" \/ MODEL_NAME ∉ name <$> predefined_models ->
  catalog_lookup (Models predefined_models) python3 MODEL_ABBR MODEL_NAME
  = (MODEL_NAME, "unknown").
Proof.
  intros Ha Hn [Hp Hbar]%one_field_chars Habbr Hname. unfold catalog_lookup.
  rewrite Ha, Hn, lookup_model_absent by assumption.
  rewrite printable_app, Hp. change (printable "|unknown") with true.
  cbn [andb].
  change (MODEL_NAME ++ "|unknown") with (MODEL_NAME ++ "|" ++ "unknown").
  destruct (cut_pair MODEL_NAME "unknown" Hbar) as [-> ->]; [|reflexivity].
  apply (bool_decide_unpack _). vm_compute. exact I.
Qed.

(** The body of the loop on a running container, the catalog file found. *)
Lemma sync_container_running d MODELS_JSON python3 r out container info :
  inspect d container = Some info ->
  Status info = "running" ->
  MODELS_JSON <> NoFile ->
  sync_container d MODELS_JSON python3 (r, out) container
  = let MODEL_ABBR := strip "MIND_MODEL_" container in
    let GPU := GPU_DEVICE (Env info) in
    let MODEL_INFO :=
      catalog_lookup MODELS_JSON python3 MODEL_ABBR (model_arg (Args info)) in
    if String.eqb MODEL_INFO.2 "unknown"
    then (r, (out ++ [Found container GPU; NotInCatalog MODEL_ABBR])%list)
    else (SET_gpu_assignment MODEL_ABBR GPU
            (HSET MODEL_ABBR
               [("abbr", MODEL_ABBR); ("name", MODEL_INFO.1);
                ("type", MODEL_INFO.2); ("status", "running");
                ("container_name", container); ("container_id", container);
                ("gpu_device", GPU); ("port", "8000");
                ("endpoint", "/api/v1/" ++ MODEL_ABBR)] r),
          (out ++ [Found container GPU])%list).
Proof.
  intros Hinspect Hstatus Hfile. unfold sync_container.
  rewrite Hinspect, Hstatus.
  change (String.eqb "running" "running") with true. cbn iota zeta.
  destruct MODELS_JSON as [|predefined_models|]; [congruence| |];
    destruct (String.eqb _ "unknown"); rewrite <- ?app_assoc; reflexivity.
Qed.

(** The body of the loop on a container whose type resolves to [unknown]. *)
Lemma sync_container_unknown d MODELS_JSON python3 r out container info :
  inspect d container = Some info ->
  Status info = "running" ->
  MODELS_JSON <> NoFile ->
  (catalog_lookup MODELS_JSON python3 (strip "MIND_MODEL_" container)
     (model_arg (Args info))).2 = "unknown" ->
  sync_container d MODELS_JSON python3 (r, out) container
  = (r, (out ++ [ Found container (GPU_DEVICE (Env info));
                  NotInCatalog (strip "MIND_MODEL_" container) ])%list).
Proof.
  intros Hinspect Hstatus Hfile Hunknown.
  rewrite (sync_container_running _ _ _ _ _ _ info) by assumption.
  cbn zeta. now rewrite Hunknown.
Qed.

(** C9 as stated fails on the code: the container [MIND_MODEL_myqwen] has an
    abbreviation that the catalog does not hold, yet it is not skipped: the
    lookup finds the entry of the model it serves by its name, and the
    record is written with that entry's type. *)
Lemma C9_counterexample :
  let h := SyncExamples.host ["MIND_MODEL_myqwen"] "Qwen/Qwen2.5-1.5B-Instruct" in
  let after :=
    sync_container (docker h) (MODELS_JSON h) (python3 h)
      (redis SyncExamples.system, []) "MIND_MODEL_myqwen" in
  MODELS_JSON h = Models SyncExamples.catalog
  /\ ("myqwen" ∉ abbr <$> SyncExamples.catalog)
  /\ (models after.1 !! "myqwen") ≫= (.!! "type") = Some "llm"
  /\ after.2 = [ Found "MIND_MODEL_myqwen" "1" ].
Proof.
  cbn zeta. split_and!.
  - reflexivity.
  - apply (bool_decide_unpack _). vm_compute. exact I.
  - vm_compute. reflexivity.
  - vm_compute. reflexivity.
Qed.

(** C9: a running container is skipped, with the warning that the model was
    not found in models.json and without any write to the store, exactly
    when the catalog holds neither its abbreviation nor the model name it
    was started with; absence of the abbreviation alone is not enough. (The
    abbreviation and the model name are texts that the lookup program reads
    as they are written, the model name and the names and types of the
    catalog are single fields, and no type of the catalog is itself
    [unknown].) *)
Theorem C9_unknown_container_skipped (d : Docker)
    (predefined_models : list PredefinedModel)
    (python3 : string -> string -> string * string)
    (r : Redis) (out : list Echo) (container : string) (info : Inspect) :
  let MODEL_ABBR := strip "MIND_MODEL_" container in
  let MODEL_NAME := model_arg (Args info) in
  inspect d container = Some info ->
  Status info = "running" ->
  verbatim MODEL_ABBR = true -> verbatim MODEL_NAME = true ->
  one_field MODEL_NAME = true ->
  Forall (fun model => one_field (name model) = true
                       /\ one_field (type model) = true
                       /\ type model <> "unknown") predefined_models ->
  sync_container d (Models predefined_models) python3 (r, out) container
    = (r, (out ++ [ Found container (GPU_DEVICE (Env info));
                    NotInCatalog MODEL_ABBR ])%list)
  <-> (MODEL_ABBR ∉ abbr <$> predefined_models)
      /\ (MODEL_NAME = "" \/ MODEL_NAME ∉ name <$> predefined_models).
Proof.
  intros MODEL_ABBR MODEL_NAME Hinspect Hstatus Ha Hn Hfield Hall.
  rewrite (sync_container_running _ _ _ _ _ _ info)
    by (assumption || discriminate).
  cbn zeta. fold MODEL_ABBR MODEL_NAME.
  rewrite catalog_lookup_written; try assumption.
  2:{ eapply Forall_impl; [exact Hall|]. cbn. tauto. }
  rewrite <- find_hit_None.
  destruct (List.find _ predefined_models) as [model|] eqn:Hfind; cbn [snd].
  - apply find_some in Hfind as [Hin _]. apply list_elem_of_In in Hin.
    destruct (proj1 (Forall_forall _ _) Hall model Hin) as (_ & _ & Htype).
    destruct (String.eqb_spec (type model) "unknown") as [|_]; [contradiction|].
    split; [|discriminate].
    intros [= _ Hout]. apply app_inv_head in Hout. discriminate.
  - change (String.eqb "unknown" "unknown") with true. cbn iota. tauto.
Qed.

Lemma C9_witness :
  let h := SyncExamples.host ["MIND_MODEL_mystery"] "acme/mystery-7b" in
  sync_container (docker h) (Models SyncExamples.catalog) (python3 h)
    (redis SyncExamples.system, []) "MIND_MODEL_mystery"
  = (redis SyncExamples.system,
     [ Found "MIND_MODEL_mystery" "1"; NotInCatalog "mystery" ]).
Proof.
  intros h.
  apply (C9_unknown_container_skipped (docker h) SyncExamples.catalog (python3 h)
           (redis SyncExamples.system) [] "MIND_MODEL_mystery"
           (SyncExamples.engine "acme/mystery-7b" "1")).
  - reflexivity.
  - reflexivity.
  - reflexivity.
  - reflexivity.
  - reflexivity.
  - repeat constructor; discriminate.
  - split; [|right]; apply (bool_decide_unpack _); vm_compute; exact I.
Defined.

Lemma list_ascii_of_string_inj s t :
  list_ascii_of_string s = list_ascii_of_string t -> s = t.
Proof.
  intros H. rewrite <- (string_of_list_ascii_of_string s),
    <- (string_of_list_ascii_of_string t). now rewrite H.
Qed.

Lemma append_inv_tail s t u : s ++ u = t ++ u -> s = t.
Proof.
  intros H%(f_equal list_ascii_of_string).
  rewrite !list_ascii_of_string_app in H.
  apply app_inv_tail in H. now apply list_ascii_of_string_inj.
Qed.

Lemma chat_path_inj a b :
  path (chat_location a) = path (chat_location b) -> a = b.
Proof.
  cbn [path chat_location model_location].
  intros H%(inj (String.append _)). now apply append_inv_tail in H.
Qed.

Lemma model_path_inj c c' a b :
  path (model_location c a) = path (model_location c' b) -> a = b.
Proof.
  cbn [path chat_location model_location].
  intros H%(inj (String.append _)). now apply append_inv_tail in H.
Qed.

(** The two paths of one model never coincide with each other or across
    models: one ends in [s], the other in a slash. *)
Lemma chat_path_not_model_path c a b :
  path (chat_location a) <> path (model_location c b).
Proof.
  cbn [path chat_location model_location].
  intros H%(inj (String.append _))%(f_equal list_ascii_of_string).
  rewrite !list_ascii_of_string_app in H.
  apply (f_equal reverse) in H. rewrite !reverse_app in H.
  vm_compute in H. discriminate H.
Qed.

(** Whether a [location] block serves the model [MODEL_ABBR]. *)
Local Abbreviation serves MODEL_ABBR :=
  (fun l : Location =>
     path l = "/api/v1/" ++ MODEL_ABBR ++ "/chat/completions"
     \/ path l = "/api/v1/" ++ MODEL_ABBR ++ "/").

Lemma locations_model_routes_conf running :
  locations (model_routes_conf running)
  = flat_map (fun container =>
                [ chat_location (strip "MIND_MODEL_" container);
                  model_location container (strip "MIND_MODEL_" container) ])
             running.
Proof.
  unfold model_routes_conf, locations. cbn [omap list_omap].
  induction running as [|c running IH]; [reflexivity|].
  cbn [flat_map]. rewrite omap_app, IH. reflexivity.
Qed.

Lemma serves_own container :
  filter (serves (strip "MIND_MODEL_" container))
    [ chat_location (strip "MIND_MODEL_" container);
      model_location container (strip "MIND_MODEL_" container) ]
  = [ chat_location (strip "MIND_MODEL_" container);
      model_location container (strip "MIND_MODEL_" container) ].
Proof.
  rewrite filter_cons_True by (left; reflexivity).
  rewrite filter_cons_True by (right; reflexivity).
  reflexivity.
Qed.

Lemma serves_other MODEL_ABBR container :
  strip "MIND_MODEL_" container <> MODEL_ABBR ->
  filter (serves MODEL_ABBR)
    [ chat_location (strip "MIND_MODEL_" container);
      model_location container (strip "MIND_MODEL_" container) ]
  = [].
Proof.
  intros Hne.
  rewrite filter_cons_False, filter_cons_False; [reflexivity| |].
  - intros [H|H].
    + symmetry in H. now apply (chat_path_not_model_path container) in H.
    + now apply (model_path_inj container container) in H.
  - intros [H|H].
    + now apply chat_path_inj in H.
    + now apply (chat_path_not_model_path container) in H.
Qed.

Lemma serves_flat_map MODEL_ABBR running :
  (forall container, container ∈ running ->
     strip "MIND_MODEL_" container <> MODEL_ABBR) ->
  filter (serves MODEL_ABBR)
    (flat_map (fun container =>
                 [ chat_location (strip "MIND_MODEL_" container);
                   model_location container (strip "MIND_MODEL_" container) ])
              running)
  = [].
Proof.
  induction running as [|c running IH]; intros Hall; [reflexivity|].
  cbn [flat_map]. rewrite filter_app, serves_other, IH; [reflexivity| |].
  - intros c' Hc'. apply Hall. now right.
  - apply Hall. now left.
Qed.

Lemma strip_inj c c' :
  starts_with "MIND_MODEL_" c = true -> starts_with "MIND_MODEL_" c' = true ->
  strip "MIND_MODEL_" c = strip "MIND_MODEL_" c' -> c = c'.
Proof.
  intros Hc%starts_with_strip Hc'%starts_with_strip Heq.
  rewrite Hc, Hc', Heq. reflexivity.
Qed.

Lemma RUNNING_MODELS_prefix d container :
  container ∈ RUNNING_MODELS d -> starts_with "MIND_MODEL_" container = true.
Proof.
  unfold RUNNING_MODELS. rewrite list_elem_of_In, filter_In. tauto.
Qed.

Lemma serves_running MODEL_ABBR_of running container :
  MODEL_ABBR_of = strip "MIND_MODEL_" ->
  NoDup running ->
  (forall c, c ∈ running -> starts_with "MIND_MODEL_" c = true) ->
  container ∈ running ->
  filter (serves (MODEL_ABBR_of container))
    (flat_map (fun c => [ chat_location (MODEL_ABBR_of c);
                          model_location c (MODEL_ABBR_of c) ]) running)
  = [ chat_location (MODEL_ABBR_of container);
      model_location container (MODEL_ABBR_of container) ].
Proof.
  intros ->. induction running as [|c running IH]; intros Hnodup Hprefix Hin.
  { now apply elem_of_nil in Hin. }
  apply NoDup_cons in Hnodup as [Hc Hnodup].
  cbn [flat_map]. rewrite filter_app.
  destruct (decide (c = container)) as [->|Hne].
  - rewrite serves_own, serves_flat_map; [reflexivity|].
    intros c' Hc' Heq. apply strip_inj in Heq; [congruence| |].
    + apply Hprefix. now right.
    + apply Hprefix. now left.
  - apply elem_of_cons in Hin as [->|Hin]; [congruence|].
    rewrite serves_other, IH; [reflexivity|assumption| |assumption|].
    + intros c' Hc'. apply Hprefix. now right.
    + intros Heq. apply strip_inj in Heq; [congruence| |].
      * apply Hprefix. now left.
      * apply Hprefix. now right.
Qed.

Lemma sync_redis_conf h s :
  orchestrator_healthy h = true ->
  RUNNING_MODELS (docker h) <> [] ->
  conf (sync_redis h s).1 = model_routes_conf (RUNNING_MODELS (docker h)).
Proof.
  intros Hhealthy Hrunning. unfold sync_redis.
  destruct (RUNNING_MODELS (docker h)) as [|c running] eqn:Hrun; [congruence|].
  destruct (foldl _ _ _) as [r out]. cbn [fst conf]. now rewrite Hhealthy.
Qed.

(** The routes written for one running container. *)
Lemma model_routes_conf_routes running container :
  NoDup running ->
  (forall c, c ∈ running -> starts_with "MIND_MODEL_" c = true) ->
  container ∈ running ->
  routes (model_routes_conf running) container (strip "MIND_MODEL_" container).
Proof.
  intros Hnodup Hprefix Hin.
  exists (chat_location (strip "MIND_MODEL_" container)),
         (model_location container (strip "MIND_MODEL_" container)).
  split_and!; try reflexivity.
  - rewrite locations_model_routes_conf.
    now apply (serves_running (strip "MIND_MODEL_") running container eq_refl).
  - repeat constructor.
Qed.

(** After a run that found model containers, every record left in the store
    has a listed container, whatever its status. *)
Lemma sync_redis_records_listed h s MODEL_ABBR record :
  RUNNING_MODELS (docker h) <> [] ->
  models (redis (sync_redis h s).1) !! MODEL_ABBR = Some record ->
  container_listed (RUNNING_MODELS (docker h)) MODEL_ABBR = true.
Proof.
  intros Hrunning. unfold sync_redis.
  destruct (RUNNING_MODELS (docker h)) as [|c running] eqn:Hrun; [congruence|].
  destruct (foldl _ _ _) as [r out]. cbn [fst redis clean_stale models].
  now intros [_ Hlisted]%map_lookup_filter_Some.
Qed.

(** C8: the include file the script generates holds, for every running
    model, exactly two [location] blocks: the exact match
    [/api/v1/{abbr}/chat/completions], passed to the orchestrator's endpoint
    of the same path, and the prefix [/api/v1/{abbr}/], passed to the
    model's container on port 8000 under [/v1/]; both set the read and the
    send timeout to 300 s. The running models are the running
    [MIND_MODEL_{abbr}] containers; every record that the run leaves with
    status [running] is one of them, as long as no other running container
    answers to its name as a pattern. *)
Theorem C8_two_locations_per_running_model (h : Host) (s : System) :
  let running := RUNNING_MODELS (docker h) in
  let after := (sync_redis h s).1 in
  orchestrator_healthy h = true ->
  NoDup running ->
  (forall container, container ∈ running ->
     container = "MIND_MODEL_" ++ strip "MIND_MODEL_" container
     /\ routes (conf after) container (strip "MIND_MODEL_" container))
  /\ (forall MODEL_ABBR record,
        models (redis after) !! MODEL_ABBR = Some record ->
        record !! "status" = Some "running" ->
        (forall c, c ∈ running ->
           grep_anchored ("MIND_MODEL_" ++ MODEL_ABBR) c = true ->
           c = "MIND_MODEL_" ++ MODEL_ABBR) ->
        routes (conf after) ("MIND_MODEL_" ++ MODEL_ABBR) MODEL_ABBR).
Proof.
  intros running after Hhealthy Hnodup.
  pose proof (RUNNING_MODELS_prefix (docker h)) as Hprefix. fold running in Hprefix.
  assert (Hroutes : forall container, container ∈ running ->
            routes (conf after) container (strip "MIND_MODEL_" container)).
  { intros container Hin. subst after. rewrite sync_redis_conf.
    - now apply model_routes_conf_routes.
    - exact Hhealthy.
    - fold running. intros Hnil. rewrite Hnil in Hin. now apply elem_of_nil in Hin. }
  split.
  - intros container Hin. split; [|now apply Hroutes].
    now apply starts_with_strip, Hprefix.
  - intros MODEL_ABBR record Hrecord _ Hplain.
    assert (Hrunning : running <> []).
    { intros Hnil. subst after. unfold sync_redis in Hrecord.
      fold running in Hrecord. rewrite Hnil in Hrecord. cbn in Hrecord.
      now rewrite lookup_empty in Hrecord. }
    apply (sync_redis_records_listed h s MODEL_ABBR record Hrunning) in Hrecord.
    fold running in Hrecord. unfold container_listed in Hrecord.
    apply existsb_exists in Hrecord as (c & Hc%list_elem_of_In & Hmatch).
    pose proof (Hplain c Hc Hmatch) as ->.
    specialize (Hroutes _ Hc). now rewrite strip_app in Hroutes.
Qed.

Lemma C8_witness :
  let h := SyncExamples.host ["MIND_REDIS_STORE"; "MIND_MODEL_qwen1.5b"]
                             "Qwen/Qwen2.5-1.5B-Instruct" in
  routes (conf (sync_redis h SyncExamples.system).1) "MIND_MODEL_qwen1.5b" "qwen1.5b".
Proof.
  intros h.
  destruct (C8_two_locations_per_running_model h SyncExamples.system)
    as [Hcontainers _].
  - reflexivity.
  - apply (bool_decide_unpack _). vm_compute. exact I.
  - apply (Hcontainers "MIND_MODEL_qwen1.5b").
    apply (bool_decide_unpack _). vm_compute. exact I.
Defined.

(** *** The whole run on a host with an uncatalogued container *)

Lemma sync_container_other d catalog python3 acc container x :
  strip "MIND_MODEL_" container <> x ->
  models (sync_container d catalog python3 acc container).1 !! x = models acc.1 !! x.
Proof.
  destruct acc as [r out]. cbn [fst]. intros Hne. unfold sync_container.
  repeat case_match; cbn [fst]; try reflexivity;
    cbn [SET_gpu_assignment HSET models]; now rewrite lookup_insert_ne.
Qed.

Lemma sync_container_log d catalog python3 acc container :
  exists more, (sync_container d catalog python3 acc container).2 = (acc.2 ++ more)%list.
Proof.
  destruct acc as [r out]. cbn [snd]. unfold sync_container.
  repeat case_match; cbn [snd];
    first [ eexists; reflexivity
          | eexists; rewrite <- app_assoc; reflexivity
          | exists []; now rewrite app_nil_r ].
Qed.

Lemma foldl_sync_container_other d catalog python3 running acc x :
  (forall c, c ∈ running -> strip "MIND_MODEL_" c <> x) ->
  models (foldl (sync_container d catalog python3) acc running).1 !! x = models acc.1 !! x.
Proof.
  revert acc. induction running as [|c running IH]; intros acc Hall; [reflexivity|].
  cbn [foldl]. rewrite IH, sync_container_other; [reflexivity| |].
  - apply Hall. now left.
  - intros c' Hc'. apply Hall. now right.
Qed.

Lemma foldl_sync_container_log d catalog python3 running acc :
  exists more,
    (foldl (sync_container d catalog python3) acc running).2 = (acc.2 ++ more)%list.
Proof.
  revert acc. induction running as [|c running IH]; intros acc.
  - exists []. now rewrite app_nil_r.
  - cbn [foldl]. destruct (IH (sync_container d catalog python3 acc c)) as [more2 ->].
    destruct (sync_container_log d catalog python3 acc c) as [more1 ->].
    exists (more1 ++ more2)%list. now rewrite app_assoc.
Qed.

(** X30: end to end, the run leaves the record of a running container as it
    found it (none, if there was none) and echoes the warning, when the
    catalog holds neither the container's abbreviation nor the model name it
    was started with. (The abbreviation and the model name are texts that
    the lookup program reads as they are written, and the model name is a
    single field.) *)
Lemma sync_redis_skips_unknown h s predefined_models container info :
  let MODEL_ABBR := strip "MIND_MODEL_" container in
  let MODEL_NAME := model_arg (Args info) in
  let after := sync_redis h s in
  MODELS_JSON h = Models predefined_models ->
  NoDup (RUNNING_MODELS (docker h)) ->
  container ∈ RUNNING_MODELS (docker h) ->
  inspect (docker h) container = Some info ->
  Status info = "running" ->
  verbatim MODEL_ABBR = true -> verbatim MODEL_NAME = true ->
  one_field MODEL_NAME = true ->
  MODEL_ABBR ∉ abbr <$> predefined_models ->
  MODEL_NAME = "" \/ MODEL_NAME ∉ name <$> predefined_models ->
  models (redis after.1) !! MODEL_ABBR = models (redis s) !! MODEL_ABBR
  /\ NotInCatalog MODEL_ABBR ∈ after.2.
Proof.
  intros MODEL_ABBR MODEL_NAME after Hcatalog Hnodup Hin Hinspect Hstatus
    Hva Hvn Hfield Habbr Hname.
  assert (Hunknown : (catalog_lookup (Models predefined_models) (python3 h)
                        MODEL_ABBR MODEL_NAME).2 = "unknown")
    by now rewrite catalog_lookup_absent.
  subst after. unfold sync_redis.
  pose proof (RUNNING_MODELS_prefix (docker h)) as Hprefix.
  assert (Hlisted : container_listed (RUNNING_MODELS (docker h)) MODEL_ABBR = true).
  { apply container_listed_running. subst MODEL_ABBR.
    now rewrite <- starts_with_strip by (apply Hprefix, Hin). }
  destruct (RUNNING_MODELS (docker h)) as [|c0 running0] eqn:Hrun.
  { now apply elem_of_nil in Hin. }
  rewrite <- Hrun in *. clear Hrun c0 running0.
  apply list_elem_of_split in Hin as (before & later & Hsplit).
  rewrite Hsplit in Hnodup, Hprefix, Hlisted |- *.
  apply NoDup_app in Hnodup as (_ & Hbefore & [Hlater _]%NoDup_cons).
  assert (Hother : forall c, c ∈ before \/ c ∈ later ->
                     strip "MIND_MODEL_" c <> MODEL_ABBR).
  { intros c Hc Heq. apply strip_inj in Heq.
    - subst c. destruct Hc as [Hc|Hc]; [|contradiction].
      apply (Hbefore container Hc). now left.
    - apply Hprefix. rewrite elem_of_app, elem_of_cons. tauto.
    - apply Hprefix. rewrite elem_of_app, elem_of_cons. tauto. }
  rewrite foldl_app. cbn [foldl]. rewrite Hcatalog.
  destruct (foldl (sync_container (docker h) (Models predefined_models) (python3 h))
              (redis s, []) before) as [r1 out1] eqn:Hfold1.
  rewrite (sync_container_unknown _ _ _ _ _ _ info)
    by (assumption || discriminate).
  pose proof (foldl_sync_container_other (docker h) (Models predefined_models)
                (python3 h) before (redis s, []) MODEL_ABBR) as Hkeep1.
  rewrite Hfold1 in Hkeep1. cbn [fst] in Hkeep1.
  pose proof (foldl_sync_container_other (docker h) (Models predefined_models)
                (python3 h) later (r1, (out1 ++ [ Found container (GPU_DEVICE (Env info));
                                      NotInCatalog MODEL_ABBR ])%list)
                MODEL_ABBR) as Hkeep2.
  destruct (foldl_sync_container_log (docker h) (Models predefined_models)
              (python3 h) later (r1, (out1 ++ [ Found container (GPU_DEVICE (Env info));
                                    NotInCatalog MODEL_ABBR ])%list))
    as [more Hlog].
  destruct (foldl _ (r1, _) later) as [r2 out2].
  cbn [fst snd] in *. split.
  - cbn [redis clean_stale models].
    rewrite <- Hkeep1, <- Hkeep2 by auto.
    destruct (models r2 !! MODEL_ABBR) as [record|] eqn:Hrecord.
    + apply map_lookup_filter_Some. split; [exact Hrecord|exact Hlisted].
    + apply map_lookup_filter_None. now left.
  - rewrite Hlog. rewrite !elem_of_app, !elem_of_cons. tauto.
Qed.

(** A container that passes the checks is recorded with status [running]. *)
Lemma sync_container_marks_running d MODELS_JSON python3 r out container info :
  let MODEL_ABBR := strip "MIND_MODEL_" container in
  inspect d container = Some info ->
  Status info = "running" ->
  MODELS_JSON <> NoFile ->
  (catalog_lookup MODELS_JSON python3 MODEL_ABBR (model_arg (Args info))).2
    <> "unknown" ->
  (models (sync_container d MODELS_JSON python3 (r, out) container).1
     !! MODEL_ABBR) ≫= (.!! "status") = Some "running".
Proof.
  intros MODEL_ABBR Hinspect Hstatus Hfile Hknown.
  rewrite (sync_container_running _ _ _ _ _ _ info) by assumption.
  cbn zeta. fold MODEL_ABBR.
  destruct (String.eqb_spec
              (catalog_lookup MODELS_JSON python3 MODEL_ABBR
                 (model_arg (Args info))).2 "unknown") as [Heq|_];
    [contradiction|].
  cbn [fst SET_gpu_assignment HSET models]. rewrite lookup_insert_eq.
  cbn. by simplify_map_eq.
Qed.

End SyncRedisFacts.

(** * Further properties of the front end *)

Section ChatRequestFacts.
Import ChatPlayground.

Lemma lastn_suffix {A} (k : nat) (l : list A) : lastn k l `suffix_of` l.
Proof. apply suffix_drop. Qed.

Lemma lastn_length {A} (k : nat) (l : list A) :
  length (lastn k l) = Nat.min k (length l).
Proof. unfold lastn. rewrite length_drop. lia. Qed.

Lemma last_drop_lt {A} (j : nat) (l : list A) :
  (j < length l)%nat -> last (drop j l) = last l.
Proof.
  intros Hj. rewrite <- (take_drop j l) at 2. rewrite last_app.
  destruct (last (drop j l)) eqn:E; [reflexivity|].
  apply last_None in E. apply (f_equal length) in E.
  rewrite length_drop in E. cbn in E. lia.
Qed.

(** The list of a request: the system prompt, then a run of the most recent
    other messages that ends in the new one. *)
Lemma contextManagement_kept st userMessage :
  exists kept,
    (contextManagement st userMessage).1
      = {| role := "system"; content := systemPrompt st |} :: kept
    /\ kept `suffix_of` (filter (fun m => role m ≠ "system") (messages st)
                         ++ [userMessage])%list
    /\ last kept = Some userMessage
    /\ ((contextManagement st userMessage).2 = true -> (length kept <= 10)%nat)
    /\ ((contextManagement st userMessage).2 = false ->
        kept = (filter (fun m => role m ≠ "system") (messages st)
                ++ [userMessage])%list)
    /\ (role userMessage ≠ "system" ->
        Forall (fun m => role m ≠ "system") kept).
Proof.
  cut (exists kept,
    (contextManagement st userMessage).1
      = {| role := "system"; content := systemPrompt st |} :: kept
    /\ kept `suffix_of` (filter (fun m => role m ≠ "system") (messages st)
                         ++ [userMessage])%list
    /\ last kept = Some userMessage
    /\ ((contextManagement st userMessage).2 = true -> (length kept <= 10)%nat)
    /\ ((contextManagement st userMessage).2 = false ->
        kept = (filter (fun m => role m ≠ "system") (messages st)
                ++ [userMessage])%list)).
  { intros (kept & H1 & [pre Hpre] & H3 & H4 & H5). exists kept.
    split_and!; try assumption; [now exists pre|].
    intros Hum.
    assert (Hfull : Forall (fun m => role m ≠ "system") (pre ++ kept)).
    { rewrite <- Hpre. apply Forall_app; split.
      - apply Forall_forall. intros m Hm. now apply list_elem_of_filter in Hm as [? _].
      - now repeat constructor. }
    now apply Forall_app in Hfull as [_ ?]. }
  destruct (allMessages_shape st userMessage) as (rest & Hall & Hrest & Hlen).
  unfold contextManagement. rewrite Hall.
  destruct (tooLong _ _); cbn [fst snd].
  - unfold keepRecent. rewrite slice_recent by exact Hlen.
    set (k := Z.to_nat _).
    assert (Hk : (1 <= k)%nat) by (subst k; cbn [length]; lia).
    destruct (truncateLoop_drop (maxTokens st)
                {| role := "system"; content := systemPrompt st |} (lastn k rest))
      as (j & Hj & -> & _ & _).
    assert (Hn : (1 <= length (lastn k rest))%nat) by (rewrite lastn_length; lia).
    exists (drop j (lastn k rest)). split_and!.
    + reflexivity.
    + rewrite <- Hrest. etrans; [apply suffix_drop | apply lastn_suffix].
    + rewrite last_drop_lt by lia. unfold lastn.
      rewrite last_drop_lt by lia. rewrite Hrest. apply last_snoc.
    + intros _. rewrite length_drop, lastn_length. subst k. lia.
    + discriminate.
  - exists rest. split_and!; try reflexivity.
    + now rewrite Hrest.
    + rewrite Hrest. apply last_snoc.
    + discriminate.
    + intros _. exact Hrest.
Qed.

(** X1: every request starts with the system prompt of the settings and
    ends with the new message; between them stands a run of the most recent
    non-system messages of the conversation, in order and without gaps. When
    the truncation flag is raised at most ten messages follow the prompt; when
    it is not, none is left out. A stored message of role "system" is never
    sent. *)
Theorem request_messages_shape models st userMessage st' call :
  handleStreamingResponse models st userMessage = (st', Some call) ->
  exists kept,
    Body.messages (body call)
      = {| role := "system"; content := systemPrompt st |} :: kept
    /\ kept `suffix_of` (filter (fun m => role m ≠ "system") (messages st)
                         ++ [userMessage])%list
    /\ last kept = Some userMessage
    /\ (contextTruncated st' = true -> (length kept <= 10)%nat)
    /\ (contextTruncated st' = false ->
        kept = (filter (fun m => role m ≠ "system") (messages st)
                ++ [userMessage])%list)
    /\ (role userMessage ≠ "system" ->
        Forall (fun m => role m ≠ "system") kept).
Proof.
  intros H. apply handleStreamingResponse_sent in H as (-> & -> & _).
  cbn [set_contextTruncated contextTruncated].
  apply contextManagement_kept.
Qed.

Lemma request_messages_shape_witness :
  exists kept,
    Body.messages (body Examples.helloCall)
      = {| role := "system"; content := "You are a helpful assistant." |} :: kept
    /\ last kept = Some Examples.hello.
Proof.
  destruct (request_messages_shape Examples.models (Examples.withSettings 512 [])
              Examples.hello (Examples.withSettings 512 []) Examples.helloCall
              eq_refl) as (kept & H1 & _ & H3 & _).
  exists kept. split; [exact H1 | exact H3].
Defined.

End ChatRequestFacts.

Section ChatSendFacts.
Import ChatPlayground ChatSend.
Variable trim : string -> string.

Local Abbreviation userMessage ui := {| role := "user"; content := trim (input ui) |}.
Local Abbreviation assistantMessage := {| role := "assistant"; content := "" |}.

Local Abbreviation blocked := (ChatSend.blocked trim).

Lemma handleSend_guard_true models ui :
  blocked ui -> handleSend trim models ui = (ui, None).
Proof.
  unfold ChatSend.blocked, handleSend. intros H.
  destruct (String.eqb_spec (trim (input ui)) ""); [reflexivity|].
  destruct (String.eqb_spec (selectedModel (chat ui)) ""); [reflexivity|].
  destruct (loading ui); [reflexivity|].
  destruct H as [?|[?|?]]; congruence.
Qed.

Lemma handleSend_guard_false models ui :
  ¬ blocked ui ->
  handleSend trim models ui
  = let r := handleStreamingResponse models (chat ui) (userMessage ui) in
    ({| chat := {| messages := (messages (chat ui)
                                ++ [userMessage ui; assistantMessage])%list;
                   selectedModel := selectedModel (chat ui);
                   temperature := temperature (chat ui);
                   maxTokens := maxTokens (chat ui);
                   topP := topP (chat ui);
                   systemPrompt := systemPrompt (chat ui);
                   contextTruncated := contextTruncated r.1 |};
        input := "";
        loading := true |}, r.2).
Proof.
  unfold ChatSend.blocked, handleSend. intros H.
  destruct (String.eqb_spec (trim (input ui)) ""); [tauto|].
  destruct (String.eqb_spec (selectedModel (chat ui)) ""); [tauto|].
  destruct (loading ui); [tauto|]. cbn [orb].
  unfold handleStreamingResponse.
  destruct (List.find _ models); [|reflexivity].
  destruct (contextManagement _ _). reflexivity.
Qed.

(** X2: [handleSend] leaves every cell as it was, and sends nothing, exactly
    when the trimmed input is empty, no model is selected, or a reply is
    still loading. *)
Theorem handleSend_noop_iff_blocked models ui :
  handleSend trim models ui = (ui, None) <-> blocked ui.
Proof.
  split; [|apply handleSend_guard_true].
  intros H. destruct (decide (loading ui = true)) as [Hl|Hl]; [right; now right|].
  destruct (decide (trim (input ui) = "")) as [|Ht]; [now left|].
  destruct (decide (selectedModel (chat ui) = "")) as [|Hm]; [right; now left|].
  exfalso. rewrite handleSend_guard_false in H by (unfold ChatSend.blocked; tauto).
  cbn zeta in H. injection H as H _. apply (f_equal loading) in H. cbn in H.
  congruence.
Qed.

(** X3: a send that passes the guard appends the user's trimmed text and an
    empty assistant message, clears the input and turns loading on; the
    request it makes, if any, starts with the system prompt, ends with that
    same user message, and asks for no more tokens than the Max Tokens
    setting. *)
Theorem handleSend_appends_and_asks models ui ui' call :
  ¬ blocked ui ->
  handleSend trim models ui = (ui', call) ->
  messages (chat ui')
    = (messages (chat ui) ++ [userMessage ui; assistantMessage])%list
  /\ input ui' = "" /\ loading ui' = true
  /\ forall c, call = Some c ->
       head (Body.messages (body c))
         = Some {| role := "system"; content := systemPrompt (chat ui) |}
       /\ last (Body.messages (body c)) = Some (userMessage ui)
       /\ Body.max_tokens (body c) <= maxTokens (chat ui).
Proof.
  intros Hb H. rewrite handleSend_guard_false in H by exact Hb.
  cbn zeta in H. injection H as <- <-. cbn. split_and!; try reflexivity.
  intros c Hc.
  destruct (handleStreamingResponse models (chat ui) (userMessage ui))
    as [st' call'] eqn:E.
  cbn in Hc. subst call'.
  pose proof (handleStreamingResponse_sent _ _ _ _ _ E) as (_ & _ & Hmax).
  pose proof (handleStreamingResponse_sent _ _ _ _ _ E) as (_ & Hsent & _).
  destruct (contextManagement_kept (chat ui) (userMessage ui))
    as (kept & Hk & _ & Hlast & _).
  rewrite Hsent, Hk. split_and!.
  - reflexivity.
  - destruct kept as [|x kept]; [discriminate|].
    now rewrite last_cons_cons.
  - rewrite Hmax. lia.
Qed.

(** X4: when the selected model is not among the models handed to the
    component, a send that passes the guard makes no request and still
    turns loading on; nothing turns it off again, so every later send, with
    whatever input and models, does nothing. *)
Theorem handleSend_without_model_blocks models ui :
  ¬ blocked ui ->
  List.find (fun m => String.eqb (abbr m) (selectedModel (chat ui))) models = None ->
  let ui' := (handleSend trim models ui).1 in
  (handleSend trim models ui).2 = None
  /\ messages (chat ui')
     = (messages (chat ui) ++ [userMessage ui; assistantMessage])%list
  /\ forall models' text,
       let typed := {| chat := chat ui'; input := text; loading := loading ui' |} in
       handleSend trim models' typed = (typed, None).
Proof.
  intros Hb Hfind. rewrite handleSend_guard_false by exact Hb.
  unfold handleStreamingResponse. rewrite Hfind. cbn. split_and!; try reflexivity.
  intros models' text. apply handleSend_guard_true.
  right; right. reflexivity.
Qed.

End ChatSendFacts.

Lemma typedHello_not_blocked :
  ¬ ChatSend.blocked MoreExamples.trimmed MoreExamples.typedHello.
Proof. intros [H|[H|H]]; discriminate H. Qed.

Lemma handleSend_appends_and_asks_witness :
  ChatPlayground.messages (ChatSend.chat
    (ChatSend.handleSend MoreExamples.trimmed Examples.models
       MoreExamples.typedHello).1)
  = [ Examples.hello;
      {| ChatPlayground.role := "assistant"; ChatPlayground.content := "" |} ].
Proof.
  exact (proj1 (handleSend_appends_and_asks MoreExamples.trimmed Examples.models
                  MoreExamples.typedHello _ _ typedHello_not_blocked
                  (surjective_pairing _))).
Defined.

Lemma handleSend_without_model_blocks_witness :
  (ChatSend.handleSend MoreExamples.trimmed [] MoreExamples.typedHello).2 = None.
Proof.
  exact (proj1 (handleSend_without_model_blocks MoreExamples.trimmed []
                  MoreExamples.typedHello typedHello_not_blocked eq_refl)).
Defined.

Section ChatStreamFacts.
Import ChatStream.
Variable deltaContent : string -> string.

Local Abbreviation nl := ("010"%char).
Local Abbreviation onLine := (ChatStream.onLine deltaContent).
Local Abbreviation onChunk := (ChatStream.onChunk deltaContent).
Local Abbreviation readStream := (ChatStream.readStream deltaContent).

Lemma fields_of_not_nil d s : SyncRedis.fields_of d s <> [].
Proof.
  destruct s as [|c s]; simpl; [discriminate|].
  destruct (Ascii.eqb c d); [discriminate|].
  destruct (SyncRedis.fields_of d s); discriminate.
Qed.

(** [split] distributes over a delimiter in the middle. *)
Lemma fields_of_split d s t :
  SyncRedis.fields_of d (s ++ String d t)
  = (SyncRedis.fields_of d s ++ SyncRedis.fields_of d t)%list.
Proof.
  induction s as [|c s IH]; simpl.
  - now rewrite Ascii.eqb_refl.
  - destruct (Ascii.eqb c d); [now rewrite IH|].
    rewrite IH. pose proof (fields_of_not_nil d s) as Hs.
    destruct (SyncRedis.fields_of d s); [congruence|reflexivity].
Qed.

Lemma onChunk_split fullContent a b :
  onChunk fullContent (a ++ String nl b) = onChunk (onChunk fullContent a) b.
Proof. unfold ChatStream.onChunk. now rewrite fields_of_split, fold_left_app. Qed.

Lemma onChunk_empty fullContent : onChunk fullContent "" = fullContent.
Proof. reflexivity. Qed.

Lemma readStream_app chunks more :
  readStream (chunks ++ more) = fold_left onChunk more (readStream chunks).
Proof. apply fold_left_app. Qed.

(** X5: where the stream is cut into chunks does not matter as long as the
    cut is next to a line feed: a chunk [a\nb] read whole, read as [a\n] then
    [b], or read as [a] then [\nb], gives the same text. *)
Theorem readStream_cut_at_line_feed before a b after :
  readStream (before ++ (a ++ String nl b) :: after)
  = readStream (before ++ (a ++ String nl "") :: b :: after)
  /\ readStream (before ++ (a ++ String nl b) :: after)
     = readStream (before ++ a :: String nl b :: after).
Proof.
  rewrite !readStream_app. cbn [fold_left].
  rewrite !onChunk_split, !onChunk_empty.
  change (String nl b) with ("" ++ String nl b).
  rewrite (onChunk_split _ "" b), onChunk_empty. split; reflexivity.
Qed.

Lemma onChunk_line fullContent line :
  nl ∉ list_ascii_of_string line ->
  onChunk fullContent line = onLine fullContent line.
Proof.
  intros H. unfold ChatStream.onChunk.
  now rewrite fields_of_no_delimiter.
Qed.

Lemma onLine_data fullContent data :
  data <> "[DONE]" ->
  onLine fullContent ("data: " ++ data) = fullContent ++ deltaContent data.
Proof.
  intros H. unfold ChatStream.onLine, SyncRedis.starts_with.
  rewrite strip_app, drop_prefix_app.
  now destruct (String.eqb_spec data "[DONE]").
Qed.

(** X6: a data line that a chunk boundary cuts in two is not put together
    again: the first part is parsed on its own and the rest, which no longer
    starts with [data: ], is dropped; read in one chunk the same line gives
    the content of the whole payload. *)
Theorem readStream_cut_inside_line before p1 p2 :
  nl ∉ list_ascii_of_string p1 ->
  nl ∉ list_ascii_of_string p2 ->
  p1 <> "[DONE]" -> p1 ++ p2 <> "[DONE]" ->
  SyncRedis.starts_with "data: " p2 = false ->
  readStream (before ++ ["data: " ++ p1; p2])
    = readStream before ++ deltaContent p1
  /\ readStream (before ++ ["data: " ++ p1 ++ p2])
     = readStream before ++ deltaContent (p1 ++ p2).
Proof.
  intros H1 H2 Hd1 Hd Hp2. rewrite !readStream_app. cbn [fold_left].
  assert (Hdata : nl ∉ list_ascii_of_string "data: ").
  { apply (bool_decide_unpack _). vm_compute. exact I. }
  rewrite !onChunk_line
    by (rewrite ?list_ascii_of_string_app, ?not_elem_of_app; tauto).
  rewrite !onLine_data by assumption. split; [|reflexivity].
  unfold ChatStream.onLine. now rewrite Hp2.
Qed.

End ChatStreamFacts.

Lemma readStream_cut_inside_line_witness :
  ChatStream.readStream (fun data => data) ["data: ab"; "cd"] = "ab"
  /\ ChatStream.readStream (fun data => data) ["data: abcd"] = "abcd".
Proof.
  apply (readStream_cut_inside_line (fun data => data) [] "ab" "cd");
    try discriminate; try reflexivity;
    apply (bool_decide_unpack _); vm_compute; exact I.
Defined.

Section AuthContextFacts.
Import AuthContext.
Variable parseInt : string -> option Z.

Local Abbreviation onMount := (AuthContext.onMount parseInt).

Lemma truthy_Some x : truthy (Some x) = true <-> x <> "".
Proof. destruct x; cbn; split; congruence. Qed.

(** X7: on page load the session becomes authenticated exactly when the
    storage holds a non-empty token and a non-empty expiry that parses to a
    time after the clock reading; then the stored token is the session's
    token, the storage is left alone, and a logout timer is set for what
    remains of the token's life at the second clock reading, if anything
    remains. Loading ends in every case. *)
Theorem onMount_authenticates_iff stored now1 now2 :
  let s' := onMount now1 now2 (pageLoad stored) in
  loading (state s') = false
  /\ (isAuthenticated (state s') = true <->
      exists t x e,
        stored !! "auth_token" = Some t /\ t <> ""
        /\ stored !! "token_expires" = Some x /\ x <> ""
        /\ parseInt x = Some e /\ now1 < e)
  /\ (forall t x e,
        stored !! "auth_token" = Some t -> stored !! "token_expires" = Some x ->
        parseInt x = Some e ->
        isAuthenticated (state s') = true ->
        token (state s') = Some t
        /\ localStorage s' = stored
        /\ timers s' = if 0 <? e - now2 then [e - now2] else [])
  /\ (isAuthenticated (state s') = false ->
      token (state s') = None /\ timers s' = []).
Proof.
  unfold AuthContext.onMount, pageLoad. cbn [localStorage state timers].
  destruct (stored !! "auth_token") as [t|] eqn:Et;
    [destruct (stored !! "token_expires") as [x|] eqn:Ex|].
  - destruct (decide (t = "")) as [->|Ht].
    { cbn. split_and!; try done.
      - split; [discriminate|]. intros (?&?&?&?&?&_). congruence.
    }
    destruct (decide (x = "")) as [->|Hx].
    { replace (truthy (Some t) && truthy (Some ""))%bool with false
        by (cbn; now rewrite andb_false_r).
      cbn. split_and!; try done.
      split; [discriminate|]. intros (?&?&?&?&?&?&?&_). congruence. }
    replace (truthy (Some t) && truthy (Some x))%bool with true
      by (symmetry; apply andb_true_iff; split; now apply truthy_Some).
    destruct (parseInt x) as [e|] eqn:Ep.
    + destruct (Z.ltb_spec now1 e) as [Hlt|Hge].
      * unfold scheduleLogout. rewrite Ep.
        destruct (0 <? e - now2) eqn:Hd; cbn; rewrite ?Ep.
        -- split_and!; try done.
           ++ split; [|done]. intros _. exists t, x, e. now rewrite Ep.
           ++ intros ??? [= <-] [= <-]. rewrite Ep. intros [= <-] _.
              now rewrite Hd.
        -- split_and!; try done.
           ++ split; [|done]. intros _. exists t, x, e. now rewrite Ep.
           ++ intros ??? [= <-] [= <-]. rewrite Ep. intros [= <-] _.
              now rewrite Hd.
      * cbn. split_and!; try done.
        split; [discriminate|].
        intros (?&?&?&[= <-]&_&[= <-]&_&Hp&?). rewrite Ep in Hp.
        injection Hp as <-. lia.
    + cbn. split_and!; try done.
      split; [discriminate|].
      intros (?&?&?&[= <-]&_&[= <-]&_&Hp&?). rewrite Ep in Hp. discriminate.
  - cbn. split_and!; try done.
    split; [discriminate|]. intros (?&?&?&?&?&?&_). congruence.
  - cbn. split_and!; try done.
    split; [discriminate|]. intros (?&?&?&?&_). congruence.
Qed.

Lemma logout_storage s k :
  localStorage (logout s) !! k
  = if decide (k = "auth_token" \/ k = "token_expires") then None
    else localStorage s !! k.
Proof.
  unfold logout. cbn [localStorage].
  destruct (decide _) as [[->| ->]|Hk].
  - rewrite lookup_delete_ne by discriminate. apply lookup_delete_eq.
  - apply lookup_delete_eq.
  - rewrite !lookup_delete_ne by (intros <-; tauto). reflexivity.
Qed.

(** X8: a page load that finds a stored token whose expiry has passed, or
    does not parse, logs out: the session is not authenticated and has no
    token, both items are gone from the storage while every other item
    stays, and no timer is set. *)
Theorem onMount_expired_clears stored now1 now2 t x :
  stored !! "auth_token" = Some t -> t <> "" ->
  stored !! "token_expires" = Some x -> x <> "" ->
  match parseInt x with Some e => e <= now1 | None => True end ->
  let s' := onMount now1 now2 (pageLoad stored) in
  state s' = {| isAuthenticated := false; token := None; loading := false |}
  /\ timers s' = []
  /\ forall k, localStorage s' !! k
               = if decide (k = "auth_token" \/ k = "token_expires") then None
                 else stored !! k.
Proof.
  intros Et Ht Ex Hx He. unfold AuthContext.onMount, pageLoad.
  cbn [localStorage state timers]. rewrite Et, Ex.
  replace (truthy (Some t) && truthy (Some x))%bool with true
    by (symmetry; apply andb_true_iff; split; now apply truthy_Some).
  assert (Hout : forall s : Session,
            s = logout (pageLoad stored) ->
            {| isAuthenticated := isAuthenticated (state s);
               token := token (state s); loading := false |}
            = {| isAuthenticated := false; token := None; loading := false |}
            /\ timers s = []
            /\ forall k, localStorage s !! k
                 = if decide (k = "auth_token" \/ k = "token_expires") then None
                   else stored !! k).
  { intros s ->. split_and!; try reflexivity. intros k. apply logout_storage. }
  destruct (parseInt x) as [e|].
  - destruct (Z.ltb_spec now1 e); [lia|]. now apply Hout.
  - now apply Hout.
Qed.

(** X9: once [logout] has run, the storage holds neither the token nor its
    expiry, and a later page load leaves the session unauthenticated and
    without a token, whatever the clock says. *)
Theorem logout_survives_reload s now1 now2 :
  let s' := onMount now1 now2 (pageLoad (localStorage (logout s))) in
  localStorage (logout s) !! "auth_token" = None
  /\ localStorage (logout s) !! "token_expires" = None
  /\ state s' = {| isAuthenticated := false; token := None; loading := false |}
  /\ localStorage s' = localStorage (logout s).
Proof.
  assert (H1 : localStorage (logout s) !! "auth_token" = None)
    by (rewrite logout_storage; now destruct (decide _) as [|[]]; [|left]).
  assert (H2 : localStorage (logout s) !! "token_expires" = None)
    by (rewrite logout_storage; now destruct (decide _) as [|[]]; [|right]).
  split_and!; try assumption;
    unfold AuthContext.onMount, pageLoad; cbn [localStorage state timers];
    rewrite H1; reflexivity.
Qed.

(** X10: the request [fetchWithAuth] hands to [fetch] carries the session's
    token as [Authorization: Bearer <token>], in place of any
    [Authorization] header of the caller; every other header, the method and
    the body are the caller's. Without a token the caller's options go out
    unchanged. *)
Theorem authOptions_headers s options :
  method (authOptions s options) = method options
  /\ body (authOptions s options) = body options
  /\ (forall k, k <> "Authorization" ->
       headers (authOptions s options) !! k = headers options !! k)
  /\ headers (authOptions s options) !! "Authorization"
     = match token (state s) with
       | Some t => if decide (t = "") then headers options !! "Authorization"
                   else Some ("Bearer " ++ t)
       | None => headers options !! "Authorization"
       end.
Proof.
  unfold authOptions, getAuthHeaders. cbn [method body headers].
  split_and!; try reflexivity.
  - intros k Hk. destruct (token (state s)) as [[|c t]|]; cbn [truthy];
      try rewrite (left_id_L ∅ (∪)); try reflexivity.
    rewrite lookup_union_r; [reflexivity|]. now apply lookup_singleton_ne.
  - destruct (token (state s)) as [[|c t]|]; cbn [truthy];
      try rewrite (left_id_L ∅ (∪)); try reflexivity.
    destruct (decide _); [discriminate|].
    erewrite lookup_union_Some_l; [reflexivity|]. apply lookup_singleton_eq.
Qed.

(** X11: a 401 answer logs the session out (no token, both items removed
    from the storage, the other items kept) and reaches the caller as the
    error "Authentication expired", and the next request carries none of the
    session's headers; any other answer reaches the caller as it is and
    leaves the session untouched. *)
Theorem fetchWithAuth_401_logs_out fetch url options s :
  let status := fetch url (authOptions s options) in
  let r := fetchWithAuth fetch url options s in
  (status = 401 ->
     r.2 = Thrown "Authentication expired"
     /\ isAuthenticated (state r.1) = false /\ token (state r.1) = None
     /\ (forall k, localStorage r.1 !! k
                   = if decide (k = "auth_token" \/ k = "token_expires") then None
                     else localStorage s !! k)
     /\ forall options', authOptions r.1 options' = options')
  /\ (status <> 401 -> r = (s, Response status)).
Proof.
  cbn zeta. unfold fetchWithAuth.
  destruct (Z.eqb_spec (fetch url (authOptions s options)) 401) as [->|Hne].
  - split; [|congruence]. intros _. cbn [fst snd]. split_and!; try reflexivity.
    + apply logout_storage.
    + intros [m h b]. unfold authOptions, getAuthHeaders. cbn.
      now rewrite (left_id_L ∅ (∪)).
  - split; [congruence|reflexivity].
Qed.

End AuthContextFacts.

(** * Further properties of the reconciliation script *)

Section SyncRedisRuns.
Import SyncRedis.

Local Abbreviation put := (fun (h : gmap string string) (fv : string * string) =>
                             <[ fv.1 := fv.2 ]> h).

(** What one round of the container loop does to the store: nothing, or
    one [HSET] and one [SET] under the abbreviation of the container. *)
Local Abbreviation written MODEL_ABBR w r :=
  (match w with
   | None => r
   | Some (fvs, GPU) => SET_gpu_assignment MODEL_ABBR GPU (HSET MODEL_ABBR fvs r)
   end).

Lemma Redis_eq r r' :
  models r = models r' -> gpu_assignment r = gpu_assignment r' -> r = r'.
Proof. destruct r, r'. cbn. now intros -> ->. Qed.

Lemma foldl_put_union h fvs :
  foldl put h fvs = list_to_map (reverse fvs) ∪ h.
Proof.
  revert h. induction fvs as [|[k v] fvs IH]; intros h; cbn [foldl].
  - cbn. now rewrite (left_id_L ∅ (∪)).
  - rewrite IH, reverse_cons, list_to_map_app. cbn [list_to_map foldr fst snd].
    rewrite <- (assoc_L (∪)). f_equal.
    now rewrite insert_union_singleton_l, insert_empty.
Qed.

Lemma foldl_put_twice h fvs : foldl put (foldl put h fvs) fvs = foldl put h fvs.
Proof.
  rewrite !foldl_put_union, (assoc_L (∪)). f_equal. apply (idemp_L (∪)).
Qed.

Lemma foldl_put_lookup_other h fvs f :
  f ∉ fvs.*1 -> foldl put h fvs !! f = h !! f.
Proof.
  revert h. induction fvs as [|[k v] fvs IH]; intros h Hf; [reflexivity|].
  cbn [foldl]. apply not_elem_of_cons in Hf as [Hk Hf].
  rewrite IH by exact Hf. now apply lookup_insert_ne.
Qed.

(** The record of [MODEL_ABBR] already holds the fields [fvs], and its GPU
    assignment is [GPU]. *)
Local Abbreviation settled MODEL_ABBR fvs GPU r :=
  (exists record,
     models r !! MODEL_ABBR = Some record
     /\ foldl put record fvs = record
     /\ gpu_assignment r !! MODEL_ABBR = Some GPU).

Lemma sync_container_written d catalog python3 container :
  exists w, forall acc,
    (sync_container d catalog python3 acc container).1
    = written (strip "MIND_MODEL_" container) w acc.1.
Proof.
  unfold sync_container.
  destruct (inspect d container) as [info|];
    [|exists None; now intros [r out]].
  destruct (String.eqb (Status info) "running");
    [|exists None; now intros [r out]].
  destruct catalog as [|predefined_models|];
    [exists None; now intros [r out]| |];
    (destruct (String.eqb _ "unknown");
     [exists None; now intros [r out]|]);
    eexists (Some (_, _)); intros [r out]; reflexivity.
Qed.

Lemma written_settles a fvs GPU r :
  settled a fvs GPU (SET_gpu_assignment a GPU (HSET a fvs r)).
Proof.
  eexists. cbn [SET_gpu_assignment HSET models gpu_assignment].
  rewrite !lookup_insert_eq. split_and!; try reflexivity.
  apply foldl_put_twice.
Qed.

Lemma settled_fixed a fvs GPU r :
  settled a fvs GPU r -> SET_gpu_assignment a GPU (HSET a fvs r) = r.
Proof.
  intros (record & Hrecord & Hfields & Hgpu). apply Redis_eq.
  - cbn [SET_gpu_assignment HSET models]. rewrite Hrecord.
    change (default ∅ (Some record)) with record.
    rewrite Hfields. now apply insert_id.
  - cbn [SET_gpu_assignment HSET gpu_assignment]. now apply insert_id.
Qed.

Lemma settled_other a fvs GPU a' w r :
  a <> a' -> settled a fvs GPU r -> settled a fvs GPU (written a' w r).
Proof.
  intros Hne H. destruct w as [[fvs' GPU']|]; [|exact H].
  destruct H as (record & Hrecord & Hfields & Hgpu). exists record.
  cbn [SET_gpu_assignment HSET models gpu_assignment].
  rewrite !lookup_insert_ne by congruence. auto.
Qed.

Lemma settled_clean_stale running a fvs GPU r :
  container_listed running a = true ->
  settled a fvs GPU r -> settled a fvs GPU (clean_stale running r).
Proof.
  intros Hlisted (record & Hrecord & Hfields & Hgpu). exists record.
  cbn [clean_stale models gpu_assignment]. split_and!.
  - now apply map_lookup_filter_Some.
  - exact Hfields.
  - apply map_lookup_filter_Some. split; [exact Hgpu|]. now right.
Qed.

(** After the loop, what a container wrote is still in place: a later
    container writes under another abbreviation, or is the same container. *)
Lemma foldl_sync_container_settles d catalog python3 running acc container fvs GPU :
  (forall c, c ∈ running -> starts_with "MIND_MODEL_" c = true) ->
  container ∈ running ->
  (forall acc, (sync_container d catalog python3 acc container).1
               = SET_gpu_assignment (strip "MIND_MODEL_" container) GPU
                   (HSET (strip "MIND_MODEL_" container) fvs acc.1)) ->
  settled (strip "MIND_MODEL_" container) fvs GPU
          (foldl (sync_container d catalog python3) acc running).1.
Proof.
  intros Hprefix Hin Hwrite.
  induction running as [|x running IH] using rev_ind.
  { now apply elem_of_nil in Hin. }
  rewrite foldl_app. cbn [foldl].
  destruct (decide (x = container)) as [->|Hne].
  { rewrite Hwrite. apply written_settles. }
  assert (Hin' : container ∈ running).
  { apply elem_of_app in Hin as [?|Hx]; [assumption|].
    apply list_elem_of_singleton in Hx. congruence. }
  destruct (sync_container_written d catalog python3 x) as [w Hw]. rewrite Hw.
  apply settled_other.
  - intros Heq. apply Hne. symmetry. apply strip_inj; [| |exact Heq].
    + apply Hprefix, elem_of_app. now left.
    + apply Hprefix, elem_of_app. right. now apply list_elem_of_singleton.
  - apply IH; [|exact Hin'].
    intros c Hc. apply Hprefix, elem_of_app. now left.
Qed.

(** A store in which every container's writes are in place goes through the
    loop unchanged. *)
Lemma foldl_sync_container_fixed d catalog python3 running r out :
  (forall c fvs GPU,
     c ∈ running ->
     (forall acc, (sync_container d catalog python3 acc c).1
                  = SET_gpu_assignment (strip "MIND_MODEL_" c) GPU
                      (HSET (strip "MIND_MODEL_" c) fvs acc.1)) ->
     settled (strip "MIND_MODEL_" c) fvs GPU r) ->
  (foldl (sync_container d catalog python3) (r, out) running).1 = r.
Proof.
  revert out. induction running as [|c running IH]; intros out Hall; [reflexivity|].
  cbn [foldl].
  destruct (sync_container d catalog python3 (r, out) c) as [r' out'] eqn:Hstep.
  assert (Hr : r' = r).
  { pose proof (f_equal fst Hstep) as Hfst. cbn [fst] in Hfst. rewrite <- Hfst.
    destruct (sync_container_written d catalog python3 c) as [[[fvs GPU]|] Hw].
    - rewrite Hw. cbn [fst]. apply settled_fixed, Hall; [now left|].
      exact Hw.
    - now rewrite Hw. }
  subst r'. apply IH. intros c' fvs GPU Hc'. apply Hall. now right.
Qed.

Lemma clean_stale_twice running r :
  clean_stale running (clean_stale running r) = clean_stale running r.
Proof.
  apply Redis_eq; cbn [clean_stale models gpu_assignment].
  - apply map_eq. intros a. apply option_eq. intros record.
    rewrite !map_lookup_filter_Some. tauto.
  - apply map_eq. intros a. apply option_eq. intros GPU.
    rewrite !map_lookup_filter_Some. cbn [fst]. split; [tauto|].
    intros [HGPU Hwhy]. split_and!; try assumption.
    destruct Hwhy as [Hnone|?]; [|now right]. left.
    apply map_lookup_filter_None. now left.
Qed.

Lemma filter_none {A} (f : A -> bool) l :
  (forall x, x ∈ l -> f x = false) -> List.filter f l = [].
Proof.
  induction l as [|x l IH]; intros Hall; [reflexivity|]. cbn.
  rewrite (Hall x) by now left. apply IH. intros y Hy. apply Hall. now right.
Qed.

Lemma stale_none running r :
  (forall a, is_Some (models r !! a) -> container_listed running a = true) ->
  stale running r = [].
Proof.
  intros Hall. unfold stale. apply filter_none.
  intros a ((a' & record) & -> & Hin%elem_of_map_to_list)%list_elem_of_fmap.
  cbn [fst]. rewrite Hall; [reflexivity|]. now exists record.
Qed.

Lemma sync_container_reports_no_removal d catalog python3 acc container a :
  RemovedStale a ∉ acc.2 ->
  RemovedStale a ∉ (sync_container d catalog python3 acc container).2.
Proof.
  destruct acc as [r out]. cbn [snd]. intros Hout. unfold sync_container.
  repeat case_match; cbn [snd]; try exact Hout;
    rewrite ?elem_of_app, ?elem_of_cons, ?elem_of_nil; intros Hin;
    repeat (destruct Hin as [Hin|Hin]; try discriminate Hin; try contradiction).
Qed.

Lemma foldl_sync_container_reports_no_removal d catalog python3 running acc a :
  RemovedStale a ∉ acc.2 ->
  RemovedStale a ∉ (foldl (sync_container d catalog python3) acc running).2.
Proof.
  revert acc. induction running as [|c running IH]; intros acc Hacc; [exact Hacc|].
  cbn [foldl]. now apply IH, sync_container_reports_no_removal.
Qed.

Lemma sync_redis_running h s c running :
  RUNNING_MODELS (docker h) = c :: running ->
  sync_redis h s
  = let running := RUNNING_MODELS (docker h) in
    let acc := foldl (sync_container (docker h) (MODELS_JSON h) (python3 h)) (redis s, [])
                     running in
    ({| redis := clean_stale running acc.1;
        conf := if orchestrator_healthy h then model_routes_conf running
                else conf s |},
     (acc.2 ++ (RemovedStale <$> stale running acc.1))%list).
Proof.
  intros Hrun. unfold sync_redis. rewrite Hrun. cbn zeta.
  now destruct (foldl _ _ _).
Qed.

(** X12: running the script a second time on the same host changes
    nothing: the store and the routes file are as the first run left them,
    and the second run reports no stale entry. *)
Theorem sync_redis_idempotent h s :
  let first := sync_redis h s in
  let second := sync_redis h first.1 in
  second.1 = first.1 /\ forall MODEL_ABBR, RemovedStale MODEL_ABBR ∉ second.2.
Proof.
  cbn zeta.
  destruct (RUNNING_MODELS (docker h)) as [|c0 running0] eqn:Hrun.
  { unfold sync_redis. rewrite Hrun. cbn. split; [reflexivity|].
    intros a. apply not_elem_of_nil. }
  rewrite (sync_redis_running h s c0 running0 Hrun).
  rewrite (sync_redis_running h _ c0 running0 Hrun). cbn zeta.
  cbn [fst snd redis conf].
  pose proof (RUNNING_MODELS_prefix (docker h)) as Hprefix.
  set (running := RUNNING_MODELS (docker h)) in *.
  set (r1 := (foldl (sync_container (docker h) (MODELS_JSON h) (python3 h)) (redis s, [])
                    running).1).
  assert (Hfixed : forall out,
            (foldl (sync_container (docker h) (MODELS_JSON h) (python3 h))
                   (clean_stale running r1, out) running).1
            = clean_stale running r1).
  { intros out. apply foldl_sync_container_fixed. intros c fvs GPU Hc Hwrite.
    apply settled_clean_stale.
    - apply container_listed_running.
      now rewrite <- starts_with_strip by (apply Hprefix, Hc).
    - now apply foldl_sync_container_settles. }
  split.
  - rewrite Hfixed, clean_stale_twice. f_equal. f_equal.
    now destruct (orchestrator_healthy h).
  - intros a. rewrite Hfixed.
    destruct (foldl_sync_container_log (docker h) (MODELS_JSON h) (python3 h) running
                (clean_stale running r1, [])) as [more Hlog].
    rewrite stale_none.
    2:{ intros a' [record Hrecord]. cbn [clean_stale models] in Hrecord.
        now apply map_lookup_filter_Some in Hrecord as [_ ?]. }
    cbn [fmap list_fmap]. rewrite app_nil_r.
    apply foldl_sync_container_reports_no_removal. apply not_elem_of_nil.
Qed.

(** The nine fields of the [HSET]. *)
Local Abbreviation written_fields :=
  ["abbr"; "name"; "type"; "status"; "container_name"; "container_id";
   "gpu_device"; "port"; "endpoint"].

Lemma sync_container_other_fields d catalog python3 acc container a f :
  f ∉ written_fields ->
  (models (sync_container d catalog python3 acc container).1 !! a) ≫= (.!! f)
  = (models acc.1 !! a) ≫= (.!! f).
Proof.
  intros Hf. destruct acc as [r out]. cbn [fst]. unfold sync_container.
  repeat case_match; cbn [fst]; try reflexivity;
    cbn [SET_gpu_assignment HSET models];
    (destruct (decide (strip "MIND_MODEL_" container = a)) as [<-|Hne];
     [|now rewrite lookup_insert_ne]);
    rewrite lookup_insert_eq; cbn [mbind option_bind];
    rewrite foldl_put_lookup_other by exact Hf;
    (destruct (models r !! strip "MIND_MODEL_" container); [reflexivity|]);
    cbn; apply lookup_empty.
Qed.

Lemma foldl_sync_container_other_fields d catalog python3 running acc a f :
  f ∉ written_fields ->
  (models (foldl (sync_container d catalog python3) acc running).1 !! a) ≫= (.!! f)
  = (models acc.1 !! a) ≫= (.!! f).
Proof.
  intros Hf. revert acc. induction running as [|c running IH]; intros acc;
    [reflexivity|].
  cbn [foldl]. rewrite IH. now apply sync_container_other_fields.
Qed.

(** X13: after a run on a host that has a models.json, the record of a
    running container whose type does not come out of the catalog lookup as
    [unknown] holds the nine fields the script writes: its abbreviation, the
    name and the type as the lookup left them (those of [catalog_lookup]:
    the catalog's when the lookup program runs as it is written, whatever
    python3 leaves otherwise, both empty when it fails), status [running],
    the container's name twice, the GPU read from the container, port
    [8000] and the endpoint [/api/v1/{abbr}]; the GPU assignment of the
    model is the same GPU; and every other field that the record had before
    the run is still there. *)
Theorem sync_redis_writes_record h s container info :
  let MODEL_ABBR := strip "MIND_MODEL_" container in
  let GPU := GPU_DEVICE (Env info) in
  let MODEL_INFO :=
    catalog_lookup (MODELS_JSON h) (python3 h) MODEL_ABBR (model_arg (Args info)) in
  let after := redis (sync_redis h s).1 in
  MODELS_JSON h <> NoFile ->
  container ∈ RUNNING_MODELS (docker h) ->
  inspect (docker h) container = Some info ->
  Status info = "running" ->
  MODEL_INFO.2 <> "unknown" ->
  gpu_assignment after !! MODEL_ABBR = Some GPU
  /\ exists record,
       models after !! MODEL_ABBR = Some record
       /\ record !! "abbr" = Some MODEL_ABBR
       /\ record !! "name" = Some MODEL_INFO.1
       /\ record !! "type" = Some MODEL_INFO.2
       /\ record !! "status" = Some "running"
       /\ record !! "container_name" = Some container
       /\ record !! "container_id" = Some container
       /\ record !! "gpu_device" = Some GPU
       /\ record !! "port" = Some "8000"
       /\ record !! "endpoint" = Some ("/api/v1/" ++ MODEL_ABBR)
       /\ forall f, f ∉ written_fields ->
            record !! f = (models (redis s) !! MODEL_ABBR) ≫= (.!! f).
Proof.
  intros MODEL_ABBR GPU MODEL_INFO after Hcatalog Hin Hinspect Hstatus Hknown.
  pose proof (RUNNING_MODELS_prefix (docker h)) as Hprefix.
  assert (Hlisted : container_listed (RUNNING_MODELS (docker h)) MODEL_ABBR = true).
  { apply container_listed_running. subst MODEL_ABBR.
    now rewrite <- starts_with_strip by (apply Hprefix, Hin). }
  destruct (RUNNING_MODELS (docker h)) as [|c0 running0] eqn:Hrun.
  { now apply elem_of_nil in Hin. }
  subst after. rewrite (sync_redis_running h s c0 running0 Hrun). cbn zeta.
  cbn [fst redis]. rewrite <- Hrun in Hin, Hprefix, Hlisted.
  set (running := RUNNING_MODELS (docker h)) in *.
  set (fvs := [("abbr", MODEL_ABBR); ("name", MODEL_INFO.1);
               ("type", MODEL_INFO.2); ("status", "running");
               ("container_name", container); ("container_id", container);
               ("gpu_device", GPU); ("port", "8000");
               ("endpoint", "/api/v1/" ++ MODEL_ABBR)]).
  assert (Hwrite : forall acc,
            (sync_container (docker h) (MODELS_JSON h) (python3 h) acc container).1
            = SET_gpu_assignment MODEL_ABBR GPU (HSET MODEL_ABBR fvs acc.1)).
  { intros [r out].
    rewrite (sync_container_running _ _ _ _ _ _ info) by assumption.
    cbn zeta. fold MODEL_ABBR MODEL_INFO GPU.
    destruct (String.eqb_spec MODEL_INFO.2 "unknown") as [Heq|_];
      [contradiction|reflexivity]. }
  pose proof (foldl_sync_container_settles (docker h) (MODELS_JSON h) (python3 h) running
                (redis s, []) container fvs GPU Hprefix Hin Hwrite) as Hsettled.
  pose proof (foldl_sync_container_other_fields (docker h) (MODELS_JSON h) (python3 h)
                running (redis s, []) MODEL_ABBR) as Hother.
  fold MODEL_ABBR in Hsettled.
  destruct Hsettled as (record & Hrecord & Hfields & Hgpu).
  split.
  - cbn [clean_stale gpu_assignment]. apply map_lookup_filter_Some.
    split; [exact Hgpu|]. now right.
  - exists record. split.
    { cbn [clean_stale models]. now apply map_lookup_filter_Some. }
    rewrite Hrecord in Hother. cbn [mbind option_bind fst] in Hother.
    split_and!; try (rewrite <- Hfields; subst fvs; cbn [foldl fst snd];
                     by simplify_map_eq).
    intros f Hf. now apply Hother.
Qed.

(** X14: a record whose container is not listed loses its GPU assignment
    together with the record when some model container runs, and the removal
    is reported; when no model container runs at all the records are
    deleted but the GPU assignments and the routes file are left as they
    were and nothing is reported. *)
Theorem sync_redis_stale_assignment h s MODEL_ABBR :
  let running := RUNNING_MODELS (docker h) in
  let after := sync_redis h s in
  is_Some (models (redis s) !! MODEL_ABBR) ->
  container_listed running MODEL_ABBR = false ->
  models (redis after.1) !! MODEL_ABBR = None
  /\ (running <> [] ->
      gpu_assignment (redis after.1) !! MODEL_ABBR = None
      /\ RemovedStale MODEL_ABBR ∈ after.2)
  /\ (running = [] ->
      gpu_assignment (redis after.1) = gpu_assignment (redis s)
      /\ conf after.1 = conf s
      /\ after.2 = []).
Proof.
  intros running after Hrec Hlisted. subst after running.
  destruct (RUNNING_MODELS (docker h)) as [|c0 running0] eqn:Hrun.
  { unfold sync_redis. rewrite Hrun. cbn. split_and!; try done. }
  rewrite (sync_redis_running h s c0 running0 Hrun). cbn zeta.
  cbn [fst snd redis]. rewrite <- Hrun in *.
  pose proof (foldl_sync_container_keeps (docker h) (MODELS_JSON h) (python3 h)
                (RUNNING_MODELS (docker h)) (redis s, []) MODEL_ABBR Hrec)
    as [record Hrecord].
  set (r1 := (foldl _ _ _).1) in *.
  split_and!.
  - cbn [clean_stale models]. apply map_lookup_filter_None. right.
    intros ? _. cbn [fst]. congruence.
  - intros _. split.
    + cbn [clean_stale gpu_assignment]. apply map_lookup_filter_None. right.
      intros ? _ [Hnone|Hl]; cbn [fst] in *; congruence.
    + apply elem_of_app. right. apply list_elem_of_fmap. exists MODEL_ABBR.
      split; [reflexivity|]. unfold stale. apply list_elem_of_In, filter_In.
      split; [|now rewrite Hlisted].
      apply list_elem_of_In, list_elem_of_fmap. exists (MODEL_ABBR, record).
      split; [reflexivity|]. now apply elem_of_map_to_list.
  - intros Hnil. rewrite Hrun in Hnil. discriminate.
Qed.

Lemma paths_of_routes running :
  path <$> locations (model_routes_conf running)
  = flat_map (fun c => [ path (chat_location (strip "MIND_MODEL_" c));
                         path (model_location c (strip "MIND_MODEL_" c)) ])
             running.
Proof.
  rewrite locations_model_routes_conf.
  induction running as [|c running IH]; [reflexivity|].
  cbn [flat_map app fmap list_fmap]. cbn [flat_map fmap] in IH.
  now rewrite IH.
Qed.

(** X15: when the containers listed by [docker ps] have distinct names, no
    two [location] blocks of the generated file have the same path. *)
Theorem sync_redis_paths_distinct h s :
  orchestrator_healthy h = true ->
  RUNNING_MODELS (docker h) <> [] ->
  NoDup (RUNNING_MODELS (docker h)) ->
  NoDup (path <$> locations (conf (sync_redis h s).1)).
Proof.
  intros Hhealthy Hrunning Hnodup. rewrite sync_redis_conf by assumption.
  rewrite paths_of_routes.
  pose proof (RUNNING_MODELS_prefix (docker h)) as Hprefix. clear Hrunning.
  induction (RUNNING_MODELS (docker h)) as [|c running IH]; [constructor|].
  apply NoDup_cons in Hnodup as [Hc Hnodup].
  assert (Hfresh : forall p,
            p ∈ flat_map (fun c => [ path (chat_location (strip "MIND_MODEL_" c));
                                     path (model_location c (strip "MIND_MODEL_" c)) ])
                         running ->
            exists c', c' ∈ running
              /\ (p = path (chat_location (strip "MIND_MODEL_" c'))
                  \/ p = path (model_location c' (strip "MIND_MODEL_" c')))).
  { intros p (c' & Hc' & Hp)%list_elem_of_In%in_flat_map.
    exists c'. split; [now apply list_elem_of_In|].
    destruct Hp as [<-|[<-|[]]]; auto. }
  assert (Hsame : forall c', c' ∈ running ->
            strip "MIND_MODEL_" c = strip "MIND_MODEL_" c' -> False).
  { intros c' Hc' Heq. apply strip_inj in Heq.
    - now subst c'.
    - apply Hprefix. now left.
    - apply Hprefix. now right. }
  cbn [flat_map app]. apply NoDup_cons. split; [|apply NoDup_cons; split].
  - rewrite not_elem_of_cons. split; [apply chat_path_not_model_path|].
    intros (c' & Hc' & [Hp|Hp])%Hfresh.
    + apply chat_path_inj in Hp. eauto.
    + now apply chat_path_not_model_path in Hp.
  - intros (c' & Hc' & [Hp|Hp])%Hfresh.
    + symmetry in Hp. now apply chat_path_not_model_path in Hp.
    + apply model_path_inj in Hp. eauto.
  - apply IH; [exact Hnodup|].
    intros c' Hc'. apply Hprefix. now right.
Qed.

(** X16: the GPU of a container is the value of its first
    [CUDA_VISIBLE_DEVICES=] variable, whatever follows it (the value may be
    empty or hold further [=] signs); without such a variable it is ["0"]. *)
Theorem GPU_DEVICE_first_variable env_vars :
  Forall (fun var => starts_with "CUDA_VISIBLE_DEVICES=" var = false) env_vars ->
  GPU_DEVICE env_vars = "0"
  /\ forall value later,
       GPU_DEVICE (env_vars ++ ("CUDA_VISIBLE_DEVICES=" ++ value) :: later) = value.
Proof.
  unfold GPU_DEVICE. induction 1 as [|var env_vars Hvar _ [IH0 IH]].
  - split; [reflexivity|]. intros value later. cbn [app List.find].
    unfold starts_with at 1. rewrite drop_prefix_app. apply strip_app.
  - cbn [app List.find]. rewrite Hvar. split; [exact IH0 | exact IH].
Qed.

(** X17: the model name of a container is the argument that follows the
    first [--model]; a [--model] that is the last argument gives no name,
    and neither does a command line without it. *)
Theorem model_arg_first_flag args :
  "--model" ∉ args ->
  model_arg args = ""
  /\ model_arg (args ++ ["--model"]) = ""
  /\ forall value later, model_arg (args ++ "--model" :: value :: later) = value.
Proof.
  induction args as [|arg args IH]; intros Hnot.
  - split_and!; reflexivity.
  - apply not_elem_of_cons in Hnot as [Hne Hnot].
    destruct (IH Hnot) as (IH1 & IH2 & IH3).
    assert (Harg : String.eqb arg "--model" = false).
    { apply String.eqb_neq. congruence. }
    split_and!.
    + destruct args as [|next args]; [reflexivity|].
      cbn [model_arg]. now rewrite Harg.
    + destruct args as [|next args]; cbn [app model_arg]; rewrite Harg;
        [reflexivity|exact IH2].
    + intros value later.
      destruct args as [|next args]; cbn [app model_arg]; rewrite Harg.
      * reflexivity.
      * apply IH3.
Qed.

(** X18: when the abbreviation and the model name of a container are texts
    that the lookup program reads as they are written, the name and the type
    that the catalog lookup leaves come from the first catalog entry that
    has the container's abbreviation or, when the container names a model,
    that model's name: the type is the entry's type, the name is the
    container's model name if it has one and the entry's name otherwise.
    Without such an entry the name stays and the type is [unknown]. (The
    model name and the names and types of the catalog are single fields.) *)
Theorem catalog_lookup_first_match predefined_models python3 MODEL_ABBR MODEL_NAME :
  let hit model :=
    (String.eqb (abbr model) MODEL_ABBR
     || (negb (String.eqb MODEL_NAME "") && String.eqb (name model) MODEL_NAME))%bool in
  verbatim MODEL_ABBR = true -> verbatim MODEL_NAME = true ->
  one_field MODEL_NAME = true ->
  Forall (fun model => one_field (name model) = true
                       /\ one_field (type model) = true) predefined_models ->
  catalog_lookup (Models predefined_models) python3 MODEL_ABBR MODEL_NAME
  = match List.find hit predefined_models with
    | Some model =>
        (if String.eqb MODEL_NAME "" then name model else MODEL_NAME, type model)
    | None => (MODEL_NAME, "unknown")
    end.
Proof.
  intros hit Ha Hn Hfield Hall. subst hit.
  now apply catalog_lookup_written.
Qed.

End SyncRedisRuns.

(** * The list of deployed models *)

Section ModelManagerFacts.
Import ModelManager.
Variable toLowerCase : string -> string.

Local Abbreviation filteredModels := (ModelManager.filteredModels toLowerCase).
Local Abbreviation totalPages := (ModelManager.totalPages toLowerCase).
Local Abbreviation paginatedModels := (ModelManager.paginatedModels toLowerCase).

Lemma slice_nonneg {A} (s n : nat) (l : list A) :
  slice (Z.of_nat s) (Z.of_nat s + Z.of_nat n) l = take n (drop s l).
Proof.
  unfold slice.
  destruct (Z.ltb_spec (Z.of_nat s) 0); [lia|].
  destruct (Z.ltb_spec (Z.of_nat s + Z.of_nat n) 0); [lia|].
  destruct (decide (s <= length l)%nat) as [Hs|Hs].
  - replace (Z.to_nat (Z.min (Z.of_nat s) (Z.of_nat (length l)))) with s by lia.
    destruct (decide (s + n <= length l)%nat).
    + f_equal. lia.
    + rewrite !take_ge; [reflexivity| |]; rewrite length_drop; lia.
  - rewrite !drop_ge by lia. now rewrite !take_nil.
Qed.

(** A page, for a page number of at least 1 and a positive page size. *)
Lemma paginatedModels_take_drop models st :
  1 <= currentPage st -> 0 < itemsPerPage st ->
  paginatedModels models st
  = take (Z.to_nat (itemsPerPage st))
         (drop (Z.to_nat (currentPage st - 1) * Z.to_nat (itemsPerPage st))
               (filteredModels models st)).
Proof.
  intros Hp Hn. unfold ModelManager.paginatedModels, endIndex, startIndex.
  remember (Z.to_nat (currentPage st - 1)) as p eqn:Ep.
  remember (Z.to_nat (itemsPerPage st)) as n eqn:En.
  replace (currentPage st - 1) with (Z.of_nat p) by lia.
  replace (itemsPerPage st) with (Z.of_nat n) by lia.
  rewrite <- Nat2Z.inj_mul. apply slice_nonneg.
Qed.

Lemma chunks_concat {A} (n k : nat) (l : list A) :
  (length l <= k * n)%nat ->
  concat ((fun i => take n (drop (i * n) l)) <$> seq 0 k) = l.
Proof.
  revert l. induction k as [|k IH]; intros l Hlen.
  - destruct l; [reflexivity|cbn in Hlen; lia].
  - cbn [seq fmap list_fmap concat]. rewrite <- seq_shift.
    change (list_fmap nat (list A) ?f (map S ?l)) with (f <$> (S <$> l)).
    rewrite <- list_fmap_compose. cbn [Nat.mul]. rewrite drop_0.
    transitivity (take n l ++ drop n l)%list; [|apply take_drop]. f_equal.
    etrans; [|apply (IH (drop n l)); rewrite length_drop; lia].
    f_equal. apply list_fmap_ext. intros _ i _. cbn.
    now rewrite drop_drop.
Qed.

Lemma totalPages_bounds models st :
  0 < itemsPerPage st ->
  (totalPages models st - 1) * itemsPerPage st
    < Z.of_nat (length (filteredModels models st))
    <= totalPages models st * itemsPerPage st.
Proof.
  intros Hn. unfold ModelManager.totalPages, JS.Math_ceil_div.
  pose proof (Z.div_mod (- Z.of_nat (length (filteredModels models st)))
                (itemsPerPage st) ltac:(lia)).
  pose proof (Z.mod_pos_bound (- Z.of_nat (length (filteredModels models st)))
                (itemsPerPage st) Hn).
  nia.
Qed.

Lemma totalPages_setCurrentPage models p st :
  totalPages models (setCurrentPage p st) = totalPages models st.
Proof. reflexivity. Qed.

(** X19: the pages cover the filtered list: pages 1 to [totalPages], one
    after the other, are the filtered models, each once and in order. *)
Theorem pages_cover_filtered_models models st :
  0 < itemsPerPage st ->
  concat ((fun i => paginatedModels models (page i st))
            <$> seq 0 (Z.to_nat (totalPages models st)))
  = filteredModels models st.
Proof.
  intros Hn. pose proof (totalPages_bounds models st Hn) as [_ Hup].
  etrans; [|apply (chunks_concat (Z.to_nat (itemsPerPage st))
                     (Z.to_nat (totalPages models st))); nia].
  f_equal. apply list_fmap_ext. intros _ i _.
  rewrite paginatedModels_take_drop by (cbn; lia). cbn.
  do 2 f_equal. lia.
Qed.

(** X20: a page never shows more than [itemsPerPage] models; every page
    before the last is full, the last page is not empty, and a page number
    beyond [totalPages] shows nothing. Previous and Next do not leave the
    range of the pages. *)
Theorem page_sizes models st :
  0 < itemsPerPage st -> 1 <= currentPage st ->
  let shown := Z.of_nat (length (paginatedModels models st)) in
  shown <= itemsPerPage st
  /\ (currentPage st < totalPages models st -> shown = itemsPerPage st)
  /\ (currentPage st = totalPages models st -> 1 <= shown)
  /\ (totalPages models st < currentPage st -> shown = 0)
  /\ (currentPage st <= totalPages models st ->
      1 <= currentPage (previous st) <= totalPages models (previous st)
      /\ 1 <= currentPage (next toLowerCase models st)
           <= totalPages models (next toLowerCase models st)).
Proof.
  intros Hn Hp shown. subst shown.
  pose proof (totalPages_bounds models st Hn) as [Hlow Hup].
  rewrite paginatedModels_take_drop by assumption.
  rewrite length_take, length_drop.
  assert (Hprod : Z.of_nat (Z.to_nat (currentPage st - 1)
                            * Z.to_nat (itemsPerPage st))
                  = (currentPage st - 1) * itemsPerPage st)
    by (rewrite Nat2Z.inj_mul, !Z2Nat.id by lia; reflexivity).
  revert Hprod. generalize (Z.to_nat (currentPage st - 1)
                            * Z.to_nat (itemsPerPage st))%nat.
  intros skipped Hskipped.
  split_and!.
  - lia.
  - intros Hlt.
    assert (currentPage st * itemsPerPage st
            <= (totalPages models st - 1) * itemsPerPage st) by nia.
    lia.
  - intros Heq. rewrite Heq in Hskipped. lia.
  - intros Hgt.
    assert (totalPages models st * itemsPerPage st
            <= (currentPage st - 1) * itemsPerPage st) by nia.
    lia.
  - intros Hin. unfold previous, next.
    rewrite !totalPages_setCurrentPage. cbn [currentPage setCurrentPage]. lia.
Qed.

Lemma starts_with_spec p s :
  SyncRedis.starts_with p s = true <-> exists rest, s = p ++ rest.
Proof.
  unfold SyncRedis.starts_with. split.
  - destruct (SyncRedis.drop_prefix p s) as [rest|] eqn:E; [|discriminate].
    intros _. exists rest. now apply drop_prefix_Some.
  - intros [rest ->]. now rewrite drop_prefix_app.
Qed.

(** [includes] is the substring test. *)
Lemma includes_spec sub s :
  includes sub s = true <-> exists before rest, s = before ++ sub ++ rest.
Proof.
  split.
  - induction s as [|c s IH].
    + cbn [includes]. rewrite orb_false_r. intros [rest ->]%starts_with_spec.
      now exists "", rest.
    + cbn [includes]. intros [[rest ->]%starts_with_spec|Hin]%orb_true_iff.
      * now exists "", rest.
      * destruct (IH Hin) as (before & rest & ->).
        now exists (String c before), rest.
  - intros (before & rest & ->).
    induction before as [|c before IH].
    + change ("" ++ sub ++ rest) with (sub ++ rest).
      assert (Hs : SyncRedis.starts_with sub (sub ++ rest) = true)
        by (apply starts_with_spec; eauto).
      destruct (sub ++ rest); cbn [includes]; now rewrite Hs.
    + change (String c before ++ sub ++ rest)
        with (String c (before ++ sub ++ rest)).
      cbn [includes]. rewrite IH. apply orb_true_r.
Qed.

Lemma filter_sublist {A} (f : A -> bool) l : List.filter f l `sublist_of` l.
Proof.
  induction l as [|x l IH]; cbn; [constructor|].
  destruct (f x); now constructor.
Qed.

(** X21: the list shows the deployed models that pass every filter that is
    set, in the order they were given: the search, when not empty, wants
    the lower-cased query to occur in the lower-cased name or abbreviation;
    the status and the type filter, when not [all], want an exact match. *)
Theorem filteredModels_spec models st :
  filteredModels models st `sublist_of` models
  /\ forall m,
       m ∈ filteredModels models st <->
       m ∈ models
       /\ (searchQuery st = ""
           \/ exists before rest,
                toLowerCase (name m) = before ++ toLowerCase (searchQuery st) ++ rest
                \/ toLowerCase (abbr m) = before ++ toLowerCase (searchQuery st) ++ rest)
       /\ (statusFilter st = "all" \/ status m = statusFilter st)
       /\ (typeFilter st = "all" \/ type m = typeFilter st).
Proof.
  unfold ModelManager.filteredModels. split.
  - repeat case_match; repeat (etrans; [apply filter_sublist|]); reflexivity.
  - intros m.
    assert (Hsearch :
      (includes (toLowerCase (searchQuery st)) (toLowerCase (name m))
       || includes (toLowerCase (searchQuery st)) (toLowerCase (abbr m))) = true
      <-> exists before rest,
            toLowerCase (name m) = before ++ toLowerCase (searchQuery st) ++ rest
            \/ toLowerCase (abbr m) = before ++ toLowerCase (searchQuery st) ++ rest).
    { rewrite orb_true_iff, !includes_spec. split.
      - intros [(b & r & H)|(b & r & H)]; exists b, r; auto.
      - intros (b & r & [H|H]); [left|right]; eauto. }
    destruct (String.eqb_spec (searchQuery st) "") as [Hq|Hq];
      destruct (String.eqb_spec (statusFilter st) "all") as [Hs|Hs];
      destruct (String.eqb_spec (typeFilter st) "all") as [Ht|Ht];
      cbn [negb];
      rewrite !list_elem_of_In, ?filter_In, ?String.eqb_eq, ?Hsearch;
      intuition congruence.
Qed.

End ModelManagerFacts.

Lemma pages_cover_filtered_models_witness :
  concat ((fun i => ModelManager.paginatedModels (fun s => s) MoreExamples.deployed
                      (ModelManager.page i ModelManager.initialState))
            <$> seq 0 2)
  = MoreExamples.deployed.
Proof.
  apply (pages_cover_filtered_models (fun s => s) MoreExamples.deployed
           ModelManager.initialState).
  reflexivity.
Defined.

Lemma page_sizes_witness :
  Z.of_nat (length (ModelManager.paginatedModels (fun s => s) MoreExamples.deployed
                      (ModelManager.page 2 ModelManager.initialState))) = 0.
Proof.
  apply (page_sizes (fun s => s) MoreExamples.deployed
           (ModelManager.page 2 ModelManager.initialState));
    vm_compute; congruence.
Defined.

(** * The counters of the dashboard *)

Section DashboardFacts.
Import Dashboard.

(** X22: a model is counted under at most one status, so the four status
    counters never add up to more than the total, and they add up to the
    total exactly when every model has one of the four statuses; neither
    the type counters nor the quantized counter exceed the total. *)
Theorem stats_add_up models :
  let s := stats models in
  let known m := status m = "running" \/ status m = "stopped"
                 \/ status m = "deploying" \/ status m = "error" in
  (running s + stopped s + deploying s + error s <= total s)%nat
  /\ ((running s + stopped s + deploying s + error s = total s)%nat
      <-> Forall known models)
  /\ (llm s + embedding s <= total s)%nat
  /\ (quantized s <= total s)%nat.
Proof.
  cbn zeta. unfold stats, count. cbn [total running stopped deploying error
                                       llm embedding quantized].
  induction models as [|m models (IH1 & IH2 & IH3 & IH4)].
  - cbn. split_and!; try lia. split; [constructor|reflexivity].
  - cbn [List.filter length]. rewrite Forall_cons.
    destruct (String.eqb_spec (status m) "running") as [Er|Er];
      destruct (String.eqb_spec (status m) "stopped") as [Es|Es];
      destruct (String.eqb_spec (status m) "deploying") as [Ed|Ed];
      destruct (String.eqb_spec (status m) "error") as [Ee|Ee];
      try congruence;
      destruct (String.eqb_spec (type m) "llm") as [Tl|Tl];
      destruct (String.eqb_spec (type m) "embedding") as [Te|Te];
      try congruence;
      destruct (match quantization m with
                | Some q => String.eqb q "awq" || String.eqb q "gptq"
                | None => false
                end);
      cbn [length]; (split_and!; [lia| |lia|lia]);
      (split;
       [ intros Hsum; first [ exfalso; lia | split; [tauto | apply IH2; lia] ]
       | intros [Hk Hall]; apply IH2 in Hall;
         first [ lia | exfalso; destruct Hk as [?|[?|[?|?]]]; congruence ] ]).
Qed.

End DashboardFacts.

(** * The restart scripts *)

(** Case analysis on an argument against the literal patterns of a [case]. *)
Ltac arg_cases :=
  repeat match goal with
         | |- context [String.eqb ?arg ?lit] =>
             is_var arg; destruct (String.eqb_spec arg lit) as [->|?];
             try congruence
         end.

Section RestartFacts.
Import Restart.

Local Abbreviation service_of := (fun arg : string =>
  if one_of arg ["--orchestrator"; "-o"] then Some "orchestrator"
  else if one_of arg ["--frontend"; "-f"] then Some "frontend"
  else if one_of arg ["--nginx"; "-n"] then Some "nginx"
  else if one_of arg ["--redis"; "-r"] then Some "redis"
  else None).
Local Abbreviation quick := (fun arg : string => one_of arg ["--quick"; "-q"]).
Local Abbreviation option_arg := (fun arg : string =>
  one_of arg ["--orchestrator"; "-o"; "--frontend"; "-f"; "--nginx"; "-n";
              "--redis"; "-r"; "--quick"; "-q"]).

Lemma last_cons_default {A} (d x : A) l :
  default d (last (x :: l)) = default x (last l).
Proof. rewrite last_cons. now destruct (last l). Qed.

(** X23: the options of [restart.sh] are read from left to right up to the
    first argument that is not a service or quick option: if that argument
    is [--help] or [-h] the script exits with 0, otherwise with 1, and in
    both cases before any command. When every argument is an option, the
    service is that of the last service option (the one set before, which
    at the start is none, when there is no such option) and the restart is
    quick if it was so before (at the start it is not) or a quick option
    occurs anywhere. *)
Theorem restart_parse_outcome o args :
  parse o args
  = match List.find (fun arg => negb (option_arg arg)) args with
    | Some arg => Exit (if one_of arg ["--help"; "-h"] then 0 else 1)
    | None =>
        Proceed {| SERVICE := default (SERVICE o) (last (omap service_of args));
                   QUICK := QUICK o || existsb quick args |}
    end
  /\ SERVICE defaults = "" /\ QUICK defaults = false.
Proof.
  split; [|split; reflexivity].
  revert o. induction args as [|arg args IH]; intros [service q].
  - cbn. now rewrite orb_false_r.
  - cbn [parse List.find omap list_omap existsb]. unfold one_of. cbn [existsb].
    arg_cases; cbn - [last]; arg_cases; cbn - [last]; rewrite ?IH;
      try (destruct (List.find _ args); [reflexivity|];
           cbn [SERVICE QUICK]; rewrite ?last_cons_default, ?orb_true_r;
           reflexivity);
      reflexivity.
Qed.

Lemma model_line_not_command (e : Env) (models : list string) (step : Step) :
  (forall model, step <> ModelRunning model) ->
  (forall model, step <> ModelNeedsRedeploy model) ->
  step ∉ (fun model => if still_listed e model then ModelRunning model
                       else ModelNeedsRedeploy model) <$> models.
Proof.
  intros H1 H2 (model & -> & _)%list_elem_of_fmap.
  destruct (still_listed e model); [now apply (H1 model)|now apply (H2 model)].
Qed.

(** X24: [restart.sh] runs [sync_redis.sh] only on a full restart that is
    not quick, of a platform that is running, and when the script is
    executable; with a service option the one command is the restart of
    that service, quick or not; and a run that fails runs no command. *)
Theorem restart_run_sync args e :
  (SyncRedis ∈ (run args e).1 <->
   exists o, parse defaults args = Proceed o
             /\ platform_running e = true /\ SERVICE o = "" /\ QUICK o = false
             /\ sync_redis_executable e = true)
  /\ (forall o, parse defaults args = Proceed o ->
        platform_running e = true -> SERVICE o <> "" ->
        run args e = ([ComposeRestart (SERVICE o)], 0))
  /\ ((run args e).2 <> 0 -> (run args e).1 = []).
Proof.
  unfold run. destruct (parse defaults args) as [o|code].
  2:{ cbn [fst snd]. split_and!.
      - split; [intros []%elem_of_nil | intros (? & ? & _); discriminate].
      - intros; discriminate.
      - reflexivity. }
  destruct (platform_running e); cbn [negb].
  2:{ cbn [fst snd]. split_and!.
      - split; [intros ?%list_elem_of_singleton; discriminate
               | intros (? & _ & ? & _); discriminate].
      - intros; discriminate.
      - intros H. now contradict H. }
  destruct (String.eqb_spec (SERVICE o) "") as [Hs|Hs]; cbn [negb fst snd].
  - split_and!.
    + destruct (QUICK o) eqn:Hq;
        [|destruct (sync_redis_executable e) eqn:Hx].
      * split; [intros ?%list_elem_of_singleton; discriminate|].
        intros (? & [= <-] & _ & _ & ? & _). congruence.
      * split; [|intros _; right; right; now left].
        intros _. exists o. auto.
      * rewrite !elem_of_cons. split.
        -- intros [?|[?|[?|Hin]]]; try discriminate.
           now apply model_line_not_command in Hin.
        -- intros (? & _ & _ & _ & _ & ?). discriminate.
    + intros ? [= <-]. congruence.
    + intros H. now contradict H.
  - split_and!.
    + split; [intros ?%list_elem_of_singleton; discriminate|].
      intros (? & [= <-] & _ & ? & _). congruence.
    + now intros ? [= <-].
    + intros H. now contradict H.
Qed.

End RestartFacts.
Section RebuildFacts.
Import Rebuild.

Local Abbreviation one_of := Restart.one_of.
Local Abbreviation rebuilt := (fun arg : string =>
  if one_of arg ["--orchestrator"; "-o"] then Some "orchestrator"
  else if one_of arg ["--frontend"; "-f"] then Some "frontend"
  else None).
Local Abbreviation rebuild_option := (fun arg : string =>
  one_of arg ["--no-cache"; "-n"; "--orchestrator"; "-o"; "--frontend"; "-f";
              "--keep-models"; "-k"; "--clear-datastore"; "-c"; "--all"; "-a"]).

(** X25: [restart-rebuild.sh] reads its options like [restart.sh]: the
    first argument that is not an option ends the script, with 0 for
    [--help] or [-h] and with 1 otherwise. When every argument is an option,
    each switch is on if it was on before (at the start none is) or its
    option occurs anywhere, [--all] also turns on [--no-cache], and the
    service is that of the last of [--orchestrator] and [--frontend] (at
    the start there is none): no option selects nginx or redis. *)
Theorem rebuild_parse_outcome o args :
  parse o args
  = match List.find (fun arg => negb (rebuild_option arg)) args with
    | Some arg => Exit (if one_of arg ["--help"; "-h"] then 0 else 1)
    | None =>
        Proceed
          {| NO_CACHE :=
               NO_CACHE o
               || existsb (fun arg => one_of arg ["--no-cache"; "-n"; "--all"; "-a"])
                          args;
             SERVICE := default (SERVICE o) (last (omap rebuilt args));
             KEEP_MODELS :=
               KEEP_MODELS o
               || existsb (fun arg => one_of arg ["--keep-models"; "-k"]) args;
             CLEAR_DATASTORE :=
               CLEAR_DATASTORE o
               || existsb (fun arg => one_of arg ["--clear-datastore"; "-c"]) args;
             ALL := ALL o || existsb (fun arg => one_of arg ["--all"; "-a"]) args |}
    end
  /\ defaults = {| NO_CACHE := false; SERVICE := ""; KEEP_MODELS := false;
                   CLEAR_DATASTORE := false; ALL := false |}.
Proof.
  split; [|reflexivity].
  revert o. induction args as [|arg args IH]; intros [n s k c a].
  - cbn. now rewrite !orb_false_r.
  - cbn [parse List.find omap list_omap existsb]. unfold Restart.one_of.
    cbn [existsb].
    arg_cases; cbn - [last]; arg_cases; cbn - [last]; rewrite ?IH;
      try (destruct (List.find _ args); [reflexivity|];
           cbn [NO_CACHE SERVICE KEEP_MODELS CLEAR_DATASTORE ALL];
           rewrite ?last_cons_default, ?orb_true_r; reflexivity);
      reflexivity.
Qed.

(** The argument loop never sets a service other than the two that can be
    rebuilt. *)
Lemma rebuild_parse_service o args o' :
  parse o args = Proceed o' ->
  SERVICE o' = SERVICE o \/ SERVICE o' = "orchestrator" \/ SERVICE o' = "frontend".
Proof.
  revert o. induction args as [|arg args IH]; intros o.
  - intros [= <-]. now left.
  - cbn [parse]. unfold Restart.one_of. cbn [existsb].
    arg_cases; cbn [orb]; try discriminate;
      intros [H|H]%IH; cbn [SERVICE] in H; auto.
Qed.

Lemma rebuild_service args o :
  parse defaults args = Proceed o ->
  SERVICE o = "" \/ SERVICE o = "orchestrator" \/ SERVICE o = "frontend".
Proof. intros H%rebuild_parse_service. exact H. Qed.

Lemma kept_line_not_command (e : Env) (models : list string) (step : Step) :
  (forall model, step <> ModelStillRunning model) ->
  (forall model, step <> ModelMayNeedRestart model) ->
  step ∉ (fun model => if still_listed e model then ModelStillRunning model
                       else ModelMayNeedRestart model) <$> models.
Proof.
  intros H1 H2 (model & -> & _)%list_elem_of_fmap.
  destruct (still_listed e model); [now apply (H1 model)|now apply (H2 model)].
Qed.

Lemma check_not_command o e (step : Step) :
  (forall model, step <> ModelStillRunning model) ->
  (forall model, step <> ModelMayNeedRestart model) ->
  step ∉ check o e.
Proof.
  intros H1 H2. unfold check.
  destruct (_ && _); [now apply kept_line_not_command|apply not_elem_of_nil].
Qed.

Ltac steps :=
  rewrite ?elem_of_app, ?elem_of_cons, ?elem_of_nil;
  intuition (discriminate || congruence).

(** X26: [restart-rebuild.sh] stops the model containers when the
    datastore is cleared, whether or not they were to be kept, and otherwise
    only on a full rebuild without [--keep-models]. It replaces the routes
    file by the empty one when the datastore is cleared, and otherwise only
    on a full rebuild that finds the file and no model container after the
    build. It restarts the orchestrator once more unless only the frontend
    is rebuilt. *)
Theorem rebuild_run_models args e o :
  parse defaults args = Proceed o ->
  compose_installed e = true ->
  let ran := (run args e).1 in
  (StopModels ∈ ran <->
   CLEAR_DATASTORE o = true \/ (SERVICE o = "" /\ KEEP_MODELS o = false))
  /\ (WriteEmptyRoutes ∈ ran <->
      CLEAR_DATASTORE o = true
      \/ (SERVICE o = "" /\ models_at_cleanup e = [] /\ routes_file e = true))
  /\ (RestartOrchestrator ∈ ran <-> SERVICE o <> "frontend").
Proof.
  intros Hparse Hcompose ran. subst ran. unfold run.
  pose proof (rebuild_service args o Hparse) as Hservice.
  rewrite Hparse, Hcompose. cbn [negb fst].
  assert (Hnginx : SERVICE o <> "nginx")
    by (destruct Hservice as [?|[?|?]]; congruence).
  rewrite !elem_of_app. split_and!.
  - pose proof (check_not_command o e StopModels
                  ltac:(discriminate) ltac:(discriminate)).
    assert (StopModels ∉ build o e) by (unfold build; repeat case_match; steps).
    assert (StopModels ∉ cleanup o e) by (unfold cleanup; case_match; steps).
    assert (StopModels ∉ start o e) by (unfold start; case_match; steps).
    assert (StopModels ∉ apply_changes o e)
      by (unfold apply_changes; repeat case_match; steps).
    unfold clear, stop, chosen.
    destruct (String.eqb_spec (SERVICE o) "");
      destruct (CLEAR_DATASTORE o), (KEEP_MODELS o), (redis_running e);
      cbn [negb andb app]; steps.
  - pose proof (check_not_command o e WriteEmptyRoutes
                  ltac:(discriminate) ltac:(discriminate)).
    assert (WriteEmptyRoutes ∉ stop o) by (unfold stop; repeat case_match; steps).
    assert (WriteEmptyRoutes ∉ build o e) by (unfold build; repeat case_match; steps).
    assert (WriteEmptyRoutes ∉ start o e) by (unfold start; case_match; steps).
    assert (WriteEmptyRoutes ∉ apply_changes o e)
      by (unfold apply_changes; repeat case_match; steps).
    unfold clear, cleanup, RUNNING_MODELS, routes_checked, chosen.
    destruct (String.eqb_spec (SERVICE o) "");
      destruct (String.eqb_spec (SERVICE o) "nginx"); try congruence;
      destruct (CLEAR_DATASTORE o), (redis_running e),
        (models_at_cleanup e) as [|model running], (routes_file e);
      cbn [negb andb orb nonempty app]; steps.
  - pose proof (check_not_command o e RestartOrchestrator
                  ltac:(discriminate) ltac:(discriminate)).
    assert (RestartOrchestrator ∉ clear o e)
      by (unfold clear; repeat case_match; steps).
    assert (RestartOrchestrator ∉ stop o) by (unfold stop; repeat case_match; steps).
    assert (RestartOrchestrator ∉ build o e)
      by (unfold build; repeat case_match; steps).
    assert (RestartOrchestrator ∉ cleanup o e)
      by (unfold cleanup; case_match; steps).
    assert (RestartOrchestrator ∉ start o e) by (unfold start; case_match; steps).
    unfold apply_changes, chosen.
    destruct (String.eqb_spec (SERVICE o) "");
      destruct (String.eqb_spec (SERVICE o) "orchestrator");
      destruct (String.eqb_spec (SERVICE o) "frontend");
      try (exfalso; destruct Hservice as [?|[?|?]]; congruence);
      cbn [negb andb orb app]; repeat case_match; steps.
Qed.

End RebuildFacts.
(** * Further properties of the session and of the key list *)

Section SessionTimers.
Import AuthContext.
Variable parseInt : string -> option Z.

(** The timers of [s'] are those of [s], followed by at most one more, with
    a positive delay. *)
Local Abbreviation extends s s' :=
  (exists added, timers s' = (timers s ++ added)%list
                 /\ Forall (fun delay => 0 < delay) added
                 /\ (length added <= 1)%nat).

Lemma extends_refl s s' : timers s' = timers s -> extends s s'.
Proof.
  intros ->. exists []. rewrite app_nil_r. split_and!; [reflexivity|constructor|].
  cbn. lia.
Qed.

Lemma scheduleLogout_extends x now s s0 :
  timers s = timers s0 -> extends s0 (scheduleLogout parseInt x now s).
Proof.
  intros Hs. unfold scheduleLogout. destruct (parseInt x) as [e|];
    [|now apply extends_refl].
  destruct (Z.ltb_spec 0 (e - now)); [|now apply extends_refl].
  exists [e - now]. cbn [timers]. rewrite Hs.
  split_and!; [reflexivity|now repeat constructor|]. cbn. lia.
Qed.

(** X27: no operation of the session cancels a logout timer: logging out,
    logging in, loading the page and a failed request all leave the timers
    that were set in place, so a timer set for an earlier token still runs
    after a later login. A login or a page load adds at most one timer, and
    only with a positive delay. *)
Theorem timers_never_cancelled s :
  extends s (logout s)
  /\ (forall authToken now, extends s (login parseInt authToken now s))
  /\ (forall now1 now2, extends s (onMount parseInt now1 now2 s))
  /\ (forall fetch url options,
        extends s (fetchWithAuth fetch url options s).1).
Proof.
  split_and!.
  - now apply extends_refl.
  - intros authToken now. unfold login. cbn [localStorage].
    destruct (localStorage s !! "token_expires") as [x|];
      [|now apply extends_refl].
    destruct (truthy (Some x)); [|now apply extends_refl].
    now apply scheduleLogout_extends.
  - intros now1 now2. unfold onMount.
    destruct (localStorage s !! "auth_token") as [t|];
      [|now apply extends_refl].
    destruct (localStorage s !! "token_expires") as [x|];
      [|now apply extends_refl].
    destruct (truthy (Some t) && truthy (Some x)); [|now apply extends_refl].
    destruct (parseInt x) as [e|] eqn:Ep; [|now apply extends_refl].
    destruct (now1 <? e); [|now apply extends_refl].
    destruct (scheduleLogout_extends x now2
                {| state := {| isAuthenticated := true; token := Some t;
                               loading := loading (state s) |};
                   localStorage := localStorage s; timers := timers s |}
                s eq_refl) as (added & Hadded & Hpos & Hlen).
    exists added. cbn [timers]. auto.
  - intros fetch url options. unfold fetchWithAuth.
    destruct (_ =? 401); now apply extends_refl.
Qed.

End SessionTimers.

Section KeyListFacts.
Import ApiKeyManager.

(** X28: the eye button of a row toggles every row with the same
    [full_key] and no other; a second click undoes the first. A row whose
    toggle is turned on shows its [full_key], which for a row without one
    (they all share the toggle of [undefined]) is the empty text; a row
    whose toggle is turned off shows the mask again. *)
Theorem toggleKeyVisibility_rows key visibleKeys (apiKey : ApiKey) :
  let toggled := toggleKeyVisibility key visibleKeys in
  toggleKeyVisibility key toggled = visibleKeys
  /\ (apiKey !! "full_key" <> key ->
      keyText toggled apiKey = keyText visibleKeys apiKey)
  /\ (apiKey !! "full_key" = key -> key ∉ visibleKeys ->
      keyText toggled apiKey = default "" key)
  /\ (apiKey !! "full_key" = key -> key ∈ visibleKeys ->
      keyText toggled apiKey = maskKey (or_else key (apiKey !! "key"))).
Proof.
  cbn zeta. unfold toggleKeyVisibility, keyText.
  destruct (decide (key ∈ visibleKeys)) as [Hin|Hout].
  - split_and!.
    + rewrite decide_False
        by (rewrite elem_of_difference, elem_of_singleton; tauto).
      apply set_eq. intros k.
      rewrite elem_of_union, elem_of_difference, elem_of_singleton.
      destruct (decide (k = key)) as [->|]; tauto.
    + intros Hne. destruct (decide (apiKey !! "full_key" ∈ visibleKeys));
        [ rewrite decide_True
            by (rewrite elem_of_difference, elem_of_singleton; tauto)
        | rewrite decide_False
            by (rewrite elem_of_difference, elem_of_singleton; tauto) ];
        reflexivity.
    + intros _ Hout. contradiction.
    + intros -> _.
      rewrite decide_False
        by (rewrite elem_of_difference, elem_of_singleton; tauto).
      reflexivity.
  - split_and!.
    + rewrite decide_True by (rewrite elem_of_union, elem_of_singleton; tauto).
      apply set_eq. intros k.
      rewrite elem_of_difference, elem_of_union, elem_of_singleton.
      destruct (decide (k = key)) as [->|]; tauto.
    + intros Hne. destruct (decide (apiKey !! "full_key" ∈ visibleKeys));
        [ rewrite decide_True
            by (rewrite elem_of_union, elem_of_singleton; tauto)
        | rewrite decide_False
            by (rewrite elem_of_union, elem_of_singleton; tauto) ];
        reflexivity.
    + intros -> _.
      rewrite decide_True by (rewrite elem_of_union, elem_of_singleton; tauto).
      reflexivity.
    + intros _ Hin. contradiction.
Qed.

End KeyListFacts.

Section StreamShown.
Import ChatPlayground ChatSend ChatStream.
Variable trim : string -> string.

(** X29: after a send that passed the guard, the text read from the stream
    is shown in the empty assistant message that the send appended, and
    nowhere else; a conversation that does not end with an assistant message
    is left as it is. *)
Theorem showContent_fills_placeholder models ui ui' call fullContent :
  ¬ ChatSend.blocked trim ui ->
  handleSend trim models ui = (ui', call) ->
  showContent fullContent (messages (chat ui'))
    = (messages (chat ui)
       ++ [ {| role := "user"; content := trim (input ui) |};
            {| role := "assistant"; content := fullContent |} ])%list
  /\ forall msgs,
       (forall m, last msgs = Some m -> role m <> "assistant") ->
       showContent fullContent msgs = msgs.
Proof.
  intros Hb H. rewrite handleSend_guard_false in H by exact Hb.
  cbn zeta in H. injection H as <- _. cbn [chat messages]. split.
  - unfold showContent. rewrite reverse_app. cbn [reverse app].
    change (reverse [?a; ?b]) with [b; a]. cbn [app role].
    change (String.eqb "assistant" "assistant") with true. cbn iota.
    rewrite reverse_cons, reverse_cons, reverse_involutive, <- app_assoc.
    reflexivity.
  - intros msgs Hlast. unfold showContent.
    destruct (reverse msgs) as [|lastMsg before] eqn:Hrev; [reflexivity|].
    destruct (String.eqb_spec (role lastMsg) "assistant") as [Hrole|_];
      [|reflexivity].
    exfalso. apply (Hlast lastMsg); [|exact Hrole].
    rewrite <- (reverse_involutive msgs), Hrev, reverse_cons. apply last_snoc.
Qed.

End StreamShown.

(** * Instances *)

Lemma showContent_fills_placeholder_witness :
  ChatStream.showContent "Hi!"
    (ChatPlayground.messages (ChatSend.chat
       (ChatSend.handleSend MoreExamples.trimmed Examples.models
          MoreExamples.typedHello).1))
  = [ Examples.hello;
      {| ChatPlayground.role := "assistant"; ChatPlayground.content := "Hi!" |} ].
Proof.
  exact (proj1 (showContent_fills_placeholder MoreExamples.trimmed Examples.models
                  MoreExamples.typedHello _ _ "Hi!" typedHello_not_blocked
                  (surjective_pairing _))).
Defined.

Lemma onMount_expired_clears_witness :
  AuthContext.state
    (AuthContext.onMount MoreExamples.parseInt 1700000000001 1700000000002
       (AuthContext.pageLoad MoreExamples.stored))
  = {| AuthContext.isAuthenticated := false; AuthContext.token := None;
       AuthContext.loading := false |}.
Proof.
  refine (proj1 (onMount_expired_clears MoreExamples.parseInt MoreExamples.stored
                   1700000000001 1700000000002 "t0k3n" "1700000000000"
                   _ _ _ _ _));
    try reflexivity; try discriminate.
Defined.

Lemma sync_redis_writes_record_witness :
  SyncRedis.gpu_assignment
    (SyncRedis.redis
       (SyncRedis.sync_redis
          (SyncExamples.host ["MIND_REDIS_STORE"; "MIND_MODEL_qwen1.5b"]
             "Qwen/Qwen2.5-1.5B-Instruct") SyncExamples.system).1)
    !! "qwen1.5b" = Some "1".
Proof.
  refine (proj1 (sync_redis_writes_record
                   (SyncExamples.host ["MIND_REDIS_STORE"; "MIND_MODEL_qwen1.5b"]
                      "Qwen/Qwen2.5-1.5B-Instruct")
                   SyncExamples.system "MIND_MODEL_qwen1.5b"
                   (SyncExamples.engine "Qwen/Qwen2.5-1.5B-Instruct" "1")
                   _ _ _ _ _)).
  - discriminate.
  - apply (bool_decide_unpack _). vm_compute. exact I.
  - reflexivity.
  - reflexivity.
  - vm_compute. discriminate.
Defined.

Lemma sync_redis_stale_assignment_witness :
  SyncRedis.models
    (SyncRedis.redis
       (SyncRedis.sync_redis
          (SyncExamples.host ["MIND_REDIS_STORE"; "MIND_MODEL_qwen1.5b"]
             "Qwen/Qwen2.5-1.5B-Instruct") SyncExamples.system).1)
    !! "llama8b" = None.
Proof.
  refine (proj1 (sync_redis_stale_assignment
                   (SyncExamples.host ["MIND_REDIS_STORE"; "MIND_MODEL_qwen1.5b"]
                      "Qwen/Qwen2.5-1.5B-Instruct")
                   SyncExamples.system "llama8b" _ _)).
  - eexists. vm_compute. reflexivity.
  - vm_compute. reflexivity.
Defined.

Lemma sync_redis_paths_distinct_witness :
  NoDup (SyncRedis.path <$>
           SyncRedis.locations
             (SyncRedis.conf
                (SyncRedis.sync_redis
                   (SyncExamples.host ["MIND_MODEL_qwen1.5b"; "MIND_MODEL_bge-m3"]
                      "Qwen/Qwen2.5-1.5B-Instruct") SyncExamples.system).1)).
Proof.
  apply (sync_redis_paths_distinct
           (SyncExamples.host ["MIND_MODEL_qwen1.5b"; "MIND_MODEL_bge-m3"]
              "Qwen/Qwen2.5-1.5B-Instruct") SyncExamples.system).
  - reflexivity.
  - vm_compute. discriminate.
  - apply (bool_decide_unpack _). vm_compute. exact I.
Defined.

Lemma GPU_DEVICE_first_variable_witness :
  SyncRedis.GPU_DEVICE
    ["PATH=/usr/local/bin"; "CUDA_VISIBLE_DEVICES=1"; "CUDA_VISIBLE_DEVICES=2"]
  = "1".
Proof.
  refine (proj2 (GPU_DEVICE_first_variable ["PATH=/usr/local/bin"] _)
            "1" ["CUDA_VISIBLE_DEVICES=2"]).
  repeat constructor.
Defined.

Lemma model_arg_first_flag_witness :
  SyncRedis.model_arg ["--port"; "8000"; "--model"; "acme/m"; "--model"; "other"]
  = "acme/m".
Proof.
  refine (proj2 (proj2 (model_arg_first_flag ["--port"; "8000"] _))
            "acme/m" ["--model"; "other"]).
  apply (bool_decide_unpack _). vm_compute. exact I.
Defined.

Lemma catalog_lookup_first_match_witness :
  SyncRedis.catalog_lookup (SyncRedis.Models SyncExamples.catalog)
    (fun _ _ => ("", "")) "myqwen" "Qwen/Qwen2.5-1.5B-Instruct"
  = ("Qwen/Qwen2.5-1.5B-Instruct", "llm").
Proof.
  refine (catalog_lookup_first_match SyncExamples.catalog (fun _ _ => ("", ""))
            "myqwen" "Qwen/Qwen2.5-1.5B-Instruct" _ _ _ _).
  - reflexivity.
  - reflexivity.
  - reflexivity.
  - repeat constructor.
Defined.

Lemma rebuild_run_models_witness :
  Rebuild.StopModels
    ∈ (Rebuild.run ["--keep-models"; "--clear-datastore"] MoreExamples.rebuildHost).1.
Proof.
  refine (proj2 (proj1 (rebuild_run_models ["--keep-models"; "--clear-datastore"]
                          MoreExamples.rebuildHost
                          {| Rebuild.NO_CACHE := false; Rebuild.SERVICE := "";
                             Rebuild.KEEP_MODELS := true;
                             Rebuild.CLEAR_DATASTORE := true;
                             Rebuild.ALL := false |}
                          eq_refl eq_refl)) _).
  left. reflexivity.
Defined.

Lemma sync_redis_skips_unknown_witness :
  SyncRedis.NotInCatalog "mystery"
    ∈ (SyncRedis.sync_redis
         (SyncExamples.host ["MIND_MODEL_mystery"] "acme/mystery-7b")
         SyncExamples.system).2.
Proof.
  refine (proj2 (sync_redis_skips_unknown
                   (SyncExamples.host ["MIND_MODEL_mystery"] "acme/mystery-7b")
                   SyncExamples.system SyncExamples.catalog "MIND_MODEL_mystery"
                   (SyncExamples.engine "acme/mystery-7b" "1")
                   _ _ _ _ _ _ _ _ _ _)).
  - reflexivity.
  - apply (bool_decide_unpack _). vm_compute. exact I.
  - apply (bool_decide_unpack _). vm_compute. exact I.
  - reflexivity.
  - reflexivity.
  - reflexivity.
  - reflexivity.
  - reflexivity.
  - apply (bool_decide_unpack _). vm_compute. exact I.
  - right. apply (bool_decide_unpack _). vm_compute. exact I.
Defined.
